(** * discord_twitter_webhooks.send_webhook: a shallow embedding

    The module [send_webhook.py] builds a Discord embed for a tweet, sends it
    to every webhook of a comma separated list, reports failures through an
    error webhook, and stages media files in a temporary directory.

    The Python functions are written here as functions of a small state and
    exception monad over a [World]: the event trace (log lines and network
    requests), the file system, the live temporary directories.  What the
    program cannot decide itself (the answers of the network, the random
    generator, the JSON parser of the standard library, the names chosen by
    [tempfile]) is a parameter of the development. *)

From Stdlib Require Import String Ascii List ZArith Lia Bool.
From Stdlib Require DecimalString.
From stdpp Require Import base option list gmap strings.
Import ListNotations.

Local Open Scope Z_scope.
Local Open Scope string_scope.
Local Open Scope list_scope.

(** ** Python strings and integers

    A [str] is modelled as a [string] whose characters are code points below
    256, so that [len] is [String.length]. *)

Module Py.

(** Truth value of a [str]: only the empty string is false. *)
Definition truthy (s : string) : bool := negb (s =? "").

(** [a or b] on strings. *)
Definition or (a b : string) : string := if truthy a then a else b.

(** [s[n:]] *)
Fixpoint slice_from (n : nat) (s : string) : string :=
  match n, s with
  | O, _ => s
  | S _, EmptyString => EmptyString
  | S n', String _ s' => slice_from n' s'
  end.

(** [s.split(sep)] for a one-character separator: never the empty list. *)
Fixpoint split (sep : ascii) (s : string) : list string :=
  match s with
  | EmptyString => [EmptyString]
  | String c s' =>
      if Ascii.eqb c sep then EmptyString :: split sep s'
      else match split sep s' with
           | [] => [String c EmptyString]
           | x :: xs => String c x :: xs
           end
  end.

(** [l[-1]] on a list of strings that [split] returned. *)
Definition last_item (l : list string) : string := List.last l EmptyString.

(** [str(n)] for an [int]. *)
Definition str (n : Z) : string :=
  DecimalString.NilZero.string_of_int (Z.to_int n).

(** The digit of base 16 for a value below 16, in lower case. *)
Definition hex_digit (d : N) : ascii :=
  if (d <? 10)%N then ascii_of_N (48 + d) else ascii_of_N (87 + d).

(** The digits of [n] in base 16, most significant first; [fuel] bounds
    their number. *)
Fixpoint hex_digits (fuel : nat) (n : N) : list ascii :=
  match fuel with
  | O => []
  | S fuel' =>
      (if (n <? 16)%N then [] else hex_digits fuel' (n / 16))
      ++ [hex_digit (n mod 16)]
  end.

(** [hex(n)]: sign, ["0x"], lower-case digits without leading zeros. *)
Definition hex (n : Z) : string :=
  (if (n <? 0)%Z then "-" else "") +:+ "0x" +:+
  string_of_list_ascii
    (hex_digits (S (N.to_nat (N.log2 (Z.abs_N n)))) (Z.abs_N n)).

(** White space as [int()] sees it (Py_UNICODE_ISSPACE below 256). *)
Definition is_space (c : ascii) : bool :=
  let n := nat_of_ascii c in
  (((9 <=? n) && (n <=? 13)) || ((28 <=? n) && (n <=? 32))
   || (n =? 133) || (n =? 160))%nat.

(** The value of a digit of base 16: [0-9], [a-f] or [A-F]. *)
Definition hex_digit_value (c : ascii) : option Z :=
  let code := Z.of_nat (nat_of_ascii c) in
  if (48 <=? code)%Z && (code <=? 57)%Z then Some (code - 48)
  else if (97 <=? code)%Z && (code <=? 102)%Z then Some (code - 87)
  else if (65 <=? code)%Z && (code <=? 70)%Z then Some (code - 55)
  else None.

Definition is_hex_digit (c : ascii) : bool :=
  match hex_digit_value c with Some _ => true | None => false end.

Fixpoint lstrip (cs : list ascii) : list ascii :=
  match cs with
  | c :: cs' => if is_space c then lstrip cs' else cs
  | [] => []
  end.

Definition strip (cs : list ascii) : list ascii :=
  rev (lstrip (rev (lstrip cs))).

(** The digits of [int(_, 16)]: hexadecimal digits, one underscore allowed
    between two digits, at least one digit. [after_digit] tells whether the
    previous character was a digit. *)
Fixpoint int16_digits (acc : Z) (after_digit : bool) (cs : list ascii)
  : option Z :=
  match cs with
  | [] => if after_digit then Some acc else None
  | c :: cs' =>
      if Ascii.eqb c "_" then
        if after_digit then int16_digits acc false cs' else None
      else
        match hex_digit_value c with
        | Some d => int16_digits (16 * acc + d) true cs'
        | None => None
        end
  end.

(** [int(s, 16)]; [None] stands for [ValueError]. White space around the
    number, a sign, a [0x] prefix (with one underscore after it) are
    accepted as CPython does. *)
Definition int16 (s : string) : option Z :=
  let cs := strip (list_ascii_of_string s) in
  let '(negative, cs) :=
    match cs with
    | "+"%char :: r => (false, r)
    | "-"%char :: r => (true, r)
    | _ => (false, cs)
    end in
  let cs :=
    match cs with
    | "0"%char :: x :: r =>
        if Ascii.eqb x "x" || Ascii.eqb x "X" then
          match r with "_"%char :: r' => r' | _ => r end
        else cs
    | _ => cs
    end in
  match int16_digits 0 false cs with
  | Some v => Some (if negative then - v else v)
  | None => None
  end.

End Py.

(** ** Data model *)

(** The options of [settings] that [send_webhook.py] reads. The module that
    defines them is not part of the sources at hand, so a snapshot of their
    values is a parameter. Options tested for truth only are booleans;
    [send_errors] is compared with the text ["True"]. *)
Record Settings := {
  webhook_footer_icon : string;
  webhook_footer_text : string;
  webhook_author_icon : string;
  webhook_author_name : string;
  webhook_author_url : string;
  webhook_image : string;
  webhook_thumbnail : string;
  webhook_show_timestamp : bool;
  use_title : bool;
  use_author : bool;
  webhook_embed_color : string;
  webhook_randomize_embed_color : bool;
  collage_maker_url : string;
  error_webhook : string;
  send_errors : string;
  upload_images : bool;
  append_image_links : bool
}.

Record Author := {
  author_name : string;
  author_url : string;
  author_icon_url : string
}.

Record Footer := {
  footer_text : option string;
  footer_icon_url : option string
}.

(** A [DiscordEmbed], with the fields this module sets. *)
Record Embed := {
  description : string;
  image : option string;
  thumbnail : option string;
  timestamp : bool;
  footer : option Footer;
  title : option string;
  author : option Author;
  color : option Z
}.

(** A [DiscordWebhook] at the time of [execute()]. [files] lists the
    [add_file] calls, file name and content, in order. *)
Record Webhook := {
  url : string;
  content : option string;
  rate_limit_retry : bool;
  embeds : list Embed;
  files : list (string * string)
}.

Inductive request :=
| Execute (hook : Webhook)
| Get (target : string) (params : list (string * string)) (stream : bool)
| Head (target : string).

(** A [requests.Response]: [ok] holds for a status below 400, [text] is
    the body (also what [iter_content] hands out). *)
Record Response := {
  ok : bool;
  status_code : Z;
  text : string
}.

Inductive exn :=
| RecursionError
| ValueError
| KeyError
| TypeError
| JSONDecodeError
| FileNotFoundError
| IsADirectoryError
| Timeout
| ConnectionError
| MissingSchema.

Inductive net_outcome :=
| Responds (r : Response)
| Fails (e : exn).

(** What [json.loads] returns. *)
#[warnings="-register-all"]
Inductive json :=
| JNull
| JBool (b : bool)
| JNumber (repr : string)
| JString (s : string)
| JArray (items : list json)
| JObject (members : list (string * json)).

Inductive level := DEBUG | INFO | ERROR.

(** What the program does to the outside, in the order it does it: a log
    line (the format string and its arguments) or a network request. *)
Inductive event :=
| Log (lvl : level) (fmt : string) (args : list string)
| Net (rq : request).

(** The state the program runs in. [trace] has the most recent event first.
    [fs] maps the path of a regular file to its content, [tmpdirs] lists the
    temporary directories that exist on disk. *)
Record World := {
  trace : list event;
  fs : gmap string string;
  tmpdirs : list string;
  tmp_created : nat;
  rand_drawn : nat
}.

(** The collaborators the program calls: the network answers a request
    knowing what happened before it, [randint_answer k] is the value of the
    [k]-th call to [randint(0, 16777215)], [json_loads] is [json.loads]
    ([None] for [JSONDecodeError]), [mkdtemp k] is the name of the [k]-th
    temporary directory. *)
Record Outside := {
  net : list event -> request -> net_outcome;
  randint_answer : nat -> Z;
  json_loads : string -> option json;
  mkdtemp : nat -> string
}.

(** ** The monad: state, and exceptions that keep the state *)

Inductive Res (A : Type) :=
| Return (a : A) (w : World)
| Raise (e : exn) (w : World).
Arguments Return {A} a w.
Arguments Raise {A} e w.

Definition M (A : Type) : Type := World -> Res A.

Definition ret {A} (a : A) : M A := fun w => Return a w.

Definition raise {A} (e : exn) : M A := fun w => Raise e w.

Definition bind {A B} (m : M A) (k : A -> M B) : M B :=
  fun w =>
    match m w with
    | Return a w' => k a w'
    | Raise e w' => Raise e w'
    end.

Declare Scope py_scope.
Delimit Scope py_scope with py.
Notation "x <- m ;; k" := (bind m (fun x => k))
  (at level 100, m at next level, right associativity) : py_scope.
Notation "m ;; k" := (bind m (fun _ => k))
  (at level 100, right associativity) : py_scope.
Local Open Scope py_scope.

(** [for x in xs: body(x)] *)
Fixpoint for_each {A} (xs : list A) (body : A -> M unit) : M unit :=
  match xs with
  | [] => ret tt
  | x :: xs' => body x ;; for_each xs' body
  end.

Definition with_trace (t : list event) (w : World) : World :=
  {| trace := t; fs := fs w; tmpdirs := tmpdirs w;
     tmp_created := tmp_created w; rand_drawn := rand_drawn w |}.

Definition with_fs (f : gmap string string) (w : World) : World :=
  {| trace := trace w; fs := f; tmpdirs := tmpdirs w;
     tmp_created := tmp_created w; rand_drawn := rand_drawn w |}.

(** The world after one call of [randint]. *)
Definition after_draw (w : World) : World :=
  {| trace := trace w; fs := fs w; tmpdirs := tmpdirs w;
     tmp_created := tmp_created w; rand_drawn := S (rand_drawn w) |}.

Definition emit (e : event) : M unit :=
  fun w => Return tt (with_trace (e :: trace w) w).

(** [logger.debug], [logger.info], [logger.error] *)
Definition log (lvl : level) (fmt : string) (args : list string) : M unit :=
  emit (Log lvl fmt args).

(** ** World primitives *)

(** A path whose last component is empty, [.] or [..] names a directory:
    [open] raises [IsADirectoryError] on it. *)
Definition names_directory (path : string) : bool :=
  let name := Py.last_item (Py.split "/" path) in
  (name =? "") || (name =? ".") || (name =? "..").

(** [Path(path).name] for a path in normal form. *)
Definition path_name (path : string) : string :=
  Py.last_item (Py.split "/" path).

(** [Path.open(Path(path), "wb")]: the file is created or emptied. *)
Definition open_wb (path : string) : M unit :=
  fun w =>
    if names_directory path then Raise IsADirectoryError w
    else Return tt (with_fs (<[path := ""]> (fs w)) w).

(** [f.write(chunk)] on the file opened at [path]. *)
Definition write (path chunk : string) : M unit :=
  fun w =>
    let old := default "" (fs w !! path) in
    Return tt (with_fs (<[path := old +:+ chunk]> (fs w)) w).

(** [Path.open(Path(path), "rb")] followed by [f.read()]. *)
Definition read_rb (path : string) : M string :=
  fun w =>
    if names_directory path then Raise IsADirectoryError w
    else match fs w !! path with
         | Some data => Return data w
         | None => Raise FileNotFoundError w
         end.

Fixpoint iter_content_from (fuel size : nat) (body : string) : list string :=
  match fuel with
  | O => []
  | S fuel' =>
      if body =? "" then []
      else String.substring 0 size body
           :: iter_content_from fuel' size (Py.slice_from size body)
  end.

(** [res.iter_content(size)]: the body of the response, cut in pieces of
    [size] characters. *)
Definition iter_content (size : nat) (body : string) : list string :=
  iter_content_from (String.length body) size body.

(** Is [path] inside the directory [dir]? *)
Definition inside (dir path : string) : bool :=
  String.prefix (dir +:+ "/") path.

(** [temp_dir.cleanup()]: the directory and all it holds are removed. *)
Definition cleanup (dir : string) : M unit :=
  fun w =>
    Return tt
      {| trace := trace w;
         fs := filter (fun kv => inside dir kv.1 = false) (fs w);
         tmpdirs := List.filter (fun d => negb (d =? dir)) (tmpdirs w);
         tmp_created := tmp_created w; rand_drawn := rand_drawn w |}.

Definition newline : string := String (ascii_of_nat 10) EmptyString.

(** Constructors and setters of [DiscordEmbed] and [DiscordWebhook]; the
    setters of the library change the object in place, here they give the
    changed value. [embed_set_color] is [embed.set_color] called with an
    [int]: it stores the integer. *)
Definition DiscordEmbed (descr : string) : Embed :=
  {| description := descr; image := None; thumbnail := None;
     timestamp := false; footer := None; title := None; author := None;
     color := None |}.

Definition set_image (u : string) (e : Embed) : Embed :=
  {| description := description e; image := Some u; thumbnail := thumbnail e;
     timestamp := timestamp e; footer := footer e; title := title e;
     author := author e; color := color e |}.

Definition set_thumbnail (u : string) (e : Embed) : Embed :=
  {| description := description e; image := image e; thumbnail := Some u;
     timestamp := timestamp e; footer := footer e; title := title e;
     author := author e; color := color e |}.

Definition set_timestamp (e : Embed) : Embed :=
  {| description := description e; image := image e; thumbnail := thumbnail e;
     timestamp := true; footer := footer e; title := title e;
     author := author e; color := color e |}.

Definition set_footer (icon text_ : option string) (e : Embed) : Embed :=
  {| description := description e; image := image e; thumbnail := thumbnail e;
     timestamp := timestamp e;
     footer := Some {| footer_text := text_; footer_icon_url := icon |};
     title := title e; author := author e; color := color e |}.

Definition set_title (t : string) (e : Embed) : Embed :=
  {| description := description e; image := image e; thumbnail := thumbnail e;
     timestamp := timestamp e; footer := footer e; title := Some t;
     author := author e; color := color e |}.

Definition set_author (name link icon : string) (e : Embed) : Embed :=
  {| description := description e; image := image e; thumbnail := thumbnail e;
     timestamp := timestamp e; footer := footer e; title := title e;
     author := Some {| author_name := name; author_url := link;
                       author_icon_url := icon |};
     color := color e |}.

Definition embed_set_color (c : Z) (e : Embed) : Embed :=
  {| description := description e; image := image e; thumbnail := thumbnail e;
     timestamp := timestamp e; footer := footer e; title := title e;
     author := author e; color := Some c |}.

Definition DiscordWebhook (u : string) (msg : option string) : Webhook :=
  {| url := u; content := msg; rate_limit_retry := true; embeds := [];
     files := [] |}.

Definition add_embed (e : Embed) (h : Webhook) : Webhook :=
  {| url := url h; content := content h; rate_limit_retry := rate_limit_retry h;
     embeds := embeds h ++ [e]; files := files h |}.

Definition add_file (data name : string) (h : Webhook) : Webhook :=
  {| url := url h; content := content h; rate_limit_retry := rate_limit_retry h;
     embeds := embeds h; files := files h ++ [(name, data)] |}.

Definition set_url (u : string) (h : Webhook) : Webhook :=
  {| url := u; content := content h; rate_limit_retry := rate_limit_retry h;
     embeds := embeds h; files := files h |}.

(** The value of the last member called [key] of a JSON object, as the
    [dict] that [json.loads] builds keeps it. *)
Fixpoint member (key : string) (members : list (string * json)) : option json :=
  match members with
  | [] => None
  | (k, v) :: rest =>
      match member key rest with
      | Some v' => Some v'
      | None => if k =? key then Some v else None
      end
  end.

(** ** The program *)

Section SendWebhook.

Variable settings : Settings.
Variable outside : Outside.

(** The interpreter's bound on nested calls, counted in nested calls of
    [send_error_webhook] (the only recursion of the module). Python raises
    [RecursionError] when it is exceeded. *)
Variable recursion_limit : nat.

(** A network request: the request is recorded, then the outside answers
    with a response or the call raises. [rate_limit_retry] of
    [hook.execute()] is inside the library: one request as seen from here. *)
Definition perform (rq : request) : M Response :=
  fun w =>
    let w' := with_trace (Net rq :: trace w) w in
    match net outside (trace w) rq with
    | Responds r => Return r w'
    | Fails e => Raise e w'
    end.

Definition execute (hook : Webhook) : M Response := perform (Execute hook).

(** [randint(0, 16777215)] *)
Definition randint : M Z :=
  fun w =>
    Return (randint_answer outside (rand_drawn w)) (after_draw w).

(** [tempfile.TemporaryDirectory()]; the result is the directory's name. *)
Definition TemporaryDirectory : M string :=
  fun w =>
    let name := mkdtemp outside (tmp_created w) in
    Return name
      {| trace := trace w; fs := fs w; tmpdirs := name :: tmpdirs w;
         tmp_created := S (tmp_created w); rand_drawn := rand_drawn w |}.

(** [customize_footer] *)
Definition customize_footer (embed : Embed) : Embed :=
  let footer_icon := webhook_footer_icon settings in
  let footer_text := webhook_footer_text settings in
  if Py.truthy footer_icon && Py.truthy footer_text then
    set_footer (Some footer_icon) (Some footer_text) embed
  else if Py.truthy footer_icon then
    set_footer (Some footer_icon) None embed
  else if Py.truthy footer_text then
    set_footer None (Some footer_text) embed
  else embed.

(** [set_color]. The embed is changed in place in Python; here the changed
    embed is the result. *)
Definition set_color (embed : Embed) : M Embed :=
  let twitter_blue := "#1DA1F2" in
  embed_color <-
    (let webhook_embed_color := webhook_embed_color settings in
     if Py.truthy webhook_embed_color then
       let hex_color_length := 7%nat in
       if (String.length webhook_embed_color =? hex_color_length)%nat
          && match String.get 0 webhook_embed_color with
             | Some c => Ascii.eqb c "#"
             | None => false
             end
       then ret webhook_embed_color
       else
         log ERROR "Invalid webhook embed color {}. Using default color."
           [webhook_embed_color] ;;
         ret twitter_blue
     else if webhook_randomize_embed_color settings then
       n <- randint ;;
       ret (Py.slice_from 2 (Py.hex n))
     else ret twitter_blue) ;;
  match Py.int16 (Py.slice_from 1 embed_color) with
  | Some c => ret (embed_set_color c embed)
  | None => raise ValueError
  end.

(** The body of the loop [for _webhook in webhook_list] of
    [_send_webhook]. The function that reports a failure is a parameter:
    it is [send_error_webhook], defined below by recursion through this
    loop. *)
Definition _send_webhook_to (report : string -> M unit)
    (message webhook : string) (files_ : option (list string))
    (_webhook : string) : M unit :=
  log DEBUG "Webhook URL: {}" [_webhook] ;;
  let hook := DiscordWebhook _webhook (Some message) in
  hook <-
    match files_ with
    | Some (file :: more) =>
        List.fold_left
          (fun acc file =>
             hook <- acc ;;
             data <- read_rb file ;;
             ret (add_file data (path_name file) hook))
          (file :: more) (ret hook)
    | _ => ret hook
    end ;;
  response <- execute hook ;;
  if negb (ok response) then
    report ("Got " +:+ Py.str (status_code response) +:+ " from "
            +:+ webhook +:+ ", response: " +:+ text response)
  else ret tt.

(** The body of [_send_webhook], with the same parameter. *)
Definition _send_webhook_reporting (report : string -> M unit)
    (message webhook func_name : string) (files_ : option (list string))
  : M unit :=
  log DEBUG "{} - Message: {}" [func_name; message] ;;
  log DEBUG "{} - Webhook URL: {}" [func_name; webhook] ;;
  if negb (Py.truthy webhook) then
    report ("No webhook URL found. Trying to send " +:+ message)
  else
    let webhook_list := Py.split "," webhook in
    for_each webhook_list (_send_webhook_to report message webhook files_).

(** [send_error_webhook]. [depth] is the number of nested calls that the
    interpreter still allows. *)
Fixpoint send_error_webhook (depth : nat) (msg webhook : string) : M unit :=
  match depth with
  | O => raise RecursionError
  | S depth' =>
      log ERROR "Got an error: {}" [msg] ;;
      if send_errors settings =? "True" then
        _send_webhook_reporting
          (fun m => send_error_webhook depth' m (error_webhook settings))
          msg webhook "send_error_webhook()" None
      else
        log DEBUG
          "Tried to send error webhook but send_errors is not set to True" []
  end.

(** A call [send_error_webhook(msg)] from the other functions: the second
    argument is its default, [settings.error_webhook]. *)
Definition report_error (msg : string) : M unit :=
  send_error_webhook recursion_limit msg (error_webhook settings).

(** [_send_webhook] *)
Definition _send_webhook (message webhook func_name : string)
    (files_ : option (list string)) : M unit :=
  _send_webhook_reporting report_error message webhook func_name files_.

(** [send_normal_webhook] *)
Definition send_normal_webhook (msg webhook : string)
    (files_ : option (list string)) : M unit :=
  _send_webhook msg webhook "send_normal_webhook()" files_.

(** [get_embed_image] *)
Definition get_embed_image (media_links : list string) (tweet_id : Z)
  : M string :=
  match media_links with
  | [] => ret ""
  | [only] => ret only
  | first :: _ :: _ =>
      response <- perform (Get (collage_maker_url settings)
                             [("tweet_id", Py.str tweet_id)] false) ;;
      if ok response then
        json_data <- match json_loads outside (text response) with
                     | Some j => ret j
                     | None => raise JSONDecodeError
                     end ;;
        embed_image <- match json_data with
                       | JObject members =>
                           match member "url" members with
                           | Some (JString u) => ret u
                           | Some _ => raise MissingSchema
                           | None => raise KeyError
                           end
                       | _ => raise TypeError
                       end ;;
        if_exists <- perform (Head embed_image) ;;
        if negb (ok if_exists) then
          report_error
            ("Image " +:+ embed_image
             +:+ " does not exist, but that is the URL we got from "
             +:+ collage_maker_url settings
             +:+ ". It looks like the collage maker is broken.") ;;
          ret first
        else ret embed_image
      else
        let error_msg :=
          "Got " +:+ Py.str (status_code response) +:+ " from "
          +:+ collage_maker_url settings +:+ " for tweet "
          +:+ Py.str tweet_id in
        report_error error_msg ;;
        ret first
  end.

(** The embed that [send_embed_webhook] builds before it sends it: from
    [DiscordEmbed(description=text)] to [set_color(embed)]. *)
Definition build_embed (tweet_id : Z) (media_links : list string)
    (text_ twitter_card_image avatar_url display_name username : string)
  : M Embed :=
  let tweet_url :=
    "https://twitter.com/" +:+ username +:+ "/status/" +:+ Py.str tweet_id in
  let embed := DiscordEmbed text_ in
  let embed :=
    if Py.truthy twitter_card_image then set_image twitter_card_image embed
    else embed in
  embed_image <- get_embed_image media_links tweet_id ;;
  let embed :=
    if Py.truthy embed_image then set_image embed_image embed else embed in
  let avatar_url := Py.or (webhook_author_icon settings) avatar_url in
  let display_name := Py.or (webhook_author_name settings) display_name in
  let tweet_url := Py.or (webhook_author_url settings) tweet_url in
  let embed :=
    if Py.truthy (webhook_image settings)
    then set_image (webhook_image settings) embed else embed in
  let embed :=
    if Py.truthy (webhook_thumbnail settings)
    then set_thumbnail (webhook_thumbnail settings) embed else embed in
  let embed :=
    if webhook_show_timestamp settings then set_timestamp embed else embed in
  let embed := customize_footer embed in
  let embed :=
    if use_title settings
    then set_title (display_name +:+ " (@" +:+ username +:+ ")") embed
    else embed in
  let embed :=
    if use_author settings
    then set_author (display_name +:+ " (@" +:+ username +:+ ")")
           tweet_url avatar_url embed
    else embed in
  set_color embed.

(** The body of the loop [for _webhook in webhook_list] of
    [send_embed_webhook]. *)
Definition send_embed_webhook_to (tweet_id : Z) (webhook : string)
    (hook : Webhook) (_webhook : string) : M unit :=
  log DEBUG "Webhook URL: {}" [_webhook] ;;
  let hook := set_url _webhook hook in
  response <- execute hook ;;
  if ok response then
    log INFO "Webhook posted for tweet https://twitter.com/i/status/{}"
      [Py.str tweet_id]
  else
    report_error ("Got " +:+ Py.str (status_code response) +:+ " from "
                  +:+ webhook +:+ ". Response: " +:+ text response).

(** [send_embed_webhook] *)
Definition send_embed_webhook (tweet_id : Z) (media_links : list string)
    (text_ twitter_card_image avatar_url display_name webhook username
     : string) : M unit :=
  if negb (Py.truthy webhook) then
    report_error ("No webhook URL found. Tried to send tweet embed for "
                  +:+ Py.str tweet_id)
  else
    let hook := DiscordWebhook "" None in
    embed <- build_embed tweet_id media_links text_ twitter_card_image
               avatar_url display_name username ;;
    let hook := add_embed embed hook in
    let webhook_list := Py.split "," webhook in
    for_each webhook_list (send_embed_webhook_to tweet_id webhook hook).

(** The loop of [download_images]: [images] is the list built so far. *)
Fixpoint download_each (temp_dir : string) (media_links images : list string)
  : M (list string) :=
  match media_links with
  | [] => ret images
  | media_link :: rest =>
      res <- perform (Get media_link [] true) ;;
      images <-
        (if ok res then
           let path :=
             temp_dir +:+ "/" +:+ Py.last_item (Py.split "/" media_link) in
           open_wb path ;;
           for_each (iter_content 1024 (text res)) (write path) ;;
           ret (images ++ [path])
         else
           log ERROR "Failed to download image: {}" [media_link] ;;
           ret images) ;;
      download_each temp_dir rest images
  end.

(** [download_images] *)
Definition download_images (media_links : list string)
  : M (list string * string) :=
  temp_dir <- TemporaryDirectory ;;
  images <- download_each temp_dir media_links [] ;;
  ret (images, temp_dir).

(** [send_hook_and_files] *)
Definition send_hook_and_files (media_links : list string)
    (msg webhook_url : string) : M unit :=
  staged <-
    (if upload_images settings then
       r <- download_images media_links ;;
       ret (r.1, Some r.2)
     else ret ([], None)) ;;
  let images : list string := staged.1 in
  let temp_dir : option string := staged.2 in
  let msg :=
    if append_image_links settings then
      List.fold_left (fun m media_link => m +:+ newline +:+ media_link)
        media_links msg
    else msg in
  send_normal_webhook msg webhook_url (Some images) ;;
  match temp_dir with
  | Some dir => cleanup dir
  | None => ret tt
  end.

End SendWebhook.

(** ** Observations on a trace *)

(** The webhooks executed, oldest first. *)
Fixpoint executed_rev (t : list event) : list Webhook :=
  match t with
  | [] => []
  | Net (Execute h) :: t' => h :: executed_rev t'
  | _ :: t' => executed_rev t'
  end.

Definition executed (t : list event) : list Webhook := rev (executed_rev t).

(** The number of calls of [send_error_webhook]: each call starts with the
    log line ["Got an error: {}"], which nothing else writes. *)
Fixpoint error_reports (t : list event) : nat :=
  match t with
  | [] => 0
  | Log ERROR fmt _ :: t' =>
      if fmt =? "Got an error: {}" then S (error_reports t')
      else error_reports t'
  | _ :: t' => error_reports t'
  end.

(** The number of network requests. *)
Fixpoint requests_made (t : list event) : nat :=
  match t with
  | [] => 0
  | Net _ :: t' => S (requests_made t')
  | _ :: t' => requests_made t'
  end.

(** The value of a string of hexadecimal digits, most significant first. *)
Fixpoint hex_value (acc : Z) (cs : list ascii) : Z :=
  match cs with
  | [] => acc
  | c :: cs' => hex_value (16 * acc + default 0 (Py.hex_digit_value c)) cs'
  end.

(** The path at which [download_images] stages [media_link]. *)
Definition staged_path (temp_dir media_link : string) : string :=
  temp_dir +:+ "/" +:+ Py.last_item (Py.split "/" media_link).

(** The request of [get_embed_image] to the collage service, the world
    after it, and the world after the check that the image [u] exists. *)
Definition collage_request (settings : Settings) (tweet_id : Z) : request :=
  Get (collage_maker_url settings) [("tweet_id", Py.str tweet_id)] false.

Definition asked (settings : Settings) (tweet_id : Z) (w : World) : World :=
  with_trace (Net (collage_request settings tweet_id) :: trace w) w.

Definition checked (settings : Settings) (tweet_id : Z) (u : string)
    (w : World) : World :=
  with_trace
    (Net (Head u) :: Net (collage_request settings tweet_id) :: trace w) w.

(** The messages of the two error reports of [get_embed_image]. *)
Definition collage_failed_msg (settings : Settings) (tweet_id : Z)
    (r : Response) : string :=
  "Got " +:+ Py.str (status_code r) +:+ " from " +:+ collage_maker_url settings
  +:+ " for tweet " +:+ Py.str tweet_id.

Definition collage_missing_msg (settings : Settings) (u : string) : string :=
  "Image " +:+ u +:+ " does not exist, but that is the URL we got from "
  +:+ collage_maker_url settings
  +:+ ". It looks like the collage maker is broken.".

(** Does the webhook carry an embed? The deliveries of [send_embed_webhook]
    do, those of an error report do not. *)
Definition carries_embed (h : Webhook) : bool :=
  match embeds h with
  | [] => false
  | _ :: _ => true
  end.

(** The addresses to which an error report is delivered. *)
Definition report_targets (settings : Settings) : list string :=
  if send_errors settings =? "True"
  then Py.split "," (error_webhook settings) else [].

(** Does the character [c] occur in [s]? *)
Fixpoint occurs (c : ascii) (s : string) : bool :=
  match s with
  | EmptyString => false
  | String c' s' => Ascii.eqb c' c || occurs c s'
  end.

(** The pieces written to a file, put together. *)
Definition joined (chunks : list string) : string :=
  List.fold_right String.append "" chunks.

(** What one turn of the loop of [download_images] does to the file system
    when the download of [media_link] is answered by [answer media_link]. *)
Definition stage (answer : string -> Response) (temp_dir : string)
    (files_ : gmap string string) (media_link : string) : gmap string string :=
  if ok (answer media_link)
  then <[staged_path temp_dir media_link := text (answer media_link)]> files_
  else files_.

(** The world in which a run ends, by return or by exception. *)
Definition world_of {A} (r : Res A) : World :=
  match r with
  | Return _ w => w
  | Raise _ w => w
  end.

(** A computation preserves the observation [f] of the world when every run
    of it, returned or raised, ends in a world with the same [f]. *)
Definition preserves {A X} (f : World -> X) (m : M A) : Prop :=
  forall w, f (world_of (m w)) = f w.

(** What is on disk: the files and the temporary directories. *)
Definition disk (w : World) : gmap string string * list string :=
  (fs w, tmpdirs w).

(** The message that [send_hook_and_files] sends. *)
Definition message_sent (settings : Settings) (media_links : list string)
    (msg : string) : string :=
  if append_image_links settings then
    List.fold_left (fun m media_link => m +:+ newline +:+ media_link)
      media_links msg
  else msg.

(** ** Scenarios *)

(** No override, every toggle off, errors are logged only. *)
Definition default_settings : Settings :=
  {| webhook_footer_icon := ""; webhook_footer_text := "";
     webhook_author_icon := ""; webhook_author_name := "";
     webhook_author_url := ""; webhook_image := ""; webhook_thumbnail := "";
     webhook_show_timestamp := false; use_title := false; use_author := false;
     webhook_embed_color := ""; webhook_randomize_embed_color := false;
     collage_maker_url := "https://twitter.lovinator.space/add";
     error_webhook := ""; send_errors := "False";
     upload_images := false; append_image_links := false |}.

(** [default_settings] with the options of the error reporter. *)
Definition reporting (destination enabled : string) : Settings :=
  {| webhook_footer_icon := ""; webhook_footer_text := "";
     webhook_author_icon := ""; webhook_author_name := "";
     webhook_author_url := ""; webhook_image := ""; webhook_thumbnail := "";
     webhook_show_timestamp := false; use_title := false; use_author := false;
     webhook_embed_color := ""; webhook_randomize_embed_color := false;
     collage_maker_url := "https://twitter.lovinator.space/add";
     error_webhook := destination; send_errors := enabled;
     upload_images := false; append_image_links := false |}.

(** [default_settings] with the options of the embed color. *)
Definition colored (fixed : string) (randomize : bool) : Settings :=
  {| webhook_footer_icon := ""; webhook_footer_text := "";
     webhook_author_icon := ""; webhook_author_name := "";
     webhook_author_url := ""; webhook_image := ""; webhook_thumbnail := "";
     webhook_show_timestamp := false; use_title := false; use_author := false;
     webhook_embed_color := fixed; webhook_randomize_embed_color := randomize;
     collage_maker_url := "https://twitter.lovinator.space/add";
     error_webhook := ""; send_errors := "False";
     upload_images := false; append_image_links := false |}.

(** [default_settings] with the title and author toggles on and the author
    name overridden. *)
Definition titled (name : string) : Settings :=
  {| webhook_footer_icon := ""; webhook_footer_text := "";
     webhook_author_icon := ""; webhook_author_name := name;
     webhook_author_url := ""; webhook_image := ""; webhook_thumbnail := "";
     webhook_show_timestamp := false; use_title := true; use_author := true;
     webhook_embed_color := ""; webhook_randomize_embed_color := false;
     collage_maker_url := "https://twitter.lovinator.space/add";
     error_webhook := ""; send_errors := "False";
     upload_images := false; append_image_links := false |}.

(** [default_settings] with images uploaded from a temporary directory. *)
Definition uploading : Settings :=
  {| webhook_footer_icon := ""; webhook_footer_text := "";
     webhook_author_icon := ""; webhook_author_name := "";
     webhook_author_url := ""; webhook_image := ""; webhook_thumbnail := "";
     webhook_show_timestamp := false; use_title := false; use_author := false;
     webhook_embed_color := ""; webhook_randomize_embed_color := false;
     collage_maker_url := "https://twitter.lovinator.space/add";
     error_webhook := ""; send_errors := "False";
     upload_images := true; append_image_links := false |}.

(** [uploading] with error reports sent and no error webhook configured. *)
Definition uploading_reporting : Settings :=
  {| webhook_footer_icon := ""; webhook_footer_text := "";
     webhook_author_icon := ""; webhook_author_name := "";
     webhook_author_url := ""; webhook_image := ""; webhook_thumbnail := "";
     webhook_show_timestamp := false; use_title := false; use_author := false;
     webhook_embed_color := ""; webhook_randomize_embed_color := false;
     collage_maker_url := "https://twitter.lovinator.space/add";
     error_webhook := ""; send_errors := "True";
     upload_images := true; append_image_links := false |}.

Definition response_200 (body : string) : Response :=
  {| ok := true; status_code := 200; text := body |}.

Definition response_500 : Response :=
  {| ok := false; status_code := 500; text := "Internal Server Error" |}.

(** An outside whose network is [network]; the other collaborators are
    fixed: the generator draws [drawn], no text is JSON (none of the bodies
    of the networks below is), temporary directories are called
    [/tmp/tmp0]. *)
Definition outside_with (network : list event -> request -> net_outcome)
    (drawn : Z) : Outside :=
  {| net := network; randint_answer := fun _ => drawn;
     json_loads := fun _ => None; mkdtemp := fun _ => "/tmp/tmp0" |}.

(** Every request is answered with status 200 and the body ["data"]. *)
Definition all_succeed : list event -> request -> net_outcome :=
  fun _ _ => Responds (response_200 "data").

(** The first request of the run is answered with status 500, every later
    one with status 200. *)
Definition first_fails : list event -> request -> net_outcome :=
  fun t _ =>
    match requests_made t with
    | O => Responds response_500
    | S _ => Responds (response_200 "")
    end.

(** A webhook executed at the address ["A"] is answered with status 500,
    every other request with status 200. *)
Definition only_A_fails : list event -> request -> net_outcome :=
  fun _ rq =>
    match rq with
    | Execute h =>
        if url h =? "A" then Responds response_500
        else Responds (response_200 "")
    | _ => Responds (response_200 "")
    end.

(** Downloads succeed, the execution of a webhook fails to connect. *)
Definition send_breaks : list event -> request -> net_outcome :=
  fun _ rq =>
    match rq with
    | Execute _ => Fails ConnectionError
    | _ => Responds (response_200 "data")
    end.

(** No download is answered in time. *)
Definition downloads_time_out : list event -> request -> net_outcome :=
  fun _ rq =>
    match rq with
    | Get _ _ true => Fails Timeout
    | _ => Responds (response_200 "data")
    end.

(** The collage service does not answer in time. *)
Definition collage_times_out : list event -> request -> net_outcome :=
  fun _ rq =>
    match rq with
    | Get _ _ false => Fails Timeout
    | _ => Responds (response_200 "data")
    end.

(** The collage service answers with status 500. *)
Definition collage_fails : list event -> request -> net_outcome :=
  fun _ rq =>
    match rq with
    | Get _ _ false => Responds response_500
    | _ => Responds (response_200 "data")
    end.

(** The download of [http://x/a.png] is answered with the body ["from x"],
    every other request with the body ["from y"]. *)
Definition by_host : list event -> request -> net_outcome :=
  fun _ rq =>
    match rq with
    | Get target _ _ =>
        Responds (response_200
                    (if target =? "http://x/a.png" then "from x" else "from y"))
    | _ => Responds (response_200 "from y")
    end.

(** The world before the program has done anything. *)
Definition initial_world : World :=
  {| trace := []; fs := ∅; tmpdirs := []; tmp_created := 0;
     rand_drawn := 0 |}.



(** ** The settings module

    [settings.py] runs when it is imported: it reads the environment, binds
    the names of the module, stops the interpreter when the bearer token or
    the first rule is missing, and configures [logging] with the log level
    it has read. *)

Module SettingsPy.

(** [os.environ]: the variables that are set, with their values. *)
Definition Environ : Type := gmap string string.

(** The names that the module binds from the environment. *)
Record Namespace := {
  bearer_token : string;
  webhook_url : string;
  webhook_url2 : option string;
  webhook_url3 : option string;
  webhook_url4 : option string;
  webhook_url5 : option string;
  log_level : string;
  collage_maker_url : string;
  rule : string;
  rule2 : string;
  rule3 : string;
  rule4 : string;
  rule5 : string
}.

(** How the import ends. [Bound ns] is the run that reaches the end of the
    module: the names are bound as in [ns]. [KeyError] is raised by
    [os.environ[key]], [SystemExit] by [sys.exit(message)], and [ValueError]
    by [logging.basicConfig] for a [level] that [logging] does not know (its
    message is [Unknown level:] and the level). *)
Inductive outcome :=
| Bound (ns : Namespace)
| KeyError (key : string)
| SystemExit (message : string)
| ValueError (level : string).

(** The keys of [logging._nameToLevel]: the levels that [logging] knows by
    name. *)
Definition level_names : list string :=
  ["CRITICAL"; "FATAL"; "ERROR"; "WARN"; "WARNING"; "INFO"; "DEBUG"; "NOTSET"].

(** [level in logging._nameToLevel] *)
Definition known_level (level : string) : bool :=
  existsb (String.eqb level) level_names.

(** [os.getenv(key, default=value)] *)
Definition getenv (environ : Environ) (key value : string) : string :=
  default value (environ !! key).

Section ModuleBody.

(** What [load_dotenv(verbose=True)] makes of the environment. *)
Variable load_dotenv : Environ -> Environ.

(** Does the root logger have a handler already when the module is
    imported? *)
Variable root_has_handlers : bool.

(** [logging.basicConfig(format=..., datefmt=..., level=level)], by the
    exception it raises. With a handler on the root logger the call does
    nothing. Otherwise it gives the root logger a handler with the format,
    then sets its level: [Logger.setLevel] raises [ValueError] for a text
    that is not the name of a level, and the result is that text. *)
Definition basicConfig (level : string) : option string :=
  if root_has_handlers then None
  else if known_level level then None
  else Some level.

(** The body of the module. *)
Definition import_settings (environ : Environ) : outcome :=
  let environ := load_dotenv environ in
  let bearer_token := getenv environ "BEARER_TOKEN" "" in
  match environ !! "WEBHOOK_URL" with
  | None => KeyError "WEBHOOK_URL"
  | Some webhook_url =>
      let webhook_url2 := environ !! "WEBHOOK_URL2" in
      let webhook_url3 := environ !! "WEBHOOK_URL3" in
      let webhook_url4 := environ !! "WEBHOOK_URL4" in
      let webhook_url5 := environ !! "WEBHOOK_URL5" in
      let log_level := getenv environ "LOG_LEVEL" "INFO" in
      let collage_maker_url :=
        getenv environ "TWITTER_IMAGE_COLLAGE_API"
          "https://twitter.lovinator.space/add" in
      let rule := getenv environ "RULE" "" in
      let rule2 := getenv environ "RULE2" "" in
      let rule3 := getenv environ "RULE3" "" in
      let rule4 := getenv environ "RULE4" "" in
      let rule5 := getenv environ "RULE5" "" in
      if negb (Py.truthy bearer_token) then
        SystemExit "No bearer token found, exiting"
      else if negb (Py.truthy rule) then
        SystemExit "No rule found, exiting"
      else
        match basicConfig log_level with
        | Some level => ValueError level
        | None =>
            Bound {| bearer_token := bearer_token; webhook_url := webhook_url;
                     webhook_url2 := webhook_url2;
                     webhook_url3 := webhook_url3;
                     webhook_url4 := webhook_url4;
                     webhook_url5 := webhook_url5;
                     log_level := log_level;
                     collage_maker_url := collage_maker_url;
                     rule := rule; rule2 := rule2; rule3 := rule3;
                     rule4 := rule4; rule5 := rule5 |}
        end
  end.

End ModuleBody.

(** Is [key] set to a text that is not empty? *)
Definition provided (environ : Environ) (key : string) : bool :=
  Py.truthy (getenv environ key "").

End SettingsPy.

(** ** More observations *)

(** The number of occurrences of the character [c] in [s]. *)
Fixpoint occurrences (c : ascii) (s : string) : nat :=
  match s with
  | EmptyString => 0
  | String c' s' =>
      ((if Ascii.eqb c' c then 1 else 0) + occurrences c s')%nat
  end.

(** The network requests, oldest first. *)
Fixpoint requests_rev (t : list event) : list request :=
  match t with
  | [] => []
  | Net rq :: t' => rq :: requests_rev t'
  | _ :: t' => requests_rev t'
  end.

Definition requests (t : list event) : list request := rev (requests_rev t).

Definition level_eqb (a b : level) : bool :=
  match a, b with
  | DEBUG, DEBUG | INFO, INFO | ERROR, ERROR => true
  | _, _ => false
  end.

(** The arguments of the log lines of level [lvl] and format [fmt], oldest
    first. *)
Fixpoint logged_rev (lvl : level) (fmt : string) (t : list event)
  : list (list string) :=
  match t with
  | [] => []
  | Log lvl' fmt' args :: t' =>
      if level_eqb lvl' lvl && (fmt' =? fmt) then args :: logged_rev lvl fmt t'
      else logged_rev lvl fmt t'
  | _ :: t' => logged_rev lvl fmt t'
  end.

Definition logged (lvl : level) (fmt : string) (t : list event)
  : list (list string) :=
  rev (logged_rev lvl fmt t).

(** The messages given to [send_error_webhook], oldest first. *)
Definition reported (t : list event) : list (list string) :=
  logged ERROR "Got an error: {}" t.

(** The webhook that [_send_webhook] executes at [target]. *)
Definition message_hook (message : string) (attached : list (string * string))
    (target : string) : Webhook :=
  {| url := target; content := Some message; rate_limit_retry := true;
     embeds := []; files := attached |}.

(** The webhook that [send_embed_webhook] executes at [target]. *)
Definition embed_hook (embed : Embed) (target : string) : Webhook :=
  {| url := target; content := None; rate_limit_retry := true;
     embeds := [embed]; files := [] |}.

(** [Path.open] and [f.read()] succeed on [file]. *)
Definition readable (disk_ : gmap string string) (file : string) : bool :=
  negb (names_directory file)
  && match disk_ !! file with Some _ => true | None => false end.

(** What [_send_webhook] attaches for the list [files_]: the name and the
    content of each file, in order. *)
Definition attachments (disk_ : gmap string string)
    (files_ : option (list string)) : list (string * string) :=
  List.map (fun file => (path_name file, default "" (disk_ !! file)))
    (default [] files_).

(** The messages of the error reports of the two dispatchers. *)
Definition delivery_failed_msg (webhook : string) (r : Response) : string :=
  "Got " +:+ Py.str (status_code r) +:+ " from " +:+ webhook
  +:+ ", response: " +:+ text r.

Definition embed_failed_msg (webhook : string) (r : Response) : string :=
  "Got " +:+ Py.str (status_code r) +:+ " from " +:+ webhook
  +:+ ". Response: " +:+ text r.

(** What the loop of [_send_webhook] requests for [target] when the target
    answers with [answer target]: the delivery, then the requests of the
    error report when the answer is a failure. [rep_requests] gives the
    requests of a report by its message. *)
Definition delivery_requests (message webhook : string)
    (files_ : option (list string)) (answer : string -> Response)
    (rep_requests : string -> list request) (disk_ : gmap string string)
    (target : string) : list request :=
  Execute (message_hook message (attachments disk_ files_) target)
  :: (if ok (answer target) then []
      else rep_requests (delivery_failed_msg webhook (answer target))).

(** The same for the loop of [send_embed_webhook]. *)
Definition embed_requests (embed : Embed) (webhook : string)
    (answer : string -> Response) (rep_requests : string -> list request)
    (target : string) : list request :=
  Execute (embed_hook embed target)
  :: (if ok (answer target) then []
      else rep_requests (embed_failed_msg webhook (answer target))).

(** The requests of an error report with the message [m]: one delivery to
    each target of the error webhook when reports are sent. *)
Definition report_requests (settings : Settings) (m : string) : list request :=
  List.map (fun target => Execute (message_hook m [] target))
    (report_targets settings).

(** The last segment of a link: the name of the file staged for it. *)
Definition staged_name (media_link : string) : string :=
  Py.last_item (Py.split "/" media_link).

(** The world after [tempfile.TemporaryDirectory()] has made [dir]. *)
Definition with_directory (dir : string) (w : World) : World :=
  {| trace := trace w; fs := fs w; tmpdirs := dir :: tmpdirs w;
     tmp_created := S (tmp_created w); rand_drawn := rand_drawn w |}.

(** The message with every link on a line of its own after it. *)
Definition with_links (msg : string) (media_links : list string) : string :=
  msg +:+ joined (List.map (fun media_link => newline +:+ media_link)
                    media_links).

(** The footer that [customize_footer] sets for the two options, if any. *)
Definition configured_footer (settings : Settings) : option Footer :=
  let icon := webhook_footer_icon settings in
  let text_ := webhook_footer_text settings in
  if Py.truthy icon || Py.truthy text_ then
    Some {| footer_text := if Py.truthy text_ then Some text_ else None;
            footer_icon_url := if Py.truthy icon then Some icon else None |}
  else None.

(** A text when it is not empty. *)
Definition nonempty (s : string) : option string :=
  if Py.truthy s then Some s else None.

(** ** More scenarios *)

(** A webhook executed at an address that starts with ["bad"] is answered
    with status 500, every other request with status 200. *)
Definition bad_addresses_fail : list event -> request -> net_outcome :=
  fun _ rq =>
    match rq with
    | Execute h =>
        if String.prefix "bad" (url h) then Responds response_500
        else Responds (response_200 "")
    | _ => Responds (response_200 "")
    end.

(** The download of a link that starts with ["http://gone/"] is answered
    with status 500, every other request with status 200 and the body
    ["data"]. *)
Definition gone_links_fail : list event -> request -> net_outcome :=
  fun _ rq =>
    match rq with
    | Get target _ true =>
        if String.prefix "http://gone/" target then Responds response_500
        else Responds (response_200 "data")
    | _ => Responds (response_200 "data")
    end.

(** A webhook executed at the address ["B"] fails to connect, every other
    request is answered with status 200. *)
Definition only_B_breaks : list event -> request -> net_outcome :=
  fun _ rq =>
    match rq with
    | Execute h =>
        if url h =? "B" then Fails ConnectionError
        else Responds (response_200 "")
    | _ => Responds (response_200 "")
    end.

(** The download of a link that starts with ["http://slow/"] is not
    answered in time, every other request is answered with status 200 and
    the body ["data"]. *)
Definition slow_links_time_out : list event -> request -> net_outcome :=
  fun _ rq =>
    match rq with
    | Get target _ true =>
        if String.prefix "http://slow/" target then Fails Timeout
        else Responds (response_200 "data")
    | _ => Responds (response_200 "data")
    end.

(** An outside whose collage service answers every post with a collage at
    [https://c/collage.png]. *)
Definition collage_outside (network : list event -> request -> net_outcome)
  : Outside :=
  {| net := network; randint_answer := fun _ => 0;
     json_loads :=
       fun _ => Some (JObject [("url", JString "https://c/collage.png")]);
     mkdtemp := fun _ => "/tmp/tmp0" |}.

(** [default_settings] with the images of the embed. *)
Definition pictured (image_ thumbnail_ : string) : Settings :=
  {| webhook_footer_icon := ""; webhook_footer_text := "";
     webhook_author_icon := ""; webhook_author_name := "";
     webhook_author_url := ""; webhook_image := image_;
     webhook_thumbnail := thumbnail_;
     webhook_show_timestamp := false; use_title := false; use_author := false;
     webhook_embed_color := ""; webhook_randomize_embed_color := false;
     collage_maker_url := "https://twitter.lovinator.space/add";
     error_webhook := ""; send_errors := "False";
     upload_images := false; append_image_links := false |}.

(** [default_settings] with the links appended to the message. *)
Definition appending : Settings :=
  {| webhook_footer_icon := ""; webhook_footer_text := "";
     webhook_author_icon := ""; webhook_author_name := "";
     webhook_author_url := ""; webhook_image := ""; webhook_thumbnail := "";
     webhook_show_timestamp := false; use_title := false; use_author := false;
     webhook_embed_color := ""; webhook_randomize_embed_color := false;
     collage_maker_url := "https://twitter.lovinator.space/add";
     error_webhook := ""; send_errors := "False";
     upload_images := false; append_image_links := true |}.

(** An environment with the three variables that the settings need, and
    nothing else. *)
Definition minimal_environ : SettingsPy.Environ :=
  <["WEBHOOK_URL" := "https://discord.example/hook"]>
    (<["BEARER_TOKEN" := "token"]> {["RULE" := "from:alice"]}).

(** The same with a log level in lower case. *)
Definition lower_case_level_environ : SettingsPy.Environ :=
  <["LOG_LEVEL" := "debug"]> minimal_environ.

(** A world with one file on disk. *)
Definition world_with_file (path data : string) : World :=
  {| trace := []; fs := {[ path := data ]}; tmpdirs := []; tmp_created := 0;
     rand_drawn := 0 |}.
(** * Theorems *)

(** ** Python helpers *)

Lemma hex_digit_is_plain (c : ascii) :
  Py.is_hex_digit c = true ->
  Py.is_space c = false /\ Ascii.eqb c "+" = false /\ Ascii.eqb c "-" = false
  /\ Ascii.eqb c "_" = false /\ Ascii.eqb c "x" = false
  /\ Ascii.eqb c "X" = false
  /\ Py.hex_digit_value c = Some (default 0 (Py.hex_digit_value c)).
Proof.
  destruct c as [[] [] [] [] [] [] [] []]; vm_compute; intros H;
    try discriminate H; repeat split.
Qed.

Lemma int16_digits_hex (cs : list ascii) :
  Forall (fun c => Py.is_hex_digit c = true) cs ->
  forall acc after_digit,
    cs <> [] \/ after_digit = true ->
    Py.int16_digits acc after_digit cs = Some (hex_value acc cs).
Proof.
  induction 1 as [|c cs Hc _ IH]; intros acc b Hne.
  - destruct Hne as [Hne | ->]; [congruence | reflexivity].
  - destruct (hex_digit_is_plain c Hc) as (_ & _ & _ & Hu & _ & _ & Hv).
    cbn [Py.int16_digits hex_value]. rewrite Hu, Hv. cbn [default].
    apply IH. now right.
Qed.

Lemma lstrip_hex (cs : list ascii) c :
  Py.is_hex_digit c = true -> Py.lstrip (c :: cs) = c :: cs.
Proof.
  intros Hc. destruct (hex_digit_is_plain c Hc) as (Hs & _).
  cbn [Py.lstrip]. now rewrite Hs.
Qed.

Lemma strip_hex (cs : list ascii) :
  Forall (fun c => Py.is_hex_digit c = true) cs -> Py.strip cs = cs.
Proof.
  intros H. unfold Py.strip.
  destruct cs as [|c cs]; [reflexivity|].
  rewrite lstrip_hex by now inversion H.
  destruct (rev (c :: cs)) as [|d ds] eqn:E.
  - apply (f_equal (@List.length _)) in E. rewrite length_rev in E.
    discriminate E.
  - assert (Hd : Py.is_hex_digit d = true).
    { assert (Hin : In d (rev (c :: cs))) by (rewrite E; now left).
      apply in_rev in Hin. rewrite Forall_forall in H.
      apply H. now apply list_elem_of_In. }
    rewrite lstrip_hex by exact Hd. rewrite <- E. apply rev_involutive.
Qed.

Lemma int16_hex (cs : list ascii) :
  cs <> [] -> Forall (fun c => Py.is_hex_digit c = true) cs ->
  Py.int16 (string_of_list_ascii cs) = Some (hex_value 0 cs).
Proof.
  intros Hne H. unfold Py.int16.
  rewrite list_ascii_of_string_of_list_ascii, (strip_hex cs H).
  destruct cs as [|c cs]; [congruence|].
  assert (Hc : Py.is_hex_digit c = true) by now inversion H.
  destruct (hex_digit_is_plain c Hc) as (_ & Hp & Hm & _).
  assert (Hsign : match c :: cs with
                  | "+"%char :: r => (false, r)
                  | "-"%char :: r => (true, r)
                  | _ => (false, c :: cs)
                  end = (false, c :: cs)).
  { destruct c as [[] [] [] [] [] [] [] []]; try reflexivity;
      vm_compute in Hp, Hm; discriminate. }
  rewrite Hsign.
  assert (Hprefix : match c :: cs with
      | "0"%char :: x :: r =>
          if Ascii.eqb x "x" || Ascii.eqb x "X" then
            match r with "_"%char :: r' => r' | _ => r end
          else c :: cs
      | _ => c :: cs
      end = c :: cs).
  { destruct cs as [|x r].
    - destruct c as [[] [] [] [] [] [] [] []]; reflexivity.
    - assert (Hx : Py.is_hex_digit x = true)
        by (inversion H as [|? ? _ H']; now inversion H').
      destruct (hex_digit_is_plain x Hx) as (_ & _ & _ & _ & Hx1 & Hx2 & _).
      rewrite Hx1, Hx2. cbn [orb].
      destruct c as [[] [] [] [] [] [] [] []]; reflexivity. }
  rewrite Hprefix.
  rewrite (int16_digits_hex (c :: cs) H) by (left; congruence).
  reflexivity.
Qed.
Example split_three : Py.split "," "A,B,C" = ["A"; "B"; "C"].
Proof. reflexivity. Qed.

Example split_empty : Py.split "," "" = [""].
Proof. reflexivity. Qed.

Example split_trailing : Py.split "/" "http://a/" = ["http:"; ""; "a"; ""].
Proof. reflexivity. Qed.

Example hex_small : Py.hex 5 = "0x5".
Proof. reflexivity. Qed.

Example hex_zero : Py.hex 0 = "0x0".
Proof. reflexivity. Qed.

Example hex_negative : Py.hex (-255) = "-0xff".
Proof. reflexivity. Qed.

Example hex_large : Py.hex 11259375 = "0xabcdef".
Proof. reflexivity. Qed.

Example int16_blue : Py.int16 "1DA1F2" = Some 1942002.
Proof. reflexivity. Qed.

Example int16_prefixed : Py.int16 " 0x_1f " = Some 31.
Proof. reflexivity. Qed.

Example int16_empty : Py.int16 "" = None.
Proof. reflexivity. Qed.

Example int16_not_hex : Py.int16 "GGGGGG" = None.
Proof. reflexivity. Qed.

(** ** Color *)

Section Color.

Variable settings : Settings.
Variable outside : Outside.

(** A fixed color [#] followed by six hexadecimal digits is the color of
    the embed, and nothing is logged. *)
Lemma set_color_fixed_hex (digits : list ascii) (embed : Embed) (w : World) :
  List.length digits = 6%nat ->
  Forall (fun c => Py.is_hex_digit c = true) digits ->
  webhook_embed_color settings = String "#" (string_of_list_ascii digits) ->
  set_color settings outside embed w
  = Return (embed_set_color (hex_value 0 digits) embed) w.
Proof.
  intros Hlen Hhex Hcolor. unfold set_color, bind. rewrite Hcolor.
  assert (Hl : String.length (string_of_list_ascii digits) = 6%nat).
  { rewrite <- Hlen. clear. induction digits; cbn; congruence. }
  cbn [Py.truthy String.eqb negb String.length String.get]. rewrite Hl.
  cbn [Nat.eqb Ascii.eqb Bool.eqb andb ret Py.slice_from].
  rewrite int16_hex; [reflexivity | | exact Hhex].
  intros ->. discriminate Hlen.
Qed.

(** A fixed color that is not seven characters long, or does not start
    with [#], is logged as invalid and replaced by Twitter's blue. *)
Lemma set_color_fixed_bad_shape (embed : Embed) (w : World) :
  webhook_embed_color settings <> "" ->
  (String.length (webhook_embed_color settings) <> 7%nat
   \/ String.get 0 (webhook_embed_color settings) <> Some "#"%char) ->
  set_color settings outside embed w
  = Return (embed_set_color 1942002 embed)
      (with_trace
         (Log ERROR "Invalid webhook embed color {}. Using default color."
            [webhook_embed_color settings] :: trace w) w).
Proof.
  intros Hne Hshape. unfold set_color, bind.
  assert (Ht : Py.truthy (webhook_embed_color settings) = true).
  { unfold Py.truthy.
    destruct (String.eqb_spec (webhook_embed_color settings) "");
      [contradiction | reflexivity]. }
  rewrite Ht.
  assert (Hguard :
    (String.length (webhook_embed_color settings) =? 7)%nat
    && match String.get 0 (webhook_embed_color settings) with
       | Some c => Ascii.eqb c "#"
       | None => false
       end = false).
  { destruct Hshape as [Hl | Hg].
    - apply Nat.eqb_neq in Hl. now rewrite Hl.
    - destruct (String.get 0 (webhook_embed_color settings)) as [c|];
        [|apply andb_false_r].
      destruct (Ascii.eqb_spec c "#"); [congruence | apply andb_false_r]. }
  rewrite Hguard. reflexivity.
Qed.

(** A fixed color of the right shape whose digits [int(_, 16)] rejects
    makes [set_color] raise [ValueError]. *)
Lemma set_color_fixed_not_a_number (rest : string) (embed : Embed)
    (w : World) :
  webhook_embed_color settings = String "#" rest ->
  String.length rest = 6%nat ->
  Py.int16 rest = None ->
  set_color settings outside embed w = Raise ValueError w.
Proof.
  intros Hcolor Hlen Hint. unfold set_color, bind. rewrite Hcolor.
  cbn [Py.truthy String.eqb negb String.length String.get]. rewrite Hlen.
  cbn [Nat.eqb Ascii.eqb Bool.eqb andb ret Py.slice_from].
  now rewrite Hint.
Qed.

End Color.

(** C2. A configured color of the right length that starts with [#] but is
    not made of hexadecimal digits is not replaced by the default color:
    [int("GGGGGG", 16)] raises [ValueError] and [set_color] does not return. *)
Theorem set_color_non_hex_color_raises
    (settings : Settings) (outside : Outside) (embed : Embed) (w : World) :
  webhook_embed_color settings = "#GGGGGG" ->
  set_color settings outside embed w = Raise ValueError w.
Proof.
  intros H.
  apply (set_color_fixed_not_a_number settings outside "GGGGGG"); auto.
Qed.

Lemma set_color_non_hex_color_raises_witness :
  webhook_embed_color (colored "#GGGGGG" false) = "#GGGGGG"
  /\ set_color (colored "#GGGGGG" false) (outside_with all_succeed 0)
       (DiscordEmbed "hello") initial_world
     = Raise ValueError initial_world.
Proof.
  split; [reflexivity|].
  apply (set_color_non_hex_color_raises (colored "#GGGGGG" false)).
  reflexivity.
Defined.


(** *** [hex] and [int(_, 16)] *)

Lemma hex_digit_value_hex_digit (d : N) :
  (d < 16)%N -> Py.hex_digit_value (Py.hex_digit d) = Some (Z.of_N d).
Proof.
  intros Hd.
  assert (Hin : In d [0; 1; 2; 3; 4; 5; 6; 7; 8; 9; 10; 11; 12; 13; 14; 15]%N).
  { cbn [In]. lia. }
  cbn [In] in Hin.
  repeat (destruct Hin as [<- | Hin]; [reflexivity|]). contradiction.
Qed.

Lemma hex_value_last (acc : Z) (cs : list ascii) (c : ascii) :
  hex_value acc (cs ++ [c])
  = 16 * hex_value acc cs + default 0 (Py.hex_digit_value c).
Proof.
  revert acc. induction cs as [|c' cs IH]; intros acc; [reflexivity|].
  cbn [app hex_value]. apply IH.
Qed.

Lemma hex_digits_are_hex (fuel : nat) :
  forall n, Forall (fun c => Py.is_hex_digit c = true) (Py.hex_digits fuel n).
Proof.
  induction fuel as [|fuel IH]; intros n; cbn [Py.hex_digits]; [constructor|].
  apply Forall_app. split.
  - destruct (n <? 16)%N; [constructor | apply IH].
  - constructor; [|constructor]. unfold Py.is_hex_digit.
    rewrite hex_digit_value_hex_digit; [reflexivity|].
    apply N.mod_upper_bound. discriminate.
Qed.

Lemma hex_digits_S (fuel : nat) (n : N) :
  Py.hex_digits (S fuel) n
  = (if (n <? 16)%N then [] else Py.hex_digits fuel (n / 16))
    ++ [Py.hex_digit (n mod 16)].
Proof. reflexivity. Qed.

Lemma hex_digits_nonempty (fuel : nat) (n : N) :
  Py.hex_digits (S fuel) n <> [].
Proof.
  cbn [Py.hex_digits]. intros H. apply app_eq_nil in H as (_ & H).
  discriminate H.
Qed.

(** The digits of [hex] read back as the number. *)
Lemma hex_value_hex_digits (fuel : nat) :
  forall n, (n < 16 ^ N.of_nat fuel)%N ->
    hex_value 0 (Py.hex_digits fuel n) = Z.of_N n.
Proof.
  induction fuel as [|fuel IH]; intros n Hn.
  - cbn in Hn. cbn. lia.
  - cbn [Py.hex_digits]. rewrite hex_value_last.
    rewrite hex_digit_value_hex_digit by (apply N.mod_upper_bound; discriminate).
    cbn [default from_option]. unfold id.
    rewrite Nat2N.inj_succ, N.pow_succ_r' in Hn.
    destruct (N.ltb_spec n 16) as [Hsmall | Hlarge].
    + cbn [hex_value]. rewrite N.mod_small by exact Hsmall. lia.
    + rewrite IH by (apply N.Div0.div_lt_upper_bound; lia).
      rewrite (N.div_mod n 16) at 3 by discriminate. lia.
Qed.

(** Without their first digit, the digits of a positive number read back as
    a smaller number. *)
Lemma hex_value_tail_hex_digits (fuel : nat) :
  forall n, (1 <= n < 16 ^ N.of_nat fuel)%N ->
    0 <= hex_value 0 (List.tl (Py.hex_digits fuel n)) < Z.of_N n.
Proof.
  induction fuel as [|fuel IH]; intros n Hn.
  - cbn in Hn. lia.
  - cbn [Py.hex_digits].
    rewrite Nat2N.inj_succ, N.pow_succ_r' in Hn.
    destruct (N.ltb_spec n 16) as [Hsmall | Hlarge].
    + cbn. lia.
    + assert (Hq : (1 <= n / 16 < 16 ^ N.of_nat fuel)%N).
      { split.
        - apply N.div_le_lower_bound; lia.
        - apply N.Div0.div_lt_upper_bound; lia. }
      specialize (IH _ Hq).
      destruct fuel as [|fuel]; [cbn in Hq; lia|].
      destruct (Py.hex_digits (S fuel) (n / 16)) as [|c cs] eqn:E;
        [now apply hex_digits_nonempty in E|].
      cbn [app List.tl] in *. rewrite hex_value_last.
      rewrite hex_digit_value_hex_digit
        by (apply N.mod_upper_bound; discriminate).
      cbn [default from_option]. unfold id.
      pose proof (N.mod_upper_bound n 16 ltac:(discriminate)).
      pose proof (N.div_mod n 16 ltac:(discriminate)).
      set (q := (n / 16)%N) in *. set (r := (n mod 16)%N) in *.
      clearbody q r. lia.
Qed.

Lemma below_pow_log2 (n : N) : (n < 16 ^ N.of_nat (S (N.to_nat (N.log2 n))))%N.
Proof.
  rewrite Nat2N.inj_succ, N2Nat.id.
  destruct n as [|p]; [reflexivity|].
  apply N.lt_le_trans with (2 ^ N.succ (N.log2 (N.pos p)))%N.
  - apply N.log2_spec. reflexivity.
  - apply N.pow_le_mono_l. lia.
Qed.

Lemma slice_from_1_string (cs : list ascii) :
  Py.slice_from 1 (string_of_list_ascii cs) = string_of_list_ascii (List.tl cs).
Proof. destruct cs; reflexivity. Qed.

(** [int(hex(n)[2:], 16)] is [n], and [int(hex(n)[2:][1:], 16)], which is
    what [set_color] computes for a drawn [n], is smaller than [n]. *)
Lemma int16_hex_roundtrip (n : Z) :
  0 <= n -> Py.int16 (Py.slice_from 2 (Py.hex n)) = Some n.
Proof.
  intros Hn. unfold Py.hex.
  destruct (Z.ltb_spec n 0) as [Hneg | _]; [lia|].
  change (Py.slice_from 2 ("" +:+ "0x" +:+ ?s)) with s.
  rewrite int16_hex.
  - rewrite hex_value_hex_digits by apply below_pow_log2. f_equal. lia.
  - apply hex_digits_nonempty.
  - apply hex_digits_are_hex.
Qed.

Lemma int16_hex_without_first_digit (n : Z) :
  16 <= n ->
  exists c,
    Py.int16 (Py.slice_from 1 (Py.slice_from 2 (Py.hex n))) = Some c
    /\ 0 <= c < n.
Proof.
  intros Hn. unfold Py.hex.
  destruct (Z.ltb_spec n 0) as [Hneg | _]; [lia|].
  change (Py.slice_from 2 ("" +:+ "0x" +:+ ?s)) with s.
  rewrite slice_from_1_string.
  set (m := Z.abs_N n).
  assert (Hm : Z.of_N m = n) by (subst m; lia).
  exists (hex_value 0
            (List.tl (Py.hex_digits (S (N.to_nat (N.log2 m))) m))).
  split.
  - apply int16_hex.
    + assert (Hlog : (4 <= N.log2 m)%N).
      { change 4%N with (N.log2 16). apply N.log2_le_mono. lia. }
      destruct (N.to_nat (N.log2 m)) as [|k] eqn:Ek; [lia|].
      rewrite hex_digits_S.
      destruct (N.ltb_spec m 16) as [Hsmall | _]; [lia|].
      destruct (Py.hex_digits (S k) (m / 16)) as [|c cs] eqn:E;
        [now apply hex_digits_nonempty in E|].
      cbn [app List.tl]. intros H. apply app_eq_nil in H as (_ & H).
      discriminate H.
    + pose proof (hex_digits_are_hex (S (N.to_nat (N.log2 m))) m) as H.
      destruct (Py.hex_digits (S (N.to_nat (N.log2 m))) m);
        [constructor | now inversion H].
  - rewrite <- Hm. apply hex_value_tail_hex_digits.
    split; [lia | apply below_pow_log2].
Qed.
(** With no fixed color and the randomize toggle set, a draw below 16
    makes [set_color] raise [ValueError]: [hex(n)[2:]] is one digit and the
    slice [[1:]] that follows leaves the empty string. *)
Lemma set_color_random_small_draw
    (settings : Settings) (outside : Outside) (embed : Embed) (w : World) :
  webhook_embed_color settings = "" ->
  webhook_randomize_embed_color settings = true ->
  0 <= randint_answer outside (rand_drawn w) < 16 ->
  set_color settings outside embed w = Raise ValueError (after_draw w).
Proof.
  intros Hfixed Hrandom Hdraw. unfold set_color, bind, randint.
  rewrite Hfixed, Hrandom. cbn [Py.truthy String.eqb negb ret].
  set (n := randint_answer outside (rand_drawn w)) in *.
  assert (Hn : In n [0; 1; 2; 3; 4; 5; 6; 7; 8; 9; 10; 11; 12; 13; 14; 15]).
  { cbn [In]. lia. }
  clearbody n. cbn [In] in Hn.
  repeat (destruct Hn as [<- | Hn]; [reflexivity|]). contradiction.
Qed.

(** A draw of 16 or more loses its first digit: the color that is set is
    smaller than the draw. *)
Lemma set_color_random_large_draw
    (settings : Settings) (outside : Outside) (embed : Embed) (w : World) :
  webhook_embed_color settings = "" ->
  webhook_randomize_embed_color settings = true ->
  16 <= randint_answer outside (rand_drawn w) ->
  exists c,
    set_color settings outside embed w
    = Return (embed_set_color c embed) (after_draw w)
    /\ 0 <= c < randint_answer outside (rand_drawn w).
Proof.
  intros Hfixed Hrandom Hdraw. unfold set_color, bind, randint.
  rewrite Hfixed, Hrandom. cbn [Py.truthy String.eqb negb ret].
  destruct (int16_hex_without_first_digit _ Hdraw) as (c & -> & Hc).
  now exists c.
Qed.

(** C3. With no fixed color and the randomize toggle set, [set_color] never
    sets the drawn integer: a draw below 16 makes it raise [ValueError], a
    larger draw loses its first digit and gives a smaller color. *)
Theorem set_color_random_misses_the_draw
    (settings : Settings) (outside : Outside) (embed : Embed) (w : World) :
  webhook_embed_color settings = "" ->
  webhook_randomize_embed_color settings = true ->
  0 <= randint_answer outside (rand_drawn w) ->
  let n := randint_answer outside (rand_drawn w) in
  (n < 16 ->
   set_color settings outside embed w = Raise ValueError (after_draw w))
  /\ (16 <= n ->
      exists c,
        set_color settings outside embed w
        = Return (embed_set_color c embed) (after_draw w)
        /\ 0 <= c < n).
Proof.
  intros Hfixed Hrandom Hdraw n. split; intros Hn.
  - apply set_color_random_small_draw; [exact Hfixed | exact Hrandom |].
    subst n. lia.
  - now apply set_color_random_large_draw.
Qed.

Lemma set_color_random_misses_the_draw_witness :
  set_color (colored "" true) (outside_with all_succeed 5)
    (DiscordEmbed "hello") initial_world
  = Raise ValueError (after_draw initial_world)
  /\ exists c,
       set_color (colored "" true) (outside_with all_succeed 11259375)
         (DiscordEmbed "hello") initial_world
       = Return (embed_set_color c (DiscordEmbed "hello"))
           (after_draw initial_world)
       /\ 0 <= c < 11259375.
Proof.
  split.
  - apply (set_color_random_misses_the_draw (colored "" true)
             (outside_with all_succeed 5) (DiscordEmbed "hello") initial_world);
      [reflexivity | reflexivity | cbn; lia | cbn; lia].
  - apply (set_color_random_misses_the_draw (colored "" true)
             (outside_with all_succeed 11259375) (DiscordEmbed "hello")
             initial_world);
      [reflexivity | reflexivity | cbn; lia | cbn; lia].
Defined.

(** The draw [0xABCDEF] gives the color [0xBCDEF]. *)
Example set_color_random_drops_first_digit :
  set_color (colored "" true) (outside_with all_succeed 11259375)
    (DiscordEmbed "hello") initial_world
  = Return (embed_set_color 773615 (DiscordEmbed "hello"))
      (after_draw initial_world).
Proof. reflexivity. Qed.

(** ** Traces and worlds *)

Lemma executed_rev_app (a b : list event) :
  executed_rev (a ++ b) = executed_rev a ++ executed_rev b.
Proof.
  induction a as [|[? ? ?|[h|? ? ?|?]] a IH]; cbn; rewrite ?IH; reflexivity.
Qed.

Lemma executed_app (later earlier : list event) :
  executed (later ++ earlier) = executed earlier ++ executed later.
Proof. unfold executed. now rewrite executed_rev_app, rev_app_distr. Qed.

Lemma error_reports_app (a b : list event) :
  error_reports (a ++ b) = (error_reports a + error_reports b)%nat.
Proof.
  induction a as [|[[] fmt ?|?] a IH]; cbn; rewrite ?IH; try reflexivity.
  now destruct (fmt =? "Got an error: {}").
Qed.

Lemma with_trace_nil (w : World) : with_trace ([] ++ trace w) w = w.
Proof. now destruct w. Qed.

Lemma trace_with_trace (t : list event) (w : World) :
  trace (with_trace t w) = t.
Proof. reflexivity. Qed.

Lemma with_trace_twice (t t' : list event) (w : World) :
  with_trace t (with_trace t' w) = with_trace t w.
Proof. reflexivity. Qed.

Create Rewrite HintDb world.
#[export] Hint Rewrite trace_with_trace with_trace_twice : world.

(** Worlds that differ from [w] by their trace are brought to the form
    [with_trace _ w]. *)
Ltac tidy_world := autorewrite with world.

Lemma split_nonempty (sep : ascii) (s : string) : Py.split sep s <> [].
Proof.
  destruct s as [|c s]; cbn; [congruence|].
  destruct (Ascii.eqb c sep); [congruence|].
  destruct (Py.split sep s); congruence.
Qed.

Lemma truthy_true (s : string) : s <> "" -> Py.truthy s = true.
Proof.
  intros H. unfold Py.truthy. now destruct (String.eqb_spec s "").
Qed.

(** ** The error reporter *)

Section ErrorReporter.

Variable settings : Settings.
Variable outside : Outside.

(** One turn of the loop of [_send_webhook], without files, when the
    webhook answers: the request is made, and a failure is reported. *)
Lemma _send_webhook_to_answered (report : string -> M unit)
    (message webhook target : string) (w : World) (r : Response) :
  net outside (Log DEBUG "Webhook URL: {}" [target] :: trace w)
    (Execute (DiscordWebhook target (Some message))) = Responds r ->
  _send_webhook_to outside report message webhook None target w
  = let w' :=
      with_trace (Net (Execute (DiscordWebhook target (Some message)))
                  :: Log DEBUG "Webhook URL: {}" [target] :: trace w) w in
    if ok r then Return tt w'
    else report ("Got " +:+ Py.str (status_code r) +:+ " from " +:+ webhook
                 +:+ ", response: " +:+ text r) w'.
Proof.
  intros Hnet.
  unfold _send_webhook_to, bind, log, emit, execute, perform, ret.
  cbn [trace with_trace]. rewrite Hnet.
  destruct (ok r); reflexivity.
Qed.

(** When every target answers with success, the loop makes one request
    per target, in order, and reports nothing. *)
Lemma _send_webhook_loop_all_succeed (report : string -> M unit)
    (message webhook : string) (targets : list string) :
  (forall t target, In target targets ->
     exists r, net outside t (Execute (DiscordWebhook target (Some message)))
               = Responds r /\ ok r = true) ->
  forall w, exists new,
    for_each targets (_send_webhook_to outside report message webhook None) w
    = Return tt (with_trace (new ++ trace w) w)
    /\ executed new
       = List.map (fun target => DiscordWebhook target (Some message)) targets
    /\ error_reports new = 0%nat.
Proof.
  induction targets as [|target targets IH]; intros Hok w.
  - exists []. now rewrite with_trace_nil.
  - destruct (Hok (Log DEBUG "Webhook URL: {}" [target] :: trace w) target)
      as (r & Hnet & Hr); [now left|].
    cbn [for_each]. unfold bind at 1.
    rewrite (_send_webhook_to_answered _ _ _ _ _ _ Hnet), Hr. cbv zeta.
    destruct (IH (fun t u Hu => Hok t u (or_intror Hu))
                (with_trace (Net (Execute (DiscordWebhook target (Some message)))
                  :: Log DEBUG "Webhook URL: {}" [target] :: trace w) w))
      as (new & Hrun & Hexec & Hrep).
    exists (new ++ [Net (Execute (DiscordWebhook target (Some message)));
                    Log DEBUG "Webhook URL: {}" [target]]).
    split; [|split].
    + rewrite Hrun. cbn [trace with_trace]. now rewrite <- app_assoc.
    + rewrite executed_app, Hexec. reflexivity.
    + rewrite error_reports_app, Hrep. reflexivity.
Qed.

(** An error report whose deliveries all succeed: one call of
    [send_error_webhook], one request per target of the destination. *)
Lemma send_error_webhook_delivered (depth : nat) (msg webhook : string) :
  send_errors settings = "True" -> webhook <> "" ->
  (forall t target, In target (Py.split "," webhook) ->
     exists r, net outside t (Execute (DiscordWebhook target (Some msg)))
               = Responds r /\ ok r = true) ->
  forall w, exists new,
    send_error_webhook settings outside (S depth) msg webhook w
    = Return tt (with_trace (new ++ trace w) w)
    /\ executed new
       = List.map (fun target => DiscordWebhook target (Some msg))
           (Py.split "," webhook)
    /\ error_reports new = 1%nat.
Proof.
  intros Hon Hdest Hok w.
  cbn [send_error_webhook]. rewrite Hon.
  unfold _send_webhook_reporting, bind at 1 2 3, log, emit.
  rewrite (truthy_true _ Hdest).
  cbn [String.eqb Ascii.eqb Bool.eqb negb trace with_trace].
  match goal with
  | |- context [for_each _ _ ?w0] =>
      destruct (_send_webhook_loop_all_succeed
                  (fun m => send_error_webhook settings outside depth m
                              (error_webhook settings))
                  msg webhook _ Hok w0) as (new & Hrun & Hexec & Hrep)
  end.
  exists (new ++ [Log DEBUG "{} - Webhook URL: {}" ["send_error_webhook()"; webhook];
                  Log DEBUG "{} - Message: {}" ["send_error_webhook()"; msg];
                  Log ERROR "Got an error: {}" [msg]]).
  split; [|split].
  - rewrite Hrun. cbn [trace with_trace]. now rewrite <- app_assoc.
  - rewrite executed_app, Hexec. reflexivity.
  - rewrite error_reports_app, Hrep. reflexivity.
Qed.

(** An error report when reports are not sent: two log lines. *)
Lemma send_error_webhook_logged_only (depth : nat) (msg webhook : string)
    (w : World) :
  send_errors settings <> "True" ->
  send_error_webhook settings outside (S depth) msg webhook w
  = Return tt
      (with_trace
         ([Log DEBUG
             "Tried to send error webhook but send_errors is not set to True" [];
           Log ERROR "Got an error: {}" [msg]] ++ trace w) w).
Proof.
  intros Hoff. cbn [send_error_webhook].
  destruct (String.eqb_spec (send_errors settings) "True"); [contradiction|].
  reflexivity.
Qed.

(** A failed delivery of an error report: the run goes on with a nested
    call of [send_error_webhook] on the error webhook, before the targets
    that are left. *)
Lemma send_error_webhook_failed_delivery (depth : nat)
    (msg webhook target : string) (targets : list string) (w : World)
    (r : Response) :
  send_errors settings = "True" -> webhook <> "" ->
  Py.split "," webhook = target :: targets ->
  (forall t, net outside t (Execute (DiscordWebhook target (Some msg)))
             = Responds r) ->
  ok r = false ->
  let report m :=
    send_error_webhook settings outside depth m (error_webhook settings) in
  send_error_webhook settings outside (S depth) msg webhook w
  = bind
      (report ("Got " +:+ Py.str (status_code r) +:+ " from " +:+ webhook
               +:+ ", response: " +:+ text r))
      (fun _ =>
         for_each targets (_send_webhook_to outside report msg webhook None))
      (with_trace
         ([Net (Execute (DiscordWebhook target (Some msg)));
           Log DEBUG "Webhook URL: {}" [target];
           Log DEBUG "{} - Webhook URL: {}" ["send_error_webhook()"; webhook];
           Log DEBUG "{} - Message: {}" ["send_error_webhook()"; msg];
           Log ERROR "Got an error: {}" [msg]] ++ trace w) w).
Proof.
  intros Hon Hdest Hsplit Hnet Hr report.
  cbn [send_error_webhook]. rewrite Hon.
  unfold _send_webhook_reporting, bind at 1 2 3, log, emit.
  rewrite (truthy_true _ Hdest), Hsplit.
  cbn [String.eqb Ascii.eqb Bool.eqb negb trace with_trace for_each].
  unfold bind.
  rewrite (_send_webhook_to_answered _ _ _ _ _ _ (Hnet _)), Hr.
  reflexivity.
Qed.

(** With reports sent and no destination configured, a report calls
    itself until the interpreter gives up. *)
Lemma send_error_webhook_without_destination (depth : nat) :
  send_errors settings = "True" -> error_webhook settings = "" ->
  forall msg w, exists w',
    send_error_webhook settings outside depth msg "" w
    = Raise RecursionError w'.
Proof.
  intros Hon Hdest. induction depth as [|depth IH]; intros msg w.
  - now exists w.
  - cbn [send_error_webhook]. rewrite Hon, Hdest.
    unfold _send_webhook_reporting, bind, log, emit.
    cbn [String.eqb Ascii.eqb Bool.eqb negb Py.truthy trace with_trace].
    apply IH.
Qed.

(** With reports sent and a network on which every webhook answers with
    a failure, a report never returns either, whatever its destination. *)
Lemma send_error_webhook_failing_destination (depth : nat) :
  send_errors settings = "True" ->
  (forall t h,
     exists r, net outside t (Execute h) = Responds r /\ ok r = false) ->
  forall msg webhook w, exists w',
    send_error_webhook settings outside depth msg webhook w
    = Raise RecursionError w'.
Proof.
  intros Hon Hfail. induction depth as [|depth IH]; intros msg webhook w.
  - now exists w.
  - cbn [send_error_webhook]. rewrite Hon.
    unfold _send_webhook_reporting, bind at 1 2 3, log, emit.
    cbn [String.eqb Ascii.eqb Bool.eqb trace with_trace].
    destruct (Py.truthy webhook); cbn [negb]; [|apply IH].
    destruct (Py.split "," webhook) as [|target targets] eqn:E;
      [now apply split_nonempty in E|].
    cbn [for_each]. unfold bind at 1.
    match goal with
    | |- context [_send_webhook_to _ _ _ _ _ _ ?w0] =>
        destruct (Hfail (Log DEBUG "Webhook URL: {}" [target] :: trace w0)
                    (DiscordWebhook target (Some msg))) as (r & Hnet & Hr);
        rewrite (_send_webhook_to_answered _ _ _ _ w0 _ Hnet), Hr
    end.
    cbv zeta.
    match goal with
    | |- context [send_error_webhook _ _ depth ?m ?u ?w1] =>
        destruct (IH m u w1) as (w' & ->)
    end.
    now exists w'.
Qed.

(** An error report returns when reports are only logged, and when the
    error webhook is configured and each of its targets answers with
    success. It is one call of the reporter. *)
Lemma report_error_returns (limit : nat) (msg : string) (w : World) :
  (send_errors settings = "True" ->
   error_webhook settings <> ""
   /\ forall t target, In target (Py.split "," (error_webhook settings)) ->
        exists r, net outside t (Execute (DiscordWebhook target (Some msg)))
                  = Responds r /\ ok r = true) ->
  exists new,
    report_error settings outside (S limit) msg w
    = Return tt (with_trace (new ++ trace w) w)
    /\ error_reports new = 1%nat
    /\ List.map url (executed new) = report_targets settings.
Proof.
  intros H. unfold report_error, report_targets.
  destruct (String.eqb_spec (send_errors settings) "True") as [Hon | Hoff].
  - destruct (H Hon) as (Hdest & Hok).
    destruct (send_error_webhook_delivered limit msg
                (error_webhook settings) Hon Hdest Hok w)
      as (new & Hrun & Hexec & Hrep).
    exists new. split; [exact Hrun|]. split; [exact Hrep|].
    rewrite Hexec, List.map_map. cbn [url DiscordWebhook]. apply List.map_id.
  - rewrite (send_error_webhook_logged_only limit _ _ _ Hoff).
    eexists. split; [reflexivity|]. split; reflexivity.
Qed.

End ErrorReporter.

(** ** Requests and log lines of a trace *)

Lemma requests_rev_app (a b : list event) :
  requests_rev (a ++ b) = requests_rev a ++ requests_rev b.
Proof.
  induction a as [|[? ? ?|?] a IH]; cbn; rewrite ?IH; reflexivity.
Qed.

Lemma requests_app (later earlier : list event) :
  requests (later ++ earlier) = requests earlier ++ requests later.
Proof. unfold requests. now rewrite requests_rev_app, rev_app_distr. Qed.

Lemma logged_rev_app (lvl : level) (fmt : string) (a b : list event) :
  logged_rev lvl fmt (a ++ b) = logged_rev lvl fmt a ++ logged_rev lvl fmt b.
Proof.
  induction a as [|[lvl' fmt' ?|?] a IH]; cbn; rewrite ?IH; try reflexivity.
  now destruct (level_eqb lvl' lvl && (fmt' =? fmt)).
Qed.

Lemma logged_app (lvl : level) (fmt : string) (later earlier : list event) :
  logged lvl fmt (later ++ earlier)
  = logged lvl fmt earlier ++ logged lvl fmt later.
Proof. unfold logged. now rewrite logged_rev_app, rev_app_distr. Qed.

Lemma reported_app (later earlier : list event) :
  reported (later ++ earlier) = reported earlier ++ reported later.
Proof. apply logged_app. Qed.

(** The count of error reports is the number of reported messages. *)
Lemma error_reports_reported (t : list event) :
  error_reports t = List.length (reported t).
Proof.
  unfold reported, logged. rewrite List.length_rev.
  induction t as [|[[] fmt args|?] t IH]; cbn; rewrite ?IH; try reflexivity.
  now destruct (fmt =? "Got an error: {}").
Qed.

Lemma nothing_reported (t : list event) :
  error_reports t = 0%nat -> reported t = [].
Proof.
  rewrite error_reports_reported. now destruct (reported t).
Qed.

(** ** Error reports, message by message *)

(** An error report whose deliveries all succeed: the message is logged
    once and goes once to each target of the destination. *)
Lemma send_error_webhook_delivered_message
    (settings : Settings) (outside : Outside) (depth : nat)
    (msg webhook : string) :
  send_errors settings = "True" -> webhook <> "" ->
  (forall t target, In target (Py.split "," webhook) ->
     exists r, net outside t (Execute (DiscordWebhook target (Some msg)))
               = Responds r /\ ok r = true) ->
  forall w, exists new,
    send_error_webhook settings outside (S depth) msg webhook w
    = Return tt (with_trace (new ++ trace w) w)
    /\ reported new = [[msg]]
    /\ executed new
       = List.map (fun target => DiscordWebhook target (Some msg))
           (Py.split "," webhook).
Proof.
  intros Hon Hdest Hok w.
  cbn [send_error_webhook]. rewrite Hon.
  unfold _send_webhook_reporting, bind at 1 2 3, log, emit.
  rewrite (truthy_true _ Hdest).
  cbn [String.eqb Ascii.eqb Bool.eqb negb trace with_trace].
  match goal with
  | |- context [for_each _ _ ?w0] =>
      destruct (_send_webhook_loop_all_succeed outside
                  (fun m => send_error_webhook settings outside depth m
                              (error_webhook settings))
                  msg webhook _ Hok w0) as (new & Hrun & Hexec & Hrep)
  end.
  exists (new ++ [Log DEBUG "{} - Webhook URL: {}" ["send_error_webhook()"; webhook];
                  Log DEBUG "{} - Message: {}" ["send_error_webhook()"; msg];
                  Log ERROR "Got an error: {}" [msg]]).
  split; [|split].
  - rewrite Hrun. cbn [trace with_trace]. now rewrite <- app_assoc.
  - rewrite reported_app, (nothing_reported _ Hrep). reflexivity.
  - rewrite executed_app, Hexec. reflexivity.
Qed.

(** A call [send_error_webhook(msg)] that returns (reports only logged, or
    an error webhook whose targets answer with success) logs [msg] as the
    one error of the call and requests only its deliveries to the targets of
    the error webhook. *)
Lemma report_error_message
    (settings : Settings) (outside : Outside) (limit : nat) (msg : string)
    (w : World) :
  (send_errors settings = "True" ->
   error_webhook settings <> ""
   /\ forall t target, In target (Py.split "," (error_webhook settings)) ->
        exists r, net outside t (Execute (DiscordWebhook target (Some msg)))
                  = Responds r /\ ok r = true) ->
  exists new,
    report_error settings outside (S limit) msg w
    = Return tt (with_trace (new ++ trace w) w)
    /\ reported new = [[msg]]
    /\ executed new
       = List.map (fun target => DiscordWebhook target (Some msg))
           (report_targets settings).
Proof.
  intros H. unfold report_error, report_targets.
  destruct (String.eqb_spec (send_errors settings) "True") as [Hon | Hoff].
  - destruct (H Hon) as (Hdest & Hok).
    now apply send_error_webhook_delivered_message.
  - rewrite (send_error_webhook_logged_only settings outside limit _ _ _ Hoff).
    eexists. split; [reflexivity|]. split; reflexivity.
Qed.

(** With reports sent and no error webhook configured, a report calls itself
    until the interpreter gives up: every nested call logs one more error,
    none makes a request, and the exception leaves with the log of all of
    them. *)
Lemma send_error_webhook_without_destination_run
    (settings : Settings) (outside : Outside) (depth : nat) :
  send_errors settings = "True" -> error_webhook settings = "" ->
  forall msg w, exists new,
    send_error_webhook settings outside depth msg "" w
    = Raise RecursionError (with_trace (new ++ trace w) w)
    /\ executed new = []
    /\ error_reports new = depth.
Proof.
  intros Hon Hdest. induction depth as [|depth IH]; intros msg w.
  - exists []. now rewrite with_trace_nil.
  - cbn [send_error_webhook]. rewrite Hon, Hdest.
    unfold _send_webhook_reporting, bind, log, emit.
    cbn [String.eqb Ascii.eqb Bool.eqb negb Py.truthy trace with_trace].
    match goal with
    | |- context [send_error_webhook _ _ depth ?m _ ?w0] =>
        destruct (IH m w0) as (new & -> & Hexec & Hcount)
    end.
    exists (new ++ [Log DEBUG "{} - Webhook URL: {}" ["send_error_webhook()"; ""];
                    Log DEBUG "{} - Message: {}" ["send_error_webhook()"; msg];
                    Log ERROR "Got an error: {}" [msg]]).
    split; [|split].
    + cbn [trace with_trace]. now rewrite <- app_assoc.
    + rewrite executed_app, Hexec. reflexivity.
    + rewrite error_reports_app, Hcount. cbn. lia.
Qed.

(** A call [send_error_webhook(msg)] in that configuration, from the other
    functions. *)
Lemma report_error_without_destination
    (settings : Settings) (outside : Outside) (limit : nat) (msg : string)
    (w : World) :
  send_errors settings = "True" -> error_webhook settings = "" ->
  exists new,
    report_error settings outside limit msg w
    = Raise RecursionError (with_trace (new ++ trace w) w)
    /\ executed new = []
    /\ error_reports new = limit.
Proof.
  intros Hon Hdest. unfold report_error. rewrite Hdest.
  now apply send_error_webhook_without_destination_run.
Qed.

(** C1. A failed delivery of an error report is not only logged: it is
    reported through [send_error_webhook] again. When the error webhook
    answers the first delivery with status 500, the reporter is called a
    second time and a second request goes to the error webhook. When reports
    are sent and no error webhook is configured, a report calls itself until
    the interpreter raises [RecursionError], whatever the recursion limit. *)
Theorem failed_error_delivery_is_reported_again :
  (exists w,
     send_error_webhook (reporting "E" "True") (outside_with first_fails 0)
       1000 "oops" "E" initial_world = Return tt w
     /\ error_reports (trace w) = 2%nat
     /\ executed (trace w)
        = [DiscordWebhook "E" (Some "oops");
           DiscordWebhook "E"
             (Some "Got 500 from E, response: Internal Server Error")])
  /\ (forall depth, exists w,
        send_error_webhook (reporting "" "True") (outside_with all_succeed 0)
          depth "oops" "" initial_world = Raise RecursionError w).
Proof.
  split.
  - eexists. split; [lazy; reflexivity|]. split; reflexivity.
  - intros depth.
    now apply (send_error_webhook_without_destination (reporting "" "True")).
Qed.

(** C4, as stated, fails: an error destination ["A,B"] is split, the report
    goes to ["A"] and to ["B"], and nothing is sent to ["A,B"]. *)
Lemma error_destination_is_split :
  exists w,
    report_error (reporting "A,B" "True") (outside_with all_succeed 0) 1000
      "oops" initial_world = Return tt w
    /\ executed (trace w)
       = [DiscordWebhook "A" (Some "oops"); DiscordWebhook "B" (Some "oops")]
    /\ ~ In (DiscordWebhook "A,B" (Some "oops")) (executed (trace w)).
Proof.
  eexists. split; [lazy; reflexivity|]. split; [reflexivity|].
  cbn. intros [H | [H | []]]; discriminate H.
Qed.

(** C4, amended. When the error reporter delivers, the error destination is
    split on [","] like any other destination: one request goes to each
    target, in order (here when each of them answers with success). *)
Theorem error_report_goes_to_each_target
    (settings : Settings) (outside : Outside) (depth : nat) (msg : string)
    (w : World) :
  send_errors settings = "True" ->
  error_webhook settings <> "" ->
  (forall t target, In target (Py.split "," (error_webhook settings)) ->
     exists r, net outside t (Execute (DiscordWebhook target (Some msg)))
               = Responds r /\ ok r = true) ->
  exists new,
    report_error settings outside (S depth) msg w
    = Return tt (with_trace (new ++ trace w) w)
    /\ executed new
       = List.map (fun target => DiscordWebhook target (Some msg))
           (Py.split "," (error_webhook settings)).
Proof.
  intros Hon Hdest Hok.
  destruct (send_error_webhook_delivered settings outside depth msg
              (error_webhook settings) Hon Hdest Hok w) as (new & Hrun & Hexec & _).
  exists new. split; assumption.
Qed.

Lemma error_report_goes_to_each_target_witness :
  exists new,
    report_error (reporting "A,B" "True") (outside_with all_succeed 0) 1
      "oops" initial_world
    = Return tt (with_trace (new ++ trace initial_world) initial_world)
    /\ executed new
       = List.map (fun target => DiscordWebhook target (Some "oops"))
           (Py.split "," (error_webhook (reporting "A,B" "True"))).
Proof.
  apply (error_report_goes_to_each_target (reporting "A,B" "True")
           (outside_with all_succeed 0) 0 "oops" initial_world).
  - reflexivity.
  - discriminate.
  - intros t target _. exists (response_200 "data"). split; reflexivity.
Defined.

(** ** The embed *)

(** C5, as stated, fails: with the author name overridden by ["Bot"], the
    title of the embed built for Alice is ["Bot (@alice)"], not
    ["Alice (@alice)"], and that is the title of the embed that is sent. *)
Lemma title_is_not_post_derived :
  (exists e w,
     build_embed (titled "Bot") (outside_with all_succeed 0) 1000 42 []
       "hello" "" "http://a/i.png" "Alice" "alice" initial_world = Return e w
     /\ title e = Some "Bot (@alice)"
     /\ title e <> Some "Alice (@alice)")
  /\ (exists w,
        send_embed_webhook (titled "Bot") (outside_with all_succeed 0) 1000 42
          [] "hello" "" "http://a/i.png" "Alice" "W" "alice" initial_world
        = Return tt w
        /\ List.map (fun h => List.map title (embeds h)) (executed (trace w))
           = [[Some "Bot (@alice)"]]).
Proof.
  split.
  - eexists. eexists. split; [lazy; reflexivity|]. split; [reflexivity|].
    discriminate.
  - eexists. split; [lazy; reflexivity|]. reflexivity.
Qed.

Lemma author_customize_footer (settings : Settings) (e : Embed) :
  author (customize_footer settings e) = author e.
Proof.
  unfold customize_footer.
  repeat match goal with
         | |- context [if ?b then _ else _] => destruct b
         end; reflexivity.
Qed.

(** Whatever [set_color] does, the embed it returns is the one it was
    given, with a color. *)
Lemma set_color_returns (settings : Settings) (outside : Outside)
    (embed e : Embed) (w w' : World) :
  set_color settings outside embed w = Return e w' ->
  exists c, e = embed_set_color c embed.
Proof.
  unfold set_color, bind.
  destruct (Py.truthy (webhook_embed_color settings)).
  - destruct ((String.length (webhook_embed_color settings) =? 7)%nat
              && match String.get 0 (webhook_embed_color settings) with
                 | Some c => Ascii.eqb c "#"
                 | None => false
                 end);
      cbn [log emit ret];
      match goal with
      | |- context [Py.int16 ?s] => destruct (Py.int16 s) as [c|]
      end; intros H; inversion H; now exists c.
  - destruct (webhook_randomize_embed_color settings);
      cbn [randint ret];
      match goal with
      | |- context [Py.int16 ?s] => destruct (Py.int16 s) as [c|]
      end; intros H; inversion H; now exists c.
Qed.

(** The title and the author name of the embed that [build_embed] returns:
    both are made of the overridden display name. *)
Lemma build_embed_names (settings : Settings) (outside : Outside)
    (limit : nat) (tweet_id : Z) (media_links : list string)
    (text_ card avatar display_name username : string) (w w' : World)
    (e : Embed) :
  build_embed settings outside limit tweet_id media_links text_ card avatar
    display_name username w = Return e w' ->
  let name :=
    Py.or (webhook_author_name settings) display_name
    +:+ " (@" +:+ username +:+ ")" in
  title e = (if use_title settings then Some name else None)
  /\ option_map author_name (author e)
     = (if use_author settings then Some name else None).
Proof.
  unfold build_embed, bind.
  destruct (get_embed_image settings outside limit media_links tweet_id w)
    as [u w1 | e1 w1]; [|discriminate].
  intros H. apply set_color_returns in H as (c & ->).
  cbn [title author embed_set_color]. split.
  - destruct (use_author settings); cbn [title set_author];
      destruct (use_title settings); cbn [title set_title];
      [reflexivity | | reflexivity |];
      unfold customize_footer;
      repeat match goal with
             | |- context [if ?b then _ else _] => destruct b
             end; reflexivity.
  - destruct (use_author settings); [reflexivity|].
    destruct (use_title settings); cbn [author set_title];
      rewrite author_customize_footer;
      repeat match goal with
             | |- context [if ?b then _ else _] => destruct b
             end; reflexivity.
Qed.

(** C5, amended. For a post of Alice (@alice), with the title toggle on and
    the author name overridden by ["Bot"], the title of the built embed is
    ["Bot (@alice)"]: the override replaces the display name before the title
    is set. The author block, when enabled, has the same name. The embed is
    built, for one, when the post has at most one media link and the color is
    the default one. *)
Theorem title_uses_author_name_override
    (settings : Settings) (outside : Outside) (limit : nat) (tweet_id : Z)
    (media_links : list string) (text_ card avatar : string) (w : World) :
  use_title settings = true ->
  webhook_author_name settings = "Bot" ->
  (forall e w',
     build_embed settings outside limit tweet_id media_links text_ card avatar
       "Alice" "alice" w = Return e w' ->
     title e = Some "Bot (@alice)"
     /\ (if use_author settings
         then option_map author_name (author e) = Some "Bot (@alice)"
         else author e = None))
  /\ ((List.length media_links <= 1)%nat ->
      webhook_embed_color settings = "" ->
      webhook_randomize_embed_color settings = false ->
      exists e,
        build_embed settings outside limit tweet_id media_links text_ card
          avatar "Alice" "alice" w = Return e w).
Proof.
  intros Htitle Hname. split.
  - intros e w' Hrun.
    destruct (build_embed_names _ _ _ _ _ _ _ _ _ _ _ _ _ Hrun) as (Ht & Ha).
    rewrite Htitle, Hname in Ht. split; [exact Ht|].
    rewrite Hname in Ha. destruct (use_author settings); [exact Ha|].
    now destruct (author e).
  - intros Hmedia Hfixed Hrandom.
    assert (Himage : exists u,
               get_embed_image settings outside limit media_links tweet_id w
               = Return u w).
    { destruct media_links as [|only [|second rest]].
      - now exists "".
      - now exists only.
      - cbn in Hmedia. lia. }
    destruct Himage as (u & Himage).
    unfold build_embed, bind. rewrite Himage.
    unfold set_color, bind. rewrite Hfixed, Hrandom.
    cbn [Py.truthy String.eqb Ascii.eqb Bool.eqb negb ret].
    change (Py.int16 (Py.slice_from 1 "#1DA1F2")) with (Some 1942002).
    eexists. reflexivity.
Qed.

Lemma title_uses_author_name_override_witness :
  exists e,
    build_embed (titled "Bot") (outside_with all_succeed 0) 1000 42 []
      "hello" "" "http://a/i.png" "Alice" "alice" initial_world
    = Return e initial_world
    /\ title e = Some "Bot (@alice)"
    /\ option_map author_name (author e) = Some "Bot (@alice)".
Proof.
  destruct (title_uses_author_name_override (titled "Bot")
              (outside_with all_succeed 0) 1000 42 [] "hello" ""
              "http://a/i.png" initial_world eq_refl eq_refl)
    as (Hnames & Hbuilt).
  destruct (Hbuilt ltac:(cbn; lia) eq_refl eq_refl) as (e & Hrun).
  exists e. split; [exact Hrun|]. exact (Hnames e initial_world Hrun).
Defined.

(** ** The collage *)

Section Collage.

Variable settings : Settings.
Variable outside : Outside.
Variable limit : nat.
Variable tweet_id : Z.


(** The collage service answers with a failure: the failure is reported,
    and what the report does is what [get_embed_image] does before it
    returns the first link. *)
Lemma get_embed_image_collage_failed (first second : string)
    (rest : list string) (w : World) (r : Response) :
  net outside (trace w) (collage_request settings tweet_id) = Responds r ->
  ok r = false ->
  get_embed_image settings outside limit (first :: second :: rest) tweet_id w
  = match report_error settings outside limit
            (collage_failed_msg settings tweet_id r)
            (asked settings tweet_id w) with
    | Return _ w' => Return first w'
    | Raise e w' => Raise e w'
    end.
Proof.
  intros Hnet Hr. unfold get_embed_image, bind at 1, perform.
  fold (collage_request settings tweet_id). rewrite Hnet, Hr. reflexivity.
Qed.

(** The collage service answers with a URL that does not exist. *)
Lemma get_embed_image_collage_missing (first second : string)
    (rest : list string) (w : World) (r r' : Response)
    (members : list (string * json)) (u : string) :
  net outside (trace w) (collage_request settings tweet_id) = Responds r ->
  ok r = true ->
  json_loads outside (text r) = Some (JObject members) ->
  member "url" members = Some (JString u) ->
  net outside (trace (asked settings tweet_id w)) (Head u) = Responds r' ->
  ok r' = false ->
  get_embed_image settings outside limit (first :: second :: rest) tweet_id w
  = match report_error settings outside limit
            (collage_missing_msg settings u)
            (checked settings tweet_id u w) with
    | Return _ w' => Return first w'
    | Raise e w' => Raise e w'
    end.
Proof.
  intros Hnet Hr Hjson Hurl Hhead Hr'.
  unfold get_embed_image, bind at 1, perform.
  fold (collage_request settings tweet_id). rewrite Hnet, Hr.
  unfold bind at 1. rewrite Hjson. unfold ret at 1.
  unfold bind at 1. rewrite Hurl. unfold ret at 1.
  unfold bind at 1. fold (asked settings tweet_id w).
  rewrite Hhead, Hr'. reflexivity.
Qed.

(** The collage service answers with a URL that exists: it is the image. *)
Lemma get_embed_image_collage_found (first second : string)
    (rest : list string) (w : World) (r r' : Response)
    (members : list (string * json)) (u : string) :
  net outside (trace w) (collage_request settings tweet_id) = Responds r ->
  ok r = true ->
  json_loads outside (text r) = Some (JObject members) ->
  member "url" members = Some (JString u) ->
  net outside (trace (asked settings tweet_id w)) (Head u) = Responds r' ->
  ok r' = true ->
  get_embed_image settings outside limit (first :: second :: rest) tweet_id w
  = Return u (checked settings tweet_id u w).
Proof.
  intros Hnet Hr Hjson Hurl Hhead Hr'.
  unfold get_embed_image, bind at 1, perform.
  fold (collage_request settings tweet_id). rewrite Hnet, Hr.
  unfold bind at 1. rewrite Hjson. unfold ret at 1.
  unfold bind at 1. rewrite Hurl. unfold ret at 1.
  unfold bind at 1. fold (asked settings tweet_id w).
  rewrite Hhead, Hr'. reflexivity.
Qed.

(** The request to the collage service raises: so does [get_embed_image]. *)
Lemma get_embed_image_collage_raises (first second : string)
    (rest : list string) (w : World) (e : exn) :
  net outside (trace w) (collage_request settings tweet_id) = Fails e ->
  get_embed_image settings outside limit (first :: second :: rest) tweet_id w
  = Raise e (asked settings tweet_id w).
Proof.
  intros Hnet. unfold get_embed_image, bind at 1, perform.
  fold (collage_request settings tweet_id). now rewrite Hnet.
Qed.

(** The body of the answer is not JSON. *)
Lemma get_embed_image_body_not_json (first second : string)
    (rest : list string) (w : World) (r : Response) :
  net outside (trace w) (collage_request settings tweet_id) = Responds r ->
  ok r = true ->
  json_loads outside (text r) = None ->
  get_embed_image settings outside limit (first :: second :: rest) tweet_id w
  = Raise JSONDecodeError (asked settings tweet_id w).
Proof.
  intros Hnet Hr Hjson. unfold get_embed_image, bind at 1, perform.
  fold (collage_request settings tweet_id). rewrite Hnet, Hr.
  unfold bind at 1. now rewrite Hjson.
Qed.

(** The body is a JSON object without a member [url]. *)
Lemma get_embed_image_body_without_url (first second : string)
    (rest : list string) (w : World) (r : Response)
    (members : list (string * json)) :
  net outside (trace w) (collage_request settings tweet_id) = Responds r ->
  ok r = true ->
  json_loads outside (text r) = Some (JObject members) ->
  member "url" members = None ->
  get_embed_image settings outside limit (first :: second :: rest) tweet_id w
  = Raise KeyError (asked settings tweet_id w).
Proof.
  intros Hnet Hr Hjson Hurl. unfold get_embed_image, bind at 1, perform.
  fold (collage_request settings tweet_id). rewrite Hnet, Hr.
  unfold bind at 1. rewrite Hjson. unfold ret at 1.
  unfold bind at 1. now rewrite Hurl.
Qed.

(** The existence check raises. *)
Lemma get_embed_image_check_raises (first second : string)
    (rest : list string) (w : World) (r : Response)
    (members : list (string * json)) (u : string) (e : exn) :
  net outside (trace w) (collage_request settings tweet_id) = Responds r ->
  ok r = true ->
  json_loads outside (text r) = Some (JObject members) ->
  member "url" members = Some (JString u) ->
  net outside (trace (asked settings tweet_id w)) (Head u) = Fails e ->
  get_embed_image settings outside limit (first :: second :: rest) tweet_id w
  = Raise e (checked settings tweet_id u w).
Proof.
  intros Hnet Hr Hjson Hurl Hhead.
  unfold get_embed_image, bind at 1, perform.
  fold (collage_request settings tweet_id). rewrite Hnet, Hr.
  unfold bind at 1. rewrite Hjson. unfold ret at 1.
  unfold bind at 1. rewrite Hurl. unfold ret at 1.
  unfold bind at 1. fold (asked settings tweet_id w). now rewrite Hhead.
Qed.

End Collage.

(** The collage service answers with a failure and its report returns:
    the first link is returned. *)
Lemma get_embed_image_collage_failed_reported
    (settings : Settings) (outside : Outside) (limit : nat) (tweet_id : Z)
    (first second : string) (rest : list string) (w w' : World)
    (r : Response) :
  net outside (trace w) (collage_request settings tweet_id) = Responds r ->
  ok r = false ->
  report_error settings outside limit
    (collage_failed_msg settings tweet_id r) (asked settings tweet_id w)
  = Return tt w' ->
  get_embed_image settings outside limit (first :: second :: rest) tweet_id w
  = Return first w'.
Proof.
  intros Hnet Hr Hreport.
  rewrite (get_embed_image_collage_failed _ _ _ _ _ _ _ _ _ Hnet Hr).
  now rewrite Hreport.
Qed.

(** [get_embed_image] by the number of media links, when its error report
    returns (error reports being only logged, or delivered to an error
    webhook that answers with success): the empty string for no media link
    and the link itself for one link, without any effect; for two links or
    more and a collage service that answers with a failure, one call of the
    error reporter and the first link. *)
Lemma get_embed_image_by_length
    (settings : Settings) (outside : Outside) (limit : nat) (tweet_id : Z)
    (media_links : list string) (w : World) (r : Response) :
  (send_errors settings = "True" ->
   error_webhook settings <> ""
   /\ forall t target, In target (Py.split "," (error_webhook settings)) ->
        exists r',
          net outside t
            (Execute (DiscordWebhook target
                        (Some (collage_failed_msg settings tweet_id r))))
          = Responds r' /\ ok r' = true) ->
  ((2 <= List.length media_links)%nat ->
   net outside (trace w) (collage_request settings tweet_id) = Responds r
   /\ ok r = false) ->
  match media_links with
  | [] =>
      get_embed_image settings outside (S limit) media_links tweet_id w
      = Return "" w
  | [only] =>
      get_embed_image settings outside (S limit) media_links tweet_id w
      = Return only w
  | first :: _ :: _ =>
      exists new,
        get_embed_image settings outside (S limit) media_links tweet_id w
        = Return first
            (with_trace (new ++ trace (asked settings tweet_id w)) w)
        /\ error_reports new = 1%nat
  end.
Proof.
  intros Hreports Hfails.
  destruct media_links as [|first [|second rest]];
    [reflexivity | reflexivity |].
  destruct Hfails as (Hnet & Hr); [cbn; lia|].
  destruct (report_error_returns settings outside limit
              (collage_failed_msg settings tweet_id r)
              (asked settings tweet_id w) Hreports)
    as (new & Hrun & Hcount & _).
  exists new. split; [|exact Hcount].
  rewrite (get_embed_image_collage_failed_reported _ _ _ _ _ _ _ _ _ _
             Hnet Hr Hrun).
  reflexivity.
Qed.

(** C6. [get_embed_image] returns the empty string for no media link and
    the link itself for one link, without any effect. For two links or more
    and a collage service that answers with a failure, it does not always
    return the first link: it reports the failure before it returns, and
    when reports are sent and no error webhook is configured that report
    calls itself until the interpreter raises [RecursionError].
    [get_embed_image] then raises [RecursionError] instead of returning the
    first link; no request follows the one to the collage service, and every
    nested call of the reporter has logged an error. *)
Theorem get_embed_image_loses_the_fallback_with_the_report
    (settings : Settings) (outside : Outside) (limit : nat) (tweet_id : Z)
    (w : World) :
  get_embed_image settings outside limit [] tweet_id w = Return "" w
  /\ (forall only,
        get_embed_image settings outside limit [only] tweet_id w
        = Return only w)
  /\ (forall first second rest r,
        send_errors settings = "True" -> error_webhook settings = "" ->
        net outside (trace w) (collage_request settings tweet_id)
        = Responds r ->
        ok r = false ->
        exists new,
          get_embed_image settings outside limit (first :: second :: rest)
            tweet_id w
          = Raise RecursionError
              (with_trace (new ++ trace (asked settings tweet_id w)) w)
          /\ executed new = []
          /\ error_reports new = limit).
Proof.
  split; [reflexivity|]. split; [reflexivity|].
  intros first second rest r Hon Hdest Hnet Hr.
  destruct (report_error_without_destination settings outside limit
              (collage_failed_msg settings tweet_id r)
              (asked settings tweet_id w) Hon Hdest)
    as (new & Hrun & Hexec & Hcount).
  exists new. split; [|split; assumption].
  rewrite (get_embed_image_collage_failed _ _ _ _ _ _ _ _ _ Hnet Hr).
  now rewrite Hrun.
Qed.

Lemma get_embed_image_loses_the_fallback_with_the_report_witness :
  exists new,
    get_embed_image (reporting "" "True") (outside_with collage_fails 0) 1000
      ["http://m/1.png"; "http://m/2.png"] 42 initial_world
    = Raise RecursionError
        (with_trace
           (new ++ trace (asked (reporting "" "True") 42 initial_world))
           initial_world)
    /\ executed new = []
    /\ error_reports new = 1000%nat.
Proof.
  destruct (get_embed_image_loses_the_fallback_with_the_report
              (reporting "" "True") (outside_with collage_fails 0) 1000 42
              initial_world) as (_ & _ & Hlost).
  apply (Hlost "http://m/1.png" "http://m/2.png" [] response_500);
    reflexivity.
Defined.

(** When error reports are only logged, the report of a failing collage
    service always returns, and so does [get_embed_image]. *)
Lemma get_embed_image_collage_failed_logged
    (settings : Settings) (outside : Outside) (limit : nat) (tweet_id : Z)
    (first second : string) (rest : list string) (w : World) (r : Response) :
  send_errors settings <> "True" ->
  net outside (trace w) (collage_request settings tweet_id) = Responds r ->
  ok r = false ->
  get_embed_image settings outside (S limit) (first :: second :: rest)
    tweet_id w
  = Return first
      (with_trace
         ([Log DEBUG
             "Tried to send error webhook but send_errors is not set to True" [];
           Log ERROR "Got an error: {}"
             [collage_failed_msg settings tweet_id r]]
          ++ trace (asked settings tweet_id w)) w).
Proof.
  intros Hoff Hnet Hr.
  rewrite (get_embed_image_collage_failed _ _ _ _ _ _ _ _ _ Hnet Hr).
  unfold report_error.
  now rewrite
    (send_error_webhook_logged_only settings outside limit _ _ _ Hoff).
Qed.

(** C9, as stated, fails: when the request to the collage service times
    out, [get_embed_image] raises [Timeout] and returns no fallback. *)
Lemma collage_timeout_propagates :
  exists w,
    get_embed_image default_settings (outside_with collage_times_out 0) 1000
      ["http://m/1.png"; "http://m/2.png"] 42 initial_world
    = Raise Timeout w.
Proof. eexists. lazy. reflexivity. Qed.

(** C9, amended. A non-success status of the collage service or of the
    existence check makes [get_embed_image] report the failure and return
    the first media link (error reports being only logged, or delivered to
    an error webhook that answers with success): the message of the failure
    is the one error it logs, and the only requests after the failed one are
    the deliveries of that message to the targets of the error webhook, none
    when reports are only logged. An exception of either
    request (a timeout), a body that [json.loads] rejects and a body without
    the member [url] are not caught: [get_embed_image] raises. *)
Theorem get_embed_image_on_transport_errors
    (settings : Settings) (outside : Outside) (limit : nat) (tweet_id : Z)
    (first second : string) (rest : list string) (w : World) :
  (send_errors settings = "True" ->
   error_webhook settings <> ""
   /\ forall t target msg,
        In target (Py.split "," (error_webhook settings)) ->
        exists r,
          net outside t (Execute (DiscordWebhook target (Some msg)))
          = Responds r /\ ok r = true) ->
  let run :=
    get_embed_image settings outside (S limit) (first :: second :: rest)
      tweet_id w in
  let w1 := asked settings tweet_id w in
  (forall r,
     net outside (trace w) (collage_request settings tweet_id) = Responds r ->
     ok r = false ->
     exists new,
       run = Return first (with_trace (new ++ trace w1) w)
       /\ reported new = [[collage_failed_msg settings tweet_id r]]
       /\ executed new
          = List.map
              (fun target =>
                 DiscordWebhook target
                   (Some (collage_failed_msg settings tweet_id r)))
              (report_targets settings))
  /\ (forall r members u r',
        net outside (trace w) (collage_request settings tweet_id)
        = Responds r ->
        ok r = true ->
        json_loads outside (text r) = Some (JObject members) ->
        member "url" members = Some (JString u) ->
        net outside (trace w1) (Head u) = Responds r' -> ok r' = false ->
        exists new,
          run
          = Return first
              (with_trace (new ++ trace (checked settings tweet_id u w)) w)
          /\ reported new = [[collage_missing_msg settings u]]
          /\ executed new
             = List.map
                 (fun target =>
                    DiscordWebhook target
                      (Some (collage_missing_msg settings u)))
                 (report_targets settings))
  /\ (forall e,
        net outside (trace w) (collage_request settings tweet_id) = Fails e ->
        run = Raise e w1)
  /\ (forall r,
        net outside (trace w) (collage_request settings tweet_id)
        = Responds r ->
        ok r = true ->
        json_loads outside (text r) = None ->
        run = Raise JSONDecodeError w1)
  /\ (forall r members,
        net outside (trace w) (collage_request settings tweet_id)
        = Responds r ->
        ok r = true ->
        json_loads outside (text r) = Some (JObject members) ->
        member "url" members = None ->
        run = Raise KeyError w1)
  /\ (forall r members u e,
        net outside (trace w) (collage_request settings tweet_id)
        = Responds r ->
        ok r = true ->
        json_loads outside (text r) = Some (JObject members) ->
        member "url" members = Some (JString u) ->
        net outside (trace w1) (Head u) = Fails e ->
        run = Raise e (checked settings tweet_id u w)).
Proof.
  intros Hreports run w1. subst run w1. repeat split.
  - intros r Hnet Hr.
    destruct (report_error_message settings outside limit
                (collage_failed_msg settings tweet_id r)
                (asked settings tweet_id w))
      as (new & Hrun & Hrep & Hexec).
    { intros Hon. destruct (Hreports Hon) as (Hdest & Hok). split; auto. }
    exists new. split; [|split; assumption].
    apply (get_embed_image_collage_failed_reported _ _ _ _ _ _ _ _ _ _
             Hnet Hr Hrun).
  - intros r members u r' Hnet Hr Hjson Hurl Hhead Hr'.
    destruct (report_error_message settings outside limit
                (collage_missing_msg settings u)
                (checked settings tweet_id u w))
      as (new & Hrun & Hrep & Hexec).
    { intros Hon. destruct (Hreports Hon) as (Hdest & Hok). split; auto. }
    exists new. split; [|split; assumption].
    rewrite (get_embed_image_collage_missing _ _ _ _ _ _ _ _ _ _ _ _
               Hnet Hr Hjson Hurl Hhead Hr').
    now rewrite Hrun.
  - intros e Hnet. now apply get_embed_image_collage_raises.
  - intros r Hnet Hr Hjson.
    now apply (get_embed_image_body_not_json _ _ _ _ _ _ _ _ r).
  - intros r members Hnet Hr Hjson Hurl.
    now apply (get_embed_image_body_without_url _ _ _ _ _ _ _ _ r members).
  - intros r members u e Hnet Hr Hjson Hurl Hhead.
    now apply (get_embed_image_check_raises _ _ _ _ _ _ _ _ r members).
Qed.

Lemma get_embed_image_on_transport_errors_witness :
  (exists new,
     get_embed_image (reporting "E" "True") (outside_with collage_fails 0) 1000
       ["http://m/1.png"; "http://m/2.png"] 42 initial_world
     = Return "http://m/1.png"
         (with_trace
            (new ++ trace (asked (reporting "E" "True") 42 initial_world))
            initial_world)
     /\ reported new
        = [[collage_failed_msg (reporting "E" "True") 42 response_500]]
     /\ executed new
        = [DiscordWebhook "E"
             (Some (collage_failed_msg (reporting "E" "True") 42
                      response_500))])
  /\ get_embed_image default_settings (outside_with collage_times_out 0) 1000
       ["http://m/1.png"; "http://m/2.png"] 42 initial_world
     = Raise Timeout (asked default_settings 42 initial_world).
Proof.
  split.
  - destruct (get_embed_image_on_transport_errors (reporting "E" "True")
                (outside_with collage_fails 0) 999 42
                "http://m/1.png" "http://m/2.png" [] initial_world)
      as (Hstatus & _).
    + intros _. split; [discriminate|].
      intros t target msg _. exists (response_200 "data"). split; reflexivity.
    + apply (Hstatus response_500); reflexivity.
  - destruct (get_embed_image_on_transport_errors default_settings
                (outside_with collage_times_out 0) 999 42
                "http://m/1.png" "http://m/2.png" [] initial_world)
      as (_ & _ & Hraise & _).
    + intros Hon. discriminate Hon.
    + apply Hraise. reflexivity.
Defined.

(** ** The dispatcher *)

Section Dispatcher.

Variable settings : Settings.
Variable outside : Outside.
Variable limit : nat.

(** One turn of the loop of [send_embed_webhook] when the webhook
    answers. *)
Lemma send_embed_webhook_to_answered (tweet_id : Z) (webhook : string)
    (hook : Webhook) (target : string) (w : World) (r : Response) :
  net outside (Log DEBUG "Webhook URL: {}" [target] :: trace w)
    (Execute (set_url target hook)) = Responds r ->
  send_embed_webhook_to settings outside (S limit) tweet_id webhook hook
    target w
  = let w' :=
      with_trace (Net (Execute (set_url target hook))
                  :: Log DEBUG "Webhook URL: {}" [target] :: trace w) w in
    if ok r then
      Return tt
        (with_trace
           (Log INFO
              "Webhook posted for tweet https://twitter.com/i/status/{}"
              [Py.str tweet_id] :: trace w') w)
    else
      report_error settings outside (S limit)
        ("Got " +:+ Py.str (status_code r) +:+ " from " +:+ webhook
         +:+ ". Response: " +:+ text r) w'.
Proof.
  intros Hnet.
  unfold send_embed_webhook_to, bind, log, emit, execute, perform.
  cbn [trace with_trace]. rewrite Hnet.
  destruct (ok r); reflexivity.
Qed.

(** What the network does in the scenario: a webhook executed at the
    address [a] answers with a failure, every other one with success, and
    no error report is delivered to [a]. *)
Variable a : string.
Hypothesis a_fails :
  forall t h, url h = a ->
    exists r, net outside t (Execute h) = Responds r /\ ok r = false.
Hypothesis others_succeed :
  forall t h, url h <> a ->
    exists r, net outside t (Execute h) = Responds r /\ ok r = true.
Hypothesis reports_elsewhere :
  send_errors settings = "True" ->
  error_webhook settings <> ""
  /\ ~ In a (Py.split "," (error_webhook settings)).

Lemma report_error_returns_here (msg : string) (w : World) :
  exists new,
    report_error settings outside (S limit) msg w
    = Return tt (with_trace (new ++ trace w) w)
    /\ error_reports new = 1%nat
    /\ List.map url (executed new) = report_targets settings.
Proof.
  apply report_error_returns. intros Hon.
  destruct (reports_elsewhere Hon) as (Hdest & Hnot).
  split; [exact Hdest|]. intros t target Hin.
  apply others_succeed. cbn [url DiscordWebhook]. congruence.
Qed.

(** [_send_webhook] on three targets of which the first fails. *)
Lemma _send_webhook_first_of_three_fails
    (message webhook func_name b c : string) (w : World) :
  Py.split "," webhook = [a; b; c] -> b <> a -> c <> a ->
  exists new reported,
    _send_webhook settings outside (S limit) message webhook func_name None w
    = Return tt (with_trace (new ++ trace w) w)
    /\ executed new
       = DiscordWebhook a (Some message)
         :: reported ++ [DiscordWebhook b (Some message);
                         DiscordWebhook c (Some message)]
    /\ error_reports new = 1%nat
    /\ List.map url reported = report_targets settings.
Proof.
  intros Hsplit Hb Hc.
  assert (Hne : webhook <> "") by (intros ->; discriminate Hsplit).
  unfold _send_webhook, _send_webhook_reporting, bind at 1 2, log, emit.
  rewrite (truthy_true _ Hne), Hsplit. cbn [negb trace with_trace for_each].
  (* the first target *)
  unfold bind at 1.
  match goal with
  | |- context [_send_webhook_to _ _ _ _ _ a ?w0] =>
      destruct (a_fails (Log DEBUG "Webhook URL: {}" [a] :: trace w0)
                  (DiscordWebhook a (Some message)) eq_refl)
        as (rA & HnetA & HrA);
      rewrite (_send_webhook_to_answered outside _ _ _ _ w0 _ HnetA), HrA
  end.
  cbv zeta. tidy_world.
  match goal with
  | |- context [report_error _ _ _ ?m ?w1] =>
      destruct (report_error_returns_here m w1)
        as (new1 & -> & Hrep1 & Hexec1)
  end.
  (* the second target *)
  tidy_world. unfold bind at 1.
  match goal with
  | |- context [_send_webhook_to _ _ _ _ _ b ?w0] =>
      destruct (others_succeed (Log DEBUG "Webhook URL: {}" [b] :: trace w0)
                  (DiscordWebhook b (Some message)) Hb)
        as (rB & HnetB & HrB);
      rewrite (_send_webhook_to_answered outside _ _ _ _ w0 _ HnetB), HrB
  end.
  cbv zeta. tidy_world.
  (* the third target *)
  unfold bind at 1.
  match goal with
  | |- context [_send_webhook_to _ _ _ _ _ c ?w0] =>
      destruct (others_succeed (Log DEBUG "Webhook URL: {}" [c] :: trace w0)
                  (DiscordWebhook c (Some message)) Hc)
        as (rC & HnetC & HrC);
      rewrite (_send_webhook_to_answered outside _ _ _ _ w0 _ HnetC), HrC
  end.
  cbv zeta. unfold ret. tidy_world.
  exists ([Net (Execute (DiscordWebhook c (Some message)));
           Log DEBUG "Webhook URL: {}" [c];
           Net (Execute (DiscordWebhook b (Some message)));
           Log DEBUG "Webhook URL: {}" [b]]
          ++ new1
          ++ [Net (Execute (DiscordWebhook a (Some message)));
              Log DEBUG "Webhook URL: {}" [a];
              Log DEBUG "{} - Webhook URL: {}" [func_name; webhook];
              Log DEBUG "{} - Message: {}" [func_name; message]]),
    (executed new1).
  split; [|split; [|split]].
  - f_equal. f_equal. cbn [app]. now rewrite <- !app_assoc.
  - rewrite !executed_app. reflexivity.
  - rewrite !error_reports_app, Hrep1. reflexivity.
  - exact Hexec1.
Qed.

(** [send_embed_webhook] on three targets of which the first fails, once
    the embed is built. *)
Lemma send_embed_webhook_first_of_three_fails
    (tweet_id : Z) (media_links : list string)
    (text_ card avatar display_name webhook username b c : string)
    (w w1 : World) (e : Embed) :
  Py.split "," webhook = [a; b; c] -> b <> a -> c <> a ->
  build_embed settings outside (S limit) tweet_id media_links text_ card
    avatar display_name username w = Return e w1 ->
  let hook := add_embed e (DiscordWebhook "" None) in
  exists new reported,
    send_embed_webhook settings outside (S limit) tweet_id media_links text_
      card avatar display_name webhook username w
    = Return tt (with_trace (new ++ trace w1) w1)
    /\ executed new
       = set_url a hook :: reported ++ [set_url b hook; set_url c hook]
    /\ error_reports new = 1%nat
    /\ List.map url reported = report_targets settings.
Proof.
  intros Hsplit Hb Hc Hbuild hook.
  assert (Hne : webhook <> "") by (intros ->; discriminate Hsplit).
  unfold send_embed_webhook. rewrite (truthy_true _ Hne). cbn [negb].
  unfold bind at 1. rewrite Hbuild, Hsplit. fold hook. cbn [for_each].
  (* the first target *)
  unfold bind at 1.
  destruct (a_fails (Log DEBUG "Webhook URL: {}" [a] :: trace w1)
              (set_url a hook) eq_refl) as (rA & HnetA & HrA).
  rewrite (send_embed_webhook_to_answered _ _ _ _ w1 _ HnetA), HrA.
  cbv zeta. tidy_world.
  match goal with
  | |- context [report_error _ _ _ ?m ?w2] =>
      destruct (report_error_returns_here m w2)
        as (new1 & -> & Hrep1 & Hexec1)
  end.
  (* the second target *)
  tidy_world. unfold bind at 1.
  match goal with
  | |- context [send_embed_webhook_to _ _ _ _ _ _ b ?w0] =>
      destruct (others_succeed (Log DEBUG "Webhook URL: {}" [b] :: trace w0)
                  (set_url b hook) Hb) as (rB & HnetB & HrB);
      rewrite (send_embed_webhook_to_answered _ _ _ _ w0 _ HnetB), HrB
  end.
  cbv zeta. tidy_world.
  (* the third target *)
  unfold bind at 1.
  match goal with
  | |- context [send_embed_webhook_to _ _ _ _ _ _ c ?w0] =>
      destruct (others_succeed (Log DEBUG "Webhook URL: {}" [c] :: trace w0)
                  (set_url c hook) Hc) as (rC & HnetC & HrC);
      rewrite (send_embed_webhook_to_answered _ _ _ _ w0 _ HnetC), HrC
  end.
  cbv zeta. unfold ret. tidy_world.
  exists ([Log INFO "Webhook posted for tweet https://twitter.com/i/status/{}"
             [Py.str tweet_id];
           Net (Execute (set_url c hook));
           Log DEBUG "Webhook URL: {}" [c];
           Log INFO "Webhook posted for tweet https://twitter.com/i/status/{}"
             [Py.str tweet_id];
           Net (Execute (set_url b hook));
           Log DEBUG "Webhook URL: {}" [b]]
          ++ new1
          ++ [Net (Execute (set_url a hook));
              Log DEBUG "Webhook URL: {}" [a]]),
    (executed new1).
  split; [|split; [|split]].
  - f_equal. f_equal. cbn [app]. now rewrite <- !app_assoc.
  - rewrite !executed_app. reflexivity.
  - rewrite !error_reports_app, Hrep1. reflexivity.
  - exact Hexec1.
Qed.

End Dispatcher.

(** On the destination ["A,B,C"], when the webhook at ["A"] answers with a
    failure, every other webhook with success, and the error report returns
    (it is only logged, or the error webhook is configured and does not
    hold ["A"]), both entry points of the dispatcher return after they have
    executed the webhook at ["A"], then the deliveries of the one error
    report, then the webhooks at ["B"] and at ["C"]: the reporter is called
    exactly once. *)
Lemma dispatcher_isolates_failed_target
    (settings : Settings) (outside : Outside) (limit : nat) :
  (forall t h, url h = "A" ->
     exists r, net outside t (Execute h) = Responds r /\ ok r = false) ->
  (forall t h, url h <> "A" ->
     exists r, net outside t (Execute h) = Responds r /\ ok r = true) ->
  (send_errors settings = "True" ->
   error_webhook settings <> ""
   /\ ~ In "A" (Py.split "," (error_webhook settings))) ->
  (forall message func_name w, exists new reported,
     _send_webhook settings outside (S limit) message "A,B,C" func_name None w
     = Return tt (with_trace (new ++ trace w) w)
     /\ executed new
        = DiscordWebhook "A" (Some message)
          :: reported ++ [DiscordWebhook "B" (Some message);
                          DiscordWebhook "C" (Some message)]
     /\ error_reports new = 1%nat
     /\ List.map url reported = report_targets settings)
  /\ (forall tweet_id media_links text_ card avatar display_name username
             w e w1,
        build_embed settings outside (S limit) tweet_id media_links text_ card
          avatar display_name username w = Return e w1 ->
        exists new reported,
          send_embed_webhook settings outside (S limit) tweet_id media_links
            text_ card avatar display_name "A,B,C" username w
          = Return tt (with_trace (new ++ trace w1) w1)
          /\ executed new
             = set_url "A" (add_embed e (DiscordWebhook "" None))
               :: reported
                  ++ [set_url "B" (add_embed e (DiscordWebhook "" None));
                      set_url "C" (add_embed e (DiscordWebhook "" None))]
          /\ error_reports new = 1%nat
          /\ List.map url reported = report_targets settings).
Proof.
  intros HA Hothers Hreports. split.
  - intros message func_name w.
    apply (_send_webhook_first_of_three_fails settings outside limit "A"
             HA Hothers Hreports message "A,B,C" func_name "B" "C" w);
      [reflexivity | discriminate | discriminate].
  - intros tweet_id media_links text_ card avatar display_name username w e w1
      Hbuild.
    apply (send_embed_webhook_first_of_three_fails settings outside limit "A"
             HA Hothers Hreports tweet_id media_links text_ card avatar
             display_name "A,B,C" username "B" "C" w w1 e);
      [reflexivity | discriminate | discriminate | exact Hbuild].
Qed.

(** When reports are sent and no error webhook is configured, the first
    failed delivery ends [_send_webhook]: its report never returns, and the
    targets that are left are not tried. *)
Lemma _send_webhook_first_failure_unreported
    (settings : Settings) (outside : Outside) (limit : nat)
    (message webhook func_name first : string) (others : list string)
    (w : World) :
  send_errors settings = "True" -> error_webhook settings = "" ->
  webhook <> "" -> Py.split "," webhook = first :: others ->
  (forall t h, url h = first ->
     exists r, net outside t (Execute h) = Responds r /\ ok r = false) ->
  exists new,
    _send_webhook settings outside limit message webhook func_name None w
    = Raise RecursionError (with_trace (new ++ trace w) w)
    /\ executed new = [DiscordWebhook first (Some message)]
    /\ error_reports new = limit.
Proof.
  intros Hon Hdest Hne Hsplit Hfails.
  unfold _send_webhook, _send_webhook_reporting, bind at 1 2, log, emit.
  rewrite (truthy_true _ Hne), Hsplit. cbn [negb trace with_trace for_each].
  unfold bind at 1.
  match goal with
  | |- context [_send_webhook_to _ _ _ _ _ first ?w0] =>
      destruct (Hfails (Log DEBUG "Webhook URL: {}" [first] :: trace w0)
                  (DiscordWebhook first (Some message)) eq_refl)
        as (r & Hnet & Hr);
      rewrite (_send_webhook_to_answered outside _ _ _ _ w0 _ Hnet), Hr
  end.
  cbv zeta. tidy_world.
  match goal with
  | |- context [report_error _ _ _ ?m ?w1] =>
      destruct (report_error_without_destination settings outside limit m w1
                  Hon Hdest) as (new & -> & Hexec & Hcount)
  end.
  tidy_world.
  exists (new
          ++ [Net (Execute (DiscordWebhook first (Some message)));
              Log DEBUG "Webhook URL: {}" [first];
              Log DEBUG "{} - Webhook URL: {}" [func_name; webhook];
              Log DEBUG "{} - Message: {}" [func_name; message]]).
  split; [|split].
  - now rewrite <- app_assoc.
  - rewrite executed_app, Hexec. reflexivity.
  - rewrite error_reports_app, Hcount. cbn. lia.
Qed.

(** The same for [send_embed_webhook], once the embed is built. *)
Lemma send_embed_webhook_first_failure_unreported
    (settings : Settings) (outside : Outside) (limit : nat)
    (tweet_id : Z) (media_links : list string)
    (text_ card avatar display_name webhook username first : string)
    (others : list string) (w w1 : World) (e : Embed) :
  send_errors settings = "True" -> error_webhook settings = "" ->
  webhook <> "" -> Py.split "," webhook = first :: others ->
  (forall t h, url h = first ->
     exists r, net outside t (Execute h) = Responds r /\ ok r = false) ->
  build_embed settings outside (S limit) tweet_id media_links text_ card
    avatar display_name username w = Return e w1 ->
  exists new,
    send_embed_webhook settings outside (S limit) tweet_id media_links text_
      card avatar display_name webhook username w
    = Raise RecursionError (with_trace (new ++ trace w1) w1)
    /\ executed new = [set_url first (add_embed e (DiscordWebhook "" None))]
    /\ error_reports new = S limit.
Proof.
  intros Hon Hdest Hne Hsplit Hfails Hbuild.
  unfold send_embed_webhook. rewrite (truthy_true _ Hne). cbn [negb].
  unfold bind at 1. rewrite Hbuild, Hsplit. cbn [for_each].
  unfold bind at 1.
  destruct (Hfails (Log DEBUG "Webhook URL: {}" [first] :: trace w1)
              (set_url first (add_embed e (DiscordWebhook "" None))) eq_refl)
    as (r & Hnet & Hr).
  rewrite (send_embed_webhook_to_answered settings outside limit _ _ _ _ w1 _
             Hnet), Hr.
  cbv zeta. tidy_world.
  match goal with
  | |- context [report_error _ _ _ ?m ?w2] =>
      destruct (report_error_without_destination settings outside (S limit) m
                  w2 Hon Hdest) as (new & -> & Hexec & Hcount)
  end.
  tidy_world.
  exists (new
          ++ [Net (Execute
                     (set_url first (add_embed e (DiscordWebhook "" None))));
              Log DEBUG "Webhook URL: {}" [first]]).
  split; [|split].
  - now rewrite <- app_assoc.
  - rewrite executed_app, Hexec. reflexivity.
  - rewrite error_reports_app, Hcount. cbn. lia.
Qed.

(** C7. On the destination ["A,B,C"] the dispatcher does not attempt a
    delivery to each of ["A"], ["B"] and ["C"] whatever the earlier targets
    answer, and a failure of ["A"] does not always give exactly one call of
    the error reporter. When reports are sent and no error webhook is
    configured, the report of the failed delivery to ["A"] calls itself until
    the interpreter raises [RecursionError]: both entry points of the
    dispatcher raise [RecursionError], the webhook at ["A"] is the only one
    they have executed (nothing is delivered to ["B"] or to ["C"], whatever
    these would answer), and the reporter has been called as often as the
    recursion limit allows. *)
Theorem dispatcher_stops_at_a_failure_it_cannot_report
    (settings : Settings) (outside : Outside) (limit : nat) :
  send_errors settings = "True" -> error_webhook settings = "" ->
  (forall t h, url h = "A" ->
     exists r, net outside t (Execute h) = Responds r /\ ok r = false) ->
  (forall message func_name w, exists new,
     _send_webhook settings outside (S limit) message "A,B,C" func_name None w
     = Raise RecursionError (with_trace (new ++ trace w) w)
     /\ executed new = [DiscordWebhook "A" (Some message)]
     /\ error_reports new = S limit)
  /\ (forall tweet_id media_links text_ card avatar display_name username
             w e w1,
        build_embed settings outside (S limit) tweet_id media_links text_ card
          avatar display_name username w = Return e w1 ->
        exists new,
          send_embed_webhook settings outside (S limit) tweet_id media_links
            text_ card avatar display_name "A,B,C" username w
          = Raise RecursionError (with_trace (new ++ trace w1) w1)
          /\ executed new
             = [set_url "A" (add_embed e (DiscordWebhook "" None))]
          /\ error_reports new = S limit).
Proof.
  intros Hon Hdest HA. split.
  - intros message func_name w.
    now apply (_send_webhook_first_failure_unreported settings outside
                 (S limit) message "A,B,C" func_name "A" ["B"; "C"] w).
  - intros tweet_id media_links text_ card avatar display_name username w e w1
      Hbuild.
    now apply (send_embed_webhook_first_failure_unreported settings outside
                 limit tweet_id media_links text_ card avatar display_name
                 "A,B,C" username "A" ["B"; "C"] w w1 e).
Qed.

Lemma dispatcher_stops_at_a_failure_it_cannot_report_witness :
  (exists new,
     _send_webhook (reporting "" "True") (outside_with only_A_fails 0) 1000
       "hello" "A,B,C" "send_normal_webhook()" None initial_world
     = Raise RecursionError
         (with_trace (new ++ trace initial_world) initial_world)
     /\ executed new = [DiscordWebhook "A" (Some "hello")]
     /\ error_reports new = 1000%nat)
  /\ (exists new,
        send_embed_webhook (reporting "" "True")
          (outside_with only_A_fails 0) 1000 42 [] "hello" ""
          "http://a/i.png" "Alice" "A,B,C" "alice" initial_world
        = Raise RecursionError
            (with_trace (new ++ trace initial_world) initial_world)
        /\ List.map url (executed new) = ["A"]
        /\ error_reports new = 1000%nat).
Proof.
  assert (HA : forall t h, url h = "A" ->
            exists r, net (outside_with only_A_fails 0) t (Execute h)
                      = Responds r /\ ok r = false).
  { intros t h Hurl. exists response_500. cbn. now rewrite Hurl. }
  destruct (dispatcher_stops_at_a_failure_it_cannot_report
              (reporting "" "True") (outside_with only_A_fails 0) 999
              eq_refl eq_refl HA)
    as (Hplain & Hembed).
  split.
  - apply Hplain.
  - destruct (Hembed 42 [] "hello" "" "http://a/i.png" "Alice" "alice"
                initial_world
                (embed_set_color 1942002 (DiscordEmbed "hello")) initial_world
                eq_refl)
      as (new & Hrun & Hexec & Hrep).
    exists new. split; [exact Hrun|]. split; [|exact Hrep].
    now rewrite Hexec.
Defined.

(** ** Every target is attempted, whatever the answers *)

Section EveryTarget.

Variable settings : Settings.
Variable outside : Outside.
Variable limit : nat.

Lemma filter_carries_embed_app (l1 l2 : list Webhook) :
List.filter carries_embed (l1 ++ l2)
= List.filter carries_embed l1 ++ List.filter carries_embed l2.
Proof. apply List.filter_app. Qed.

(** An error report that returns as in [report_error_returns] executes no
  webhook that carries an embed. *)
Lemma report_error_carries_no_embed (msg : string) (w : World) :
(send_errors settings = "True" ->
 error_webhook settings <> ""
 /\ forall t h, carries_embed h = false ->
      exists r, net outside t (Execute h) = Responds r /\ ok r = true) ->
exists new,
  report_error settings outside (S limit) msg w
  = Return tt (with_trace (new ++ trace w) w)
  /\ List.filter carries_embed (executed new) = [].
Proof.
intros H. unfold report_error.
destruct (String.eqb_spec (send_errors settings) "True") as [Hon | Hoff].
- destruct (H Hon) as (Hdest & Hok).
  destruct (send_error_webhook_delivered settings outside limit msg
              (error_webhook settings) Hon Hdest
              (fun t target _ => Hok t (DiscordWebhook target (Some msg)) eq_refl)
              w)
    as (new & Hrun & Hexec & _).
  exists new. split; [exact Hrun|]. rewrite Hexec. clear.
  induction (Py.split "," (error_webhook settings)) as [|u us IH];
    [reflexivity | exact IH].
- rewrite (send_error_webhook_logged_only settings outside limit _ _ _ Hoff).
  eexists. split; reflexivity.
Qed.

(** The loop of [send_embed_webhook]: whatever each target answers, the
  embed is delivered once to every target, in order. *)
Lemma send_embed_webhook_loop_every_target (tweet_id : Z) (webhook : string)
  (hook : Webhook) (targets : list string) :
carries_embed hook = true ->
(forall t h, carries_embed h = true ->
   exists r, net outside t (Execute h) = Responds r) ->
(send_errors settings = "True" ->
 error_webhook settings <> ""
 /\ forall t h, carries_embed h = false ->
      exists r, net outside t (Execute h) = Responds r /\ ok r = true) ->
forall w, exists new,
  for_each targets
    (send_embed_webhook_to settings outside (S limit) tweet_id webhook hook) w
  = Return tt (with_trace (new ++ trace w) w)
  /\ List.filter carries_embed (executed new)
     = List.map (fun target => set_url target hook) targets.
Proof.
intros Hhook Hanswered Hreports.
induction targets as [|target targets IH]; intros w.
- exists []. now rewrite with_trace_nil.
- cbn [for_each]. unfold bind at 1.
  destruct (Hanswered (Log DEBUG "Webhook URL: {}" [target] :: trace w)
              (set_url target hook) Hhook) as (r & Hnet).
  rewrite (send_embed_webhook_to_answered _ _ _ _ _ _ _ _ _ Hnet).
  cbv zeta. destruct (ok r).
  + match goal with
    | |- context [for_each _ _ ?w1] =>
        destruct (IH w1) as (new & Hrun & Hexec)
    end.
    exists (new ++ [Log INFO
                      "Webhook posted for tweet https://twitter.com/i/status/{}"
                      [Py.str tweet_id];
                    Net (Execute (set_url target hook));
                    Log DEBUG "Webhook URL: {}" [target]]).
    split.
    * rewrite Hrun. tidy_world. now rewrite <- app_assoc.
    * rewrite executed_app, filter_carries_embed_app, Hexec.
      cbn. unfold carries_embed in *. cbn [embeds set_url]. now rewrite Hhook.
  + match goal with
    | |- context [report_error _ _ _ ?m ?w1] =>
        destruct (report_error_carries_no_embed m w1 Hreports)
          as (new1 & -> & Hnone)
    end.
    match goal with
    | |- context [for_each _ _ ?w2] =>
        destruct (IH w2) as (new & Hrun & Hexec)
    end.
    exists (new ++ new1 ++ [Net (Execute (set_url target hook));
                            Log DEBUG "Webhook URL: {}" [target]]).
    split.
    * rewrite Hrun. tidy_world. now rewrite <- !app_assoc.
    * rewrite !executed_app, !filter_carries_embed_app, Hexec, Hnone.
      cbn. unfold carries_embed in *. cbn [embeds set_url]. now rewrite Hhook.
Qed.

(** [send_embed_webhook] delivers the embed once to every target of the
  destination, whatever the targets answer. *)
Lemma send_embed_webhook_attempts_every_target
  (tweet_id : Z) (media_links : list string)
  (text_ card avatar display_name webhook username : string)
  (w w1 : World) (e : Embed) :
webhook <> "" ->
build_embed settings outside (S limit) tweet_id media_links text_ card
  avatar display_name username w = Return e w1 ->
(forall t h, carries_embed h = true ->
   exists r, net outside t (Execute h) = Responds r) ->
(send_errors settings = "True" ->
 error_webhook settings <> ""
 /\ forall t h, carries_embed h = false ->
      exists r, net outside t (Execute h) = Responds r /\ ok r = true) ->
exists new,
  send_embed_webhook settings outside (S limit) tweet_id media_links text_
    card avatar display_name webhook username w
  = Return tt (with_trace (new ++ trace w1) w1)
  /\ List.filter carries_embed (executed new)
     = List.map
         (fun target => set_url target (add_embed e (DiscordWebhook "" None)))
         (Py.split "," webhook).
Proof.
intros Hne Hbuild Hanswered Hreports.
unfold send_embed_webhook. rewrite (truthy_true _ Hne). cbn [negb].
unfold bind at 1. rewrite Hbuild.
now apply send_embed_webhook_loop_every_target.
Qed.

Lemma report_error_logged_only (msg : string) (w : World) :
send_errors settings <> "True" ->
report_error settings outside (S limit) msg w
= Return tt
    (with_trace
       ([Log DEBUG
           "Tried to send error webhook but send_errors is not set to True" [];
         Log ERROR "Got an error: {}" [msg]] ++ trace w) w).
Proof. apply send_error_webhook_logged_only. Qed.

(** The loop of [_send_webhook] when error reports are only logged:
  whatever each target answers, the message is delivered once to every
  target, in order, and nothing else is sent. *)
Lemma _send_webhook_loop_every_target (message webhook : string)
  (targets : list string) :
send_errors settings <> "True" ->
(forall t target, In target targets ->
   exists r, net outside t (Execute (DiscordWebhook target (Some message)))
             = Responds r) ->
forall w, exists new,
  for_each targets
    (_send_webhook_to outside (report_error settings outside (S limit))
       message webhook None) w
  = Return tt (with_trace (new ++ trace w) w)
  /\ executed new
     = List.map (fun target => DiscordWebhook target (Some message)) targets.
Proof.
intros Hoff. induction targets as [|target targets IH]; intros Hanswered w.
- exists []. now rewrite with_trace_nil.
- cbn [for_each]. unfold bind at 1.
  destruct (Hanswered (Log DEBUG "Webhook URL: {}" [target] :: trace w)
              target) as (r & Hnet); [now left|].
  rewrite (_send_webhook_to_answered _ _ _ _ _ _ _ Hnet). cbv zeta.
  assert (Hrest : forall t u, In u targets ->
            exists r, net outside t (Execute (DiscordWebhook u (Some message)))
                      = Responds r)
    by (intros t u Hu; apply Hanswered; now right).
  destruct (ok r).
  + match goal with
    | |- context [for_each _ _ ?w1] =>
        destruct (IH Hrest w1) as (new & Hrun & Hexec)
    end.
    exists (new ++ [Net (Execute (DiscordWebhook target (Some message)));
                    Log DEBUG "Webhook URL: {}" [target]]).
    split.
    * rewrite Hrun. tidy_world. now rewrite <- app_assoc.
    * rewrite executed_app, Hexec. reflexivity.
  + rewrite (report_error_logged_only _ _ Hoff). tidy_world.
    match goal with
    | |- context [for_each _ _ ?w1] =>
        destruct (IH Hrest w1) as (new & Hrun & Hexec)
    end.
    exists (new
            ++ [Log DEBUG
                  "Tried to send error webhook but send_errors is not set to True"
                  [];
                Log ERROR "Got an error: {}"
                  ["Got " +:+ Py.str (status_code r) +:+ " from " +:+ webhook
                   +:+ ", response: " +:+ text r]]
            ++ [Net (Execute (DiscordWebhook target (Some message)));
                Log DEBUG "Webhook URL: {}" [target]]).
    split.
    * rewrite Hrun. tidy_world. now rewrite <- !app_assoc.
    * rewrite !executed_app, Hexec. reflexivity.
Qed.

End EveryTarget.

(** ** Staged files *)

(** C8. When the send raises, [send_hook_and_files] does not reach
    [temp_dir.cleanup()]: the exception leaves the function while the
    temporary directory and the file staged in it are still on disk. So it
    is when the execution of the webhook fails to connect, and when the
    webhook URL is empty while error reports are sent without an error
    webhook, which ends in [RecursionError]. *)
Theorem temporary_directory_survives_failed_send :
  (exists w,
     send_hook_and_files uploading (outside_with send_breaks 0) 1000
       ["http://m/a.png"] "hello" "W" initial_world
     = Raise ConnectionError w
     /\ tmpdirs w = ["/tmp/tmp0"]
     /\ fs w !! "/tmp/tmp0/a.png" = Some "data")
  /\ (exists w,
        send_hook_and_files uploading_reporting (outside_with all_succeed 0)
          50 ["http://m/a.png"] "hello" "" initial_world
        = Raise RecursionError w
        /\ tmpdirs w = ["/tmp/tmp0"]
        /\ fs w !! "/tmp/tmp0/a.png" = Some "data").
Proof.
  split; eexists; (split; [vm_compute; reflexivity|]); split; reflexivity.
Qed.

(** When the send returns, the directory and the staged file are removed. *)
Example temporary_directory_removed_after_send :
  exists w,
    send_hook_and_files uploading (outside_with all_succeed 0) 1000
      ["http://m/a.png"] "hello" "W" initial_world
    = Return tt w
    /\ tmpdirs w = []
    /\ fs w = ∅
    /\ List.map files (executed (trace w)) = [[("a.png", "data")]].
Proof.
  eexists. split; [vm_compute; reflexivity|]. repeat split; reflexivity.
Qed.

(** When a download raises, the directory made for it is left as well. *)
Example temporary_directory_survives_failed_download :
  exists w,
    send_hook_and_files uploading (outside_with downloads_time_out 0) 1000
      ["http://m/a.png"] "hello" "W" initial_world
    = Raise Timeout w
    /\ tmpdirs w = ["/tmp/tmp0"].
Proof. eexists. split; [vm_compute; reflexivity|]. reflexivity. Qed.

(** When the send returns, [send_hook_and_files] ends with the cleanup: the
    temporary directory is no longer on disk. *)
Lemma send_hook_and_files_when_send_returns
    (settings : Settings) (outside : Outside) (limit : nat)
    (media_links : list string) (msg webhook_url : string)
    (w w1 w2 : World) (images : list string) (dir : string) :
  upload_images settings = true ->
  download_images outside media_links w = Return (images, dir) w1 ->
  send_normal_webhook settings outside limit
    (message_sent settings media_links msg) webhook_url (Some images) w1
  = Return tt w2 ->
  exists w3,
    send_hook_and_files settings outside limit media_links msg webhook_url w
    = Return tt w3
    /\ ~ In dir (tmpdirs w3)
    /\ forall path, inside dir path = true -> fs w3 !! path = None.
Proof.
  intros Hupload Hdown Hsend.
  unfold send_hook_and_files. rewrite Hupload.
  unfold bind at 1. unfold bind at 1. rewrite Hdown.
  unfold ret at 1. cbn [fst snd]. unfold bind at 1.
  fold (message_sent settings media_links msg). rewrite Hsend.
  unfold cleanup. eexists. split; [reflexivity|]. cbn [tmpdirs fs]. split.
  - intros Hin. apply List.filter_In in Hin as (_ & Hneq).
    now rewrite String.eqb_refl in Hneq.
  - intros path Hpath. apply map_lookup_filter_None. right.
    intros data _ Hout. cbn [fst] in Hout. rewrite Hpath in Hout.
    discriminate Hout.
Qed.

(** ** What a send leaves alone *)

Section Frame.

Context {X : Type}.
Variable f : World -> X.
Hypothesis f_ignores_trace : forall t w, f (with_trace t w) = f w.

Lemma preserves_ret {A} (a : A) : preserves f (ret a).
Proof. intros w. reflexivity. Qed.

Lemma preserves_raise {A} (e : exn) : preserves f (@raise A e).
Proof. intros w. reflexivity. Qed.

Lemma preserves_bind {A B} (m : M A) (k : A -> M B) :
  preserves f m -> (forall a, preserves f (k a)) -> preserves f (bind m k).
Proof.
  intros Hm Hk w. unfold bind. specialize (Hm w).
  destruct (m w) as [a w1 | e w1]; cbn [world_of] in *; [|exact Hm].
  now rewrite (Hk a w1).
Qed.

Lemma preserves_for_each {A} (xs : list A) (body : A -> M unit) :
  (forall x, preserves f (body x)) -> preserves f (for_each xs body).
Proof.
  intros Hbody. induction xs as [|x xs IH]; cbn [for_each].
  - apply preserves_ret.
  - apply preserves_bind; [apply Hbody | intros _; exact IH].
Qed.

Lemma preserves_log (lvl : level) (fmt : string) (args : list string) :
  preserves f (log lvl fmt args).
Proof. intros w. apply f_ignores_trace. Qed.

Lemma preserves_perform (outside : Outside) (rq : request) :
  preserves f (perform outside rq).
Proof.
  intros w. unfold perform.
  destruct (net outside (trace w) rq); apply f_ignores_trace.
Qed.

Lemma preserves_read_rb (path : string) : preserves f (read_rb path).
Proof.
  intros w. unfold read_rb.
  destruct (names_directory path); [reflexivity|].
  destruct (fs w !! path); reflexivity.
Qed.

Variable settings : Settings.
Variable outside : Outside.

Lemma preserves__send_webhook_to (report : string -> M unit)
    (message webhook : string) (files_ : option (list string))
    (target : string) :
  (forall m, preserves f (report m)) ->
  preserves f (_send_webhook_to outside report message webhook files_ target).
Proof.
  intros Hreport. unfold _send_webhook_to.
  apply preserves_bind; [apply preserves_log | intros _].
  apply preserves_bind.
  - assert (Hfold : forall l (acc : M Webhook), preserves f acc ->
              preserves f
                (List.fold_left
                   (fun acc file =>
                      bind acc (fun hook =>
                        bind (read_rb file) (fun data =>
                          ret (add_file data (path_name file) hook))))
                   l acc)).
    { induction l as [|file l IH]; intros acc Hacc; [exact Hacc|].
      cbn [List.fold_left]. apply IH.
      apply preserves_bind; [exact Hacc | intros hook].
      apply preserves_bind; [apply preserves_read_rb | intros data].
      apply preserves_ret. }
    destruct files_ as [[|file more]|]; try apply preserves_ret.
    apply Hfold, preserves_ret.
  - intros hook. apply preserves_bind; [apply preserves_perform|].
    intros response. destruct (negb (ok response));
      [apply Hreport | apply preserves_ret].
Qed.

Lemma preserves__send_webhook_reporting (report : string -> M unit)
    (message webhook func_name : string) (files_ : option (list string)) :
  (forall m, preserves f (report m)) ->
  preserves f
    (_send_webhook_reporting outside report message webhook func_name files_).
Proof.
  intros Hreport. unfold _send_webhook_reporting.
  apply preserves_bind; [apply preserves_log | intros _].
  apply preserves_bind; [apply preserves_log | intros _].
  destruct (negb (Py.truthy webhook)); [apply Hreport|].
  apply preserves_for_each. intros target.
  now apply preserves__send_webhook_to.
Qed.

Lemma preserves_send_error_webhook (depth : nat) :
  forall msg webhook,
    preserves f (send_error_webhook settings outside depth msg webhook).
Proof.
  induction depth as [|depth IH]; intros msg webhook;
    cbn [send_error_webhook]; [apply preserves_raise|].
  apply preserves_bind; [apply preserves_log | intros _].
  destruct (send_errors settings =? "True"); [|apply preserves_log].
  apply preserves__send_webhook_reporting. intros m. apply IH.
Qed.

(** [send_normal_webhook] changes nothing but the trace, however it ends. *)
Lemma preserves_send_normal_webhook (limit : nat) (msg webhook : string)
    (files_ : option (list string)) :
  preserves f (send_normal_webhook settings outside limit msg webhook files_).
Proof.
  unfold send_normal_webhook, _send_webhook.
  apply preserves__send_webhook_reporting. intros m.
  apply preserves_send_error_webhook.
Qed.

End Frame.

Lemma disk_ignores_trace (t : list event) (w : World) :
  disk (with_trace t w) = disk w.
Proof. reflexivity. Qed.

Lemma tmpdirs_ignores_trace (t : list event) (w : World) :
  tmpdirs (with_trace t w) = tmpdirs w.
Proof. reflexivity. Qed.

(** The loop of [download_images] creates and removes no directory. *)
Lemma preserves_download_each (outside : Outside) (temp_dir : string)
    (media_links : list string) :
  forall images,
    preserves tmpdirs (download_each outside temp_dir media_links images).
Proof.
  induction media_links as [|media_link rest IH]; intros images;
    cbn [download_each]; [apply preserves_ret|].
  apply preserves_bind;
    [apply preserves_perform, tmpdirs_ignores_trace | intros res].
  apply preserves_bind; [|intros imgs; apply IH].
  destruct (ok res).
  - apply preserves_bind.
    + intros w. unfold open_wb. now destruct (names_directory _).
    + intros _. apply preserves_bind; [|intros _; apply preserves_ret].
      apply preserves_for_each. intros chunk w. reflexivity.
  - apply preserves_bind; [|intros _; apply preserves_ret].
    apply preserves_log, tmpdirs_ignores_trace.
Qed.

(** The directory that [download_images] returns is on disk. *)
Lemma download_images_directory (outside : Outside)
    (media_links images : list string) (dir : string) (w w1 : World) :
  download_images outside media_links w = Return (images, dir) w1 ->
  In dir (tmpdirs w1).
Proof.
  unfold download_images, bind, TemporaryDirectory.
  match goal with
  | |- context [download_each _ ?d _ [] ?w0] =>
      pose proof (preserves_download_each outside d media_links [] w0) as H;
      destruct (download_each outside d media_links [] w0) as [imgs w' | e w']
  end; [|discriminate].
  unfold ret. intros Heq. inversion Heq; subst.
  cbn [world_of] in H. rewrite H. now left.
Qed.

(** Whenever the send raises, [send_hook_and_files] raises the same
    exception and the temporary directory it made is still on disk, with
    every file that was staged in it. *)
Lemma temporary_directory_survives_any_failed_send
    (settings : Settings) (outside : Outside) (limit : nat)
    (media_links : list string) (msg webhook_url : string)
    (w w1 w2 : World) (images : list string) (dir : string) (e : exn) :
  upload_images settings = true ->
  download_images outside media_links w = Return (images, dir) w1 ->
  send_normal_webhook settings outside limit
    (message_sent settings media_links msg) webhook_url (Some images) w1
  = Raise e w2 ->
  send_hook_and_files settings outside limit media_links msg webhook_url w
  = Raise e w2
  /\ In dir (tmpdirs w2)
  /\ fs w2 = fs w1.
Proof.
  intros Hupload Hdown Hsend.
  pose proof (preserves_send_normal_webhook disk disk_ignores_trace settings
                outside limit (message_sent settings media_links msg)
                webhook_url (Some images) w1) as Hdisk.
  rewrite Hsend in Hdisk. cbn [world_of] in Hdisk.
  unfold disk in Hdisk. injection Hdisk as Hfs Hdirs.
  split; [|split].
  - unfold send_hook_and_files. rewrite Hupload.
    unfold bind at 1. unfold bind at 1. rewrite Hdown.
    unfold ret at 1. cbn [fst snd]. unfold bind at 1.
    fold (message_sent settings media_links msg). now rewrite Hsend.
  - rewrite Hdirs. eapply download_images_directory, Hdown.
  - exact Hfs.
Qed.

Lemma append_empty_l (s : string) : "" +:+ s = s.
Proof. reflexivity. Qed.

Lemma append_String (c : ascii) (s1 s2 : string) :
  String c s1 +:+ s2 = String c (s1 +:+ s2).
Proof. reflexivity. Qed.

Lemma append_empty_r (s : string) : s +:+ "" = s.
Proof.
  induction s as [|c s IH]; [reflexivity|]. now rewrite append_String, IH.
Qed.

Lemma append_assoc (s1 s2 s3 : string) : (s1 +:+ s2) +:+ s3 = s1 +:+ s2 +:+ s3.
Proof.
  induction s1 as [|c s1 IH]; [reflexivity|]. now rewrite !append_String, IH.
Qed.

Lemma split_app (sep : ascii) (x y : string) :
  Py.split sep (x +:+ String sep y) = Py.split sep x ++ Py.split sep y.
Proof.
  induction x as [|c x IH]; rewrite ?append_empty_l, ?append_String;
    cbn [Py.split].
  - now rewrite Ascii.eqb_refl.
  - destruct (Ascii.eqb c sep); rewrite IH; [reflexivity|].
    destruct (Py.split sep x) as [|x0 xs] eqn:E; [|reflexivity].
    now apply split_nonempty in E.
Qed.

Lemma split_plain (sep : ascii) (s : string) :
  occurs sep s = false -> Py.split sep s = [s].
Proof.
  induction s as [|c s IH]; cbn [occurs Py.split]; [reflexivity|].
  intros H. apply orb_false_iff in H as (Hc & Hs).
  now rewrite Hc, (IH Hs).
Qed.

Lemma split_segments_plain (sep : ascii) (s : string) :
  Forall (fun x => occurs sep x = false) (Py.split sep s).
Proof.
  induction s as [|c s IH]; cbn [Py.split].
  - now constructor.
  - destruct (Ascii.eqb c sep) eqn:Hc; [now constructor|].
    destruct (Py.split sep s) as [|x0 xs];
      [now repeat constructor; cbn; rewrite Hc|].
    inversion IH as [|? ? Hx0 Hxs]; subst.
    constructor; [|exact Hxs]. cbn [occurs]. now rewrite Hc, Hx0.
Qed.

Lemma last_item_app (l1 l2 : list string) :
  l2 <> [] -> Py.last_item (l1 ++ l2) = Py.last_item l2.
Proof.
  intros Hne. unfold Py.last_item.
  induction l1 as [|x l1 IH]; [reflexivity|].
  cbn [app List.last]. destruct (l1 ++ l2) eqn:E; [|exact IH].
  apply app_eq_nil in E as (_ & ->). congruence.
Qed.

Lemma last_item_plain (sep : ascii) (s : string) :
  occurs sep (Py.last_item (Py.split sep s)) = false.
Proof.
  pose proof (split_segments_plain sep s) as H.
  pose proof (split_nonempty sep s) as Hne.
  unfold Py.last_item.
  induction (Py.split sep s) as [|x l IH]; [congruence|].
  inversion H as [|? ? Hx Hl]; subst.
  destruct l as [|y l]; [exact Hx|].
  apply IH; [exact Hl | congruence].
Qed.

(** The name of a staged file is the last segment of its URL. *)
Lemma path_name_staged (temp_dir media_link : string) :
  path_name (staged_path temp_dir media_link)
  = Py.last_item (Py.split "/" media_link).
Proof.
  unfold path_name, staged_path.
  change ("/" +:+ Py.last_item (Py.split "/" media_link))
    with (String "/" (Py.last_item (Py.split "/" media_link))).
  rewrite split_app, last_item_app by apply split_nonempty.
  now rewrite split_plain by apply last_item_plain.
Qed.

Lemma names_directory_staged (temp_dir media_link : string) :
  names_directory (staged_path temp_dir media_link)
  = names_directory media_link.
Proof.
  unfold names_directory. fold (path_name (staged_path temp_dir media_link)).
  now rewrite path_name_staged.
Qed.

Lemma substring_slice_from (n : nat) (s : string) :
  String.substring 0 n s +:+ Py.slice_from n s = s.
Proof.
  revert s. induction n as [|n IH]; intros [|c s]; cbn; try reflexivity.
  now rewrite append_String, IH.
Qed.

Lemma length_slice_from (n : nat) (s : string) :
  (String.length (Py.slice_from n s) <= String.length s - n)%nat.
Proof.
  revert s. induction n as [|n IH]; intros [|c s]; cbn; try lia.
  apply IH.
Qed.

Lemma joined_iter_content_from (size : nat) (fuel : nat) :
  (0 < size)%nat ->
  forall body, (String.length body <= fuel)%nat ->
    joined (iter_content_from fuel size body) = body.
Proof.
  intros Hsize. induction fuel as [|fuel IH]; intros body Hlen.
  - destruct body; [reflexivity | cbn in Hlen; lia].
  - cbn [iter_content_from].
    destruct (String.eqb_spec body "") as [-> | Hne]; [reflexivity|].
    cbn [joined List.fold_right].
    fold (joined (iter_content_from fuel size (Py.slice_from size body))).
    rewrite IH; [apply substring_slice_from|].
    pose proof (length_slice_from size body).
    destruct body; [congruence | cbn [String.length] in *; lia].
Qed.

(** The pieces of [iter_content] make up the body. *)
Lemma joined_iter_content (size : nat) (body : string) :
  (0 < size)%nat -> joined (iter_content size body) = body.
Proof. intros H. now apply joined_iter_content_from. Qed.

Lemma with_fs_same (w : World) : with_fs (fs w) w = w.
Proof. now destruct w. Qed.

Lemma append_inj_l (p x y : string) : p +:+ x = p +:+ y -> x = y.
Proof.
  induction p as [|c p IH]; [now rewrite !append_empty_l|].
  rewrite !append_String. intros H. injection H as H. now apply IH.
Qed.

(** Two links are staged at the same path exactly when their last segments
    are the same. *)
Lemma staged_path_eq (temp_dir u v : string) :
  staged_path temp_dir u = staged_path temp_dir v
  <-> Py.last_item (Py.split "/" u) = Py.last_item (Py.split "/" v).
Proof.
  unfold staged_path. split; [|now intros ->].
  intros H. apply append_inj_l in H. now apply append_inj_l in H.
Qed.

(** Writing the pieces one after the other appends them to the file. *)
Lemma for_each_write (path : string) (chunks : list string) :
  forall w x, fs w !! path = Some x ->
    for_each chunks (write path) w
    = Return tt (with_fs (<[path := x +:+ joined chunks]> (fs w)) w).
Proof.
  induction chunks as [|chunk chunks IH]; intros w x Hx.
  - cbn [for_each joined List.fold_right]. unfold ret.
    now rewrite append_empty_r, insert_id, with_fs_same.
  - cbn [for_each]. unfold bind, write. rewrite Hx. cbn [default].
    rewrite (IH _ (x +:+ chunk)) by apply lookup_insert_eq.
    cbn [fs with_fs]. rewrite insert_insert_eq.
    unfold joined. cbn [List.fold_right]. now rewrite append_assoc.
Qed.

Section Download.

Variable outside : Outside.
Variable answer : string -> Response.
Variable temp_dir : string.

(** The loop of [download_images] when every download is answered: the
    links that are answered with success are staged, in order, and the
    later of two files of the same name replaces the earlier. *)
Lemma download_each_answered (media_links : list string) :
  (forall t u, In u media_links ->
     net outside t (Get u [] true) = Responds (answer u)) ->
  (forall u, In u media_links -> ok (answer u) = true ->
     names_directory u = false) ->
  forall images w, exists w',
    download_each outside temp_dir media_links images w
    = Return (images
              ++ List.map (staged_path temp_dir)
                   (List.filter (fun u => ok (answer u)) media_links)) w'
    /\ fs w' = List.fold_left (stage answer temp_dir) media_links (fs w)
    /\ tmpdirs w' = tmpdirs w.
Proof.
  induction media_links as [|u rest IH]; intros Hnet Hname images w.
  - exists w. cbn. now rewrite app_nil_r.
  - cbn [download_each List.filter List.fold_left].
    unfold bind at 1, perform. rewrite (Hnet _ u) by now left.
    unfold stage at 2.
    assert (Hnet' : forall t v, In v rest ->
              net outside t (Get v [] true) = Responds (answer v))
      by (intros t v Hv; apply Hnet; now right).
    assert (Hname' : forall v, In v rest -> ok (answer v) = true ->
              names_directory v = false)
      by (intros v Hv; apply Hname; now right).
    destruct (ok (answer u)) eqn:Hok.
    + fold (staged_path temp_dir u).
      unfold bind at 1. unfold bind at 1. unfold bind at 1, open_wb.
      rewrite names_directory_staged, (Hname u) by (auto; now left).
      rewrite (for_each_write _ _ _ "") by apply lookup_insert_eq.
      unfold ret at 1. cbn [fs with_fs with_trace].
      rewrite append_empty_l, joined_iter_content, insert_insert_eq by lia.
      match goal with
      | |- context [download_each _ _ _ ?imgs ?w1] =>
          destruct (IH Hnet' Hname' imgs w1) as (w' & Hrun & Hfs & Hdirs)
      end.
      exists w'. rewrite Hrun, Hfs, Hdirs. cbn [List.map fs tmpdirs].
      now rewrite <- app_assoc.
    + unfold bind at 1. unfold bind at 1, log, emit, ret.
      match goal with
      | |- context [download_each _ _ _ ?imgs ?w1] =>
          destruct (IH Hnet' Hname' imgs w1) as (w' & Hrun & Hfs & Hdirs)
      end.
      exists w'. now rewrite Hrun, Hfs, Hdirs.
Qed.

(** A link whose path is not [path] leaves the file at [path] alone. *)
Lemma fold_stage_elsewhere (path : string) (media_links : list string) :
  (forall u, In u media_links -> ok (answer u) = true ->
     staged_path temp_dir u <> path) ->
  forall files_,
    List.fold_left (stage answer temp_dir) media_links files_ !! path
    = files_ !! path.
Proof.
  induction media_links as [|u rest IH]; intros Hother files_;
    [reflexivity|].
  cbn [List.fold_left]. rewrite IH by (intros v Hv; apply Hother; now right).
  unfold stage. destruct (ok (answer u)) eqn:Hok; [|reflexivity].
  apply lookup_insert_ne, Hother; [now left | exact Hok].
Qed.

End Download.

(** C10. When two distinct links of the list have the same last segment and
    both downloads succeed, [download_images] stages them at the same path
    of the temporary directory: the returned list has that path twice, and
    the one file at that path holds the bytes of the later download (of
    [u2], the last link of that name). *)
Theorem same_name_downloads_collide
    (outside : Outside) (answer : string -> Response)
    (before between after : list string) (u1 u2 : string) (w : World) :
  let media_links := before ++ u1 :: between ++ u2 :: after in
  let temp_dir := mkdtemp outside (tmp_created w) in
  (forall t u, In u media_links ->
     net outside t (Get u [] true) = Responds (answer u)) ->
  (forall u, In u media_links -> ok (answer u) = true ->
     names_directory u = false) ->
  u1 <> u2 ->
  Py.last_item (Py.split "/" u1) = Py.last_item (Py.split "/" u2) ->
  ok (answer u1) = true -> ok (answer u2) = true ->
  (forall u, In u after -> ok (answer u) = true ->
     Py.last_item (Py.split "/" u) <> Py.last_item (Py.split "/" u2)) ->
  exists images w',
    download_images outside media_links w = Return (images, temp_dir) w'
    /\ staged_path temp_dir u1 = staged_path temp_dir u2
    /\ (2 <= count_occ string_dec images (staged_path temp_dir u1))%nat
    /\ fs w' !! staged_path temp_dir u1 = Some (text (answer u2)).
Proof.
  intros media_links temp_dir Hnet Hname Hdistinct Hsame Hok1 Hok2 Hafter.
  assert (Hpath : staged_path temp_dir u1 = staged_path temp_dir u2)
    by now apply staged_path_eq.
  destruct (download_each_answered outside answer temp_dir media_links
              Hnet Hname []
              {| trace := trace w; fs := fs w;
                 tmpdirs := temp_dir :: tmpdirs w;
                 tmp_created := S (tmp_created w);
                 rand_drawn := rand_drawn w |}) as (w' & Hrun & Hfs & _).
  unfold download_images, bind, TemporaryDirectory. fold temp_dir.
  rewrite Hrun. unfold ret.
  eexists. exists w'. split; [reflexivity|]. split; [exact Hpath|]. split.
  - subst media_links. cbn [app].
    rewrite List.filter_app. cbn [List.filter]. rewrite Hok1.
    rewrite List.filter_app. cbn [List.filter]. rewrite Hok2.
    rewrite List.map_app. cbn [List.map]. rewrite List.map_app. cbn [List.map].
    rewrite count_occ_app, count_occ_cons_eq by reflexivity.
    rewrite count_occ_app, count_occ_cons_eq by (symmetry; exact Hpath).
    lia.
  - rewrite Hfs. cbn [fs]. subst media_links.
    rewrite List.fold_left_app. cbn [List.fold_left].
    rewrite List.fold_left_app. cbn [List.fold_left].
    rewrite fold_stage_elsewhere.
    + unfold stage at 1. rewrite Hok2, Hpath. apply lookup_insert_eq.
    + intros u Hu Hok Heq. apply (Hafter u Hu Hok).
      apply staged_path_eq in Heq. congruence.
Qed.

Lemma same_name_downloads_collide_witness :
  exists images w',
    download_images (outside_with by_host 0)
      ["http://x/a.png"; "http://y/a.png"] initial_world
    = Return (images, "/tmp/tmp0") w'
    /\ staged_path "/tmp/tmp0" "http://x/a.png"
       = staged_path "/tmp/tmp0" "http://y/a.png"
    /\ (2 <= count_occ string_dec images
               (staged_path "/tmp/tmp0" "http://x/a.png"))%nat
    /\ fs w' !! staged_path "/tmp/tmp0" "http://x/a.png" = Some "from y".
Proof.
  apply (same_name_downloads_collide (outside_with by_host 0)
           (fun u => response_200
                       (if u =? "http://x/a.png" then "from x" else "from y"))
           [] [] [] "http://x/a.png" "http://y/a.png" initial_world).
  - intros t u [<- | [<- | []]]; reflexivity.
  - intros u [<- | [<- | []]] _; reflexivity.
  - discriminate.
  - reflexivity.
  - reflexivity.
  - reflexivity.
  - intros u [].
Defined.

(** The run of the witness: one file, two entries. *)
Example same_name_downloads_run :
  exists w',
    download_images (outside_with by_host 0)
      ["http://x/a.png"; "http://y/a.png"] initial_world
    = Return (["/tmp/tmp0/a.png"; "/tmp/tmp0/a.png"], "/tmp/tmp0") w'
    /\ map_to_list (fs w') = [("/tmp/tmp0/a.png", "from y")].
Proof. eexists. split; [vm_compute; reflexivity|]. reflexivity. Qed.


(** * Further properties *)

(** ** Destinations and files *)

(** [s.split(sep)] has one element more than [s] has separators. *)
Lemma split_length (sep : ascii) (s : string) :
  List.length (Py.split sep s) = S (occurrences sep s).
Proof.
  induction s as [|c s IH]; [reflexivity|].
  cbn [Py.split occurrences]. destruct (Ascii.eqb c sep).
  - cbn [List.length]. now rewrite IH.
  - destruct (Py.split sep s) as [|x xs]; [discriminate IH|].
    cbn [List.length] in *. exact IH.
Qed.

(** ** Files attached to a message *)

Lemma add_files_fold (disk_ : gmap string string) (l : list string) :
  forall h : Webhook,
    List.fold_left
      (fun h file => add_file (default "" (disk_ !! file)) (path_name file) h)
      l h
    = {| url := url h; content := content h;
         rate_limit_retry := rate_limit_retry h; embeds := embeds h;
         files := files h
                  ++ List.map
                       (fun file =>
                          (path_name file, default "" (disk_ !! file))) l |}.
Proof.
  induction l as [|file l IH]; intros h; cbn [List.fold_left List.map].
  - rewrite app_nil_r. now destruct h.
  - rewrite IH. cbn [add_file url content rate_limit_retry embeds files].
    now rewrite <- app_assoc.
Qed.

(** Reading files that are all there: each is attached, the world is as
    before. *)
Lemma read_files_readable (l : list string) (w : World) :
  Forall (fun file => readable (fs w) file = true) l ->
  forall (acc : M Webhook) (h : Webhook),
    acc w = Return h w ->
    List.fold_left
      (fun acc file =>
         bind acc (fun hook =>
           bind (read_rb file) (fun data =>
             ret (add_file data (path_name file) hook))))
      l acc w
    = Return
        (List.fold_left
           (fun h file =>
              add_file (default "" (fs w !! file)) (path_name file) h)
           l h) w.
Proof.
  induction 1 as [|file l Hfile _ IH]; intros acc h Hacc;
    cbn [List.fold_left]; [exact Hacc|].
  apply IH. unfold bind. rewrite Hacc. unfold read_rb.
  unfold readable in Hfile. apply andb_true_iff in Hfile as (Hname & Hdata).
  apply negb_true_iff in Hname. rewrite Hname.
  destruct (fs w !! file); [reflexivity | discriminate Hdata].
Qed.

(** Once a file could not be read, the later files change nothing. *)
Lemma read_files_raised (l : list string) (w : World) (e : exn) :
  forall acc : M Webhook,
    acc w = Raise e w ->
    List.fold_left
      (fun acc file =>
         bind acc (fun hook =>
           bind (read_rb file) (fun data =>
             ret (add_file data (path_name file) hook))))
      l acc w
    = Raise e w.
Proof.
  induction l as [|file l IH]; intros acc Hacc; cbn [List.fold_left];
    [exact Hacc|].
  apply IH. unfold bind. now rewrite Hacc.
Qed.

(** Reading a list with a file that is not there raises
    [FileNotFoundError], and the world is as before. *)
Lemma read_files_missing (l : list string) (w : World) :
  Forall (fun file => names_directory file = false) l ->
  Exists (fun file => fs w !! file = None) l ->
  forall (acc : M Webhook) (h : Webhook),
    acc w = Return h w ->
    List.fold_left
      (fun acc file =>
         bind acc (fun hook =>
           bind (read_rb file) (fun data =>
             ret (add_file data (path_name file) hook))))
      l acc w
    = Raise FileNotFoundError w.
Proof.
  induction l as [|file l IH]; intros Hnames Hbad acc h Hacc;
    [now apply Exists_nil in Hbad|].
  apply Forall_cons_iff in Hnames as (Hname & Hnames).
  cbn [List.fold_left].
  destruct (fs w !! file) as [data|] eqn:Hfile.
  - apply Exists_cons in Hbad as [Hbad | Hbad]; [congruence|].
    apply (IH Hnames Hbad _ (add_file data (path_name file) h)).
    unfold bind. rewrite Hacc. unfold read_rb. now rewrite Hname, Hfile.
  - apply read_files_raised. unfold bind. rewrite Hacc. unfold read_rb.
    now rewrite Hname, Hfile.
Qed.

(** A loop over two lists, one after the other. *)
Lemma for_each_app {A} (xs ys : list A) (body : A -> M unit) (w : World) :
  for_each (xs ++ ys) body w
  = bind (for_each xs body) (fun _ => for_each ys body) w.
Proof.
  revert w. induction xs as [|x xs IH]; intros w; [reflexivity|].
  cbn [app for_each]. unfold bind.
  destruct (body x w) as [[] w1 | e w1]; [|reflexivity].
  rewrite IH. reflexivity.
Qed.

(** ** Delivery of a message *)

Section Delivery.

Variable outside : Outside.
Variable report : string -> M unit.
Variables message webhook : string.
Variable files_ : option (list string).

(** One turn of the loop of [_send_webhook] when the files are there and
    the webhook answers. *)
Lemma _send_webhook_to_attached (target : string) (w : World) (r : Response) :
  Forall (fun file => readable (fs w) file = true) (default [] files_) ->
  net outside (Log DEBUG "Webhook URL: {}" [target] :: trace w)
    (Execute (message_hook message (attachments (fs w) files_) target))
  = Responds r ->
  _send_webhook_to outside report message webhook files_ target w
  = let w' :=
      with_trace
        (Net (Execute (message_hook message (attachments (fs w) files_) target))
         :: Log DEBUG "Webhook URL: {}" [target] :: trace w) w in
    if ok r then Return tt w'
    else report (delivery_failed_msg webhook r) w'.
Proof.
  intros Hfiles Hnet.
  unfold _send_webhook_to. unfold bind at 1. unfold log, emit.
  unfold bind at 1.
  assert (Hread :
    match files_ with
    | Some (file :: more) =>
        List.fold_left
          (fun acc file =>
             bind acc (fun hook =>
               bind (read_rb file) (fun data =>
                 ret (add_file data (path_name file) hook))))
          (file :: more) (ret (DiscordWebhook target (Some message)))
    | _ => ret (DiscordWebhook target (Some message))
    end (with_trace (Log DEBUG "Webhook URL: {}" [target] :: trace w) w)
    = Return (message_hook message (attachments (fs w) files_) target)
        (with_trace (Log DEBUG "Webhook URL: {}" [target] :: trace w) w)).
  { unfold attachments.
    destruct files_ as [[|file more]|]; try reflexivity.
    cbn [default from_option] in *. unfold id in *.
    rewrite (read_files_readable _
               (with_trace (Log DEBUG "Webhook URL: {}" [target] :: trace w) w)
               Hfiles _ (DiscordWebhook target (Some message)))
      by reflexivity.
    now rewrite add_files_fold. }
  rewrite Hread. unfold execute, perform, bind. cbn [trace with_trace].
  rewrite Hnet. unfold delivery_failed_msg.
  destruct (ok r); reflexivity.
Qed.

(** One turn of the loop when the files are there and the request raises:
    the exception leaves the loop. *)
Lemma _send_webhook_to_raises (target : string) (w : World) (e : exn) :
  Forall (fun file => readable (fs w) file = true) (default [] files_) ->
  net outside (Log DEBUG "Webhook URL: {}" [target] :: trace w)
    (Execute (message_hook message (attachments (fs w) files_) target))
  = Fails e ->
  _send_webhook_to outside report message webhook files_ target w
  = Raise e
      (with_trace
         (Net (Execute (message_hook message (attachments (fs w) files_) target))
          :: Log DEBUG "Webhook URL: {}" [target] :: trace w) w).
Proof.
  intros Hfiles Hnet.
  unfold _send_webhook_to. unfold bind at 1. unfold log, emit.
  unfold bind at 1.
  assert (Hread :
    match files_ with
    | Some (file :: more) =>
        List.fold_left
          (fun acc file =>
             bind acc (fun hook =>
               bind (read_rb file) (fun data =>
                 ret (add_file data (path_name file) hook))))
          (file :: more) (ret (DiscordWebhook target (Some message)))
    | _ => ret (DiscordWebhook target (Some message))
    end (with_trace (Log DEBUG "Webhook URL: {}" [target] :: trace w) w)
    = Return (message_hook message (attachments (fs w) files_) target)
        (with_trace (Log DEBUG "Webhook URL: {}" [target] :: trace w) w)).
  { unfold attachments.
    destruct files_ as [[|file more]|]; try reflexivity.
    cbn [default from_option] in *. unfold id in *.
    rewrite (read_files_readable _
               (with_trace (Log DEBUG "Webhook URL: {}" [target] :: trace w) w)
               Hfiles _ (DiscordWebhook target (Some message)))
      by reflexivity.
    now rewrite add_files_fold. }
  rewrite Hread. unfold execute, perform, bind. cbn [trace with_trace].
  now rewrite Hnet.
Qed.

Variable answer : string -> Response.

(** The requests of the report of a failure, by its message. *)
Variable rep_requests : string -> list request.

(** The loop of [_send_webhook] when every target answers and the report of
    a failure returns: one delivery per target, in order, and one report per
    target that answered with a failure. *)
Lemma _send_webhook_loop_answered (targets : list string) :
  (forall target, In target targets -> ok (answer target) = false ->
     forall w, exists new,
       report (delivery_failed_msg webhook (answer target)) w
       = Return tt (with_trace (new ++ trace w) w)
       /\ requests new
          = rep_requests (delivery_failed_msg webhook (answer target))
       /\ reported new = [[delivery_failed_msg webhook (answer target)]]) ->
  forall w,
    Forall (fun file => readable (fs w) file = true) (default [] files_) ->
    (forall t target, In target targets ->
       net outside t
         (Execute (message_hook message (attachments (fs w) files_) target))
       = Responds (answer target)) ->
    exists new,
      for_each targets (_send_webhook_to outside report message webhook files_)
        w
      = Return tt (with_trace (new ++ trace w) w)
      /\ requests new
         = List.flat_map
             (delivery_requests message webhook files_ answer rep_requests
                (fs w))
             targets
      /\ reported new
         = List.map
             (fun target => [delivery_failed_msg webhook (answer target)])
             (List.filter (fun target => negb (ok (answer target))) targets).
Proof.
  induction targets as [|target targets IH]; intros Hreport w Hfiles Hnet.
  - exists []. now rewrite with_trace_nil.
  - cbn [for_each]. unfold bind at 1.
    rewrite (_send_webhook_to_attached target w (answer target) Hfiles)
      by (apply Hnet; now left).
    cbv zeta. cbn [List.filter List.map List.flat_map].
    unfold delivery_requests at 1.
    assert (Hreport' : forall u, In u targets -> ok (answer u) = false ->
              forall w, exists new,
                report (delivery_failed_msg webhook (answer u)) w
                = Return tt (with_trace (new ++ trace w) w)
                /\ requests new
                   = rep_requests (delivery_failed_msg webhook (answer u))
                /\ reported new = [[delivery_failed_msg webhook (answer u)]])
      by (intros u Hu; apply Hreport; now right).
    assert (Hnet' : forall t u, In u targets ->
              net outside t
                (Execute
                   (message_hook message (attachments (fs w) files_) u))
              = Responds (answer u))
      by (intros t u Hu; apply Hnet; now right).
    destruct (ok (answer target)) eqn:Hok; cbn [negb].
    + match goal with
      | |- context [for_each _ _ ?w1] =>
          destruct (IH Hreport' w1 Hfiles Hnet') as (new & Hrun & Hreq & Hrep)
      end.
      exists (new
              ++ [Net (Execute
                         (message_hook message (attachments (fs w) files_)
                            target));
                  Log DEBUG "Webhook URL: {}" [target]]).
      split; [|split].
      * rewrite Hrun. tidy_world. now rewrite <- app_assoc.
      * rewrite requests_app, Hreq. reflexivity.
      * rewrite reported_app, Hrep. reflexivity.
    + match goal with
      | |- context [report ?m ?w0] =>
          destruct (Hreport target (or_introl eq_refl) Hok w0)
            as (new0 & Hrun0 & Hreq0 & Hrep0)
      end.
      rewrite Hrun0. tidy_world.
      match goal with
      | |- context [for_each _ _ ?w1] =>
          destruct (IH Hreport' w1 Hfiles Hnet') as (new & Hrun & Hreq & Hrep)
      end.
      exists (new
              ++ new0
              ++ [Net (Execute
                         (message_hook message (attachments (fs w) files_)
                            target));
                  Log DEBUG "Webhook URL: {}" [target]]).
      split; [|split].
      * rewrite Hrun. tidy_world. now rewrite <- !app_assoc.
      * rewrite !requests_app, Hreq, Hreq0. reflexivity.
      * rewrite !reported_app, Hrep, Hrep0. reflexivity.
Qed.

(** The body of [_send_webhook] for a destination that is not empty. *)
Lemma _send_webhook_reporting_answered (func_name : string) (w : World) :
  webhook <> "" ->
  (forall target, In target (Py.split "," webhook) ->
     ok (answer target) = false ->
     forall w, exists new,
       report (delivery_failed_msg webhook (answer target)) w
       = Return tt (with_trace (new ++ trace w) w)
       /\ requests new
          = rep_requests (delivery_failed_msg webhook (answer target))
       /\ reported new = [[delivery_failed_msg webhook (answer target)]]) ->
  Forall (fun file => readable (fs w) file = true) (default [] files_) ->
  (forall t target, In target (Py.split "," webhook) ->
     net outside t
       (Execute (message_hook message (attachments (fs w) files_) target))
     = Responds (answer target)) ->
  exists new,
    _send_webhook_reporting outside report message webhook func_name files_ w
    = Return tt (with_trace (new ++ trace w) w)
    /\ requests new
       = List.flat_map
             (delivery_requests message webhook files_ answer rep_requests
                (fs w))
           (Py.split "," webhook)
    /\ reported new
       = List.map
           (fun target => [delivery_failed_msg webhook (answer target)])
           (List.filter (fun target => negb (ok (answer target)))
              (Py.split "," webhook)).
Proof.
  intros Hne Hreport Hfiles Hnet.
  unfold _send_webhook_reporting, bind at 1 2, log, emit.
  rewrite (truthy_true _ Hne). cbn [negb].
  match goal with
  | |- context [for_each _ _ ?w1] =>
      destruct (_send_webhook_loop_answered (Py.split "," webhook) Hreport
                  w1 Hfiles Hnet) as (new & Hrun & Hreq & Hrep)
  end.
  exists (new ++ [Log DEBUG "{} - Webhook URL: {}" [func_name; webhook];
                  Log DEBUG "{} - Message: {}" [func_name; message]]).
  split; [|split].
  - rewrite Hrun. tidy_world. now rewrite <- app_assoc.
  - rewrite requests_app, Hreq. reflexivity.
  - rewrite reported_app, Hrep. reflexivity.
Qed.

End Delivery.

(** When every answer is a success, the requests are the deliveries and
    nothing is reported. *)
Lemma delivery_requests_all_succeed (message webhook : string)
    (files_ : option (list string)) (answer : string -> Response)
    (rep_requests : string -> list request) (disk_ : gmap string string)
    (targets : list string) :
  (forall target, In target targets -> ok (answer target) = true) ->
  List.flat_map
    (delivery_requests message webhook files_ answer rep_requests disk_)
    targets
  = List.map
      (fun target =>
         Execute (message_hook message (attachments disk_ files_) target))
      targets
  /\ List.filter (fun target => negb (ok (answer target))) targets = [].
Proof.
  induction targets as [|target targets IH]; intros Hok; [now split|].
  destruct IH as (IH1 & IH2); [intros u Hu; apply Hok; now right|].
  cbn [List.flat_map List.map List.filter]. unfold delivery_requests at 1.
  rewrite (Hok target) by now left. cbn [negb app].
  now rewrite IH1, IH2.
Qed.

(** ** Error reports that are delivered *)

(** An error report whose deliveries all succeed: the message goes once to
    each target of the destination, and nothing else is requested. *)
Lemma send_error_webhook_run
    (settings : Settings) (outside : Outside) (depth : nat)
    (answer : string -> Response) (m webhook : string) (w : World) :
  send_errors settings = "True" -> webhook <> "" ->
  (forall t target, In target (Py.split "," webhook) ->
     net outside t (Execute (message_hook m [] target))
     = Responds (answer target)) ->
  (forall target, In target (Py.split "," webhook) ->
     ok (answer target) = true) ->
  exists new,
    send_error_webhook settings outside (S depth) m webhook w
    = Return tt (with_trace (new ++ trace w) w)
    /\ requests new
       = List.map (fun target => Execute (message_hook m [] target))
           (Py.split "," webhook)
    /\ reported new = [[m]].
Proof.
  intros Hon Hne Hnet Hok.
  cbn [send_error_webhook]. rewrite Hon.
  cbn [String.eqb Ascii.eqb Bool.eqb]. unfold bind at 1, log, emit.
  match goal with
  | |- context [_send_webhook_reporting _ ?report _ _ ?f _ ?w1] =>
      destruct (_send_webhook_reporting_answered outside report m webhook
                  None answer (fun _ => []) f w1 Hne)
        as (new & Hrun & Hreq & Hrep)
  end.
  - intros target Hin Hfail. rewrite (Hok target Hin) in Hfail.
    discriminate Hfail.
  - constructor.
  - exact Hnet.
  - destruct (delivery_requests_all_succeed m webhook None answer
                (fun _ => []) (fs w) (Py.split "," webhook) Hok)
      as (Hall & Hnone).
    cbn [fs with_trace] in Hreq. rewrite Hall in Hreq. rewrite Hnone in Hrep.
    exists (new ++ [Log ERROR "Got an error: {}" [m]]).
    split; [|split].
    + rewrite Hrun. tidy_world. now rewrite <- app_assoc.
    + rewrite requests_app, Hreq. reflexivity.
    + rewrite reported_app, Hrep. reflexivity.
Qed.

(** A call [send_error_webhook(msg)] returns when reports are only logged,
    and when the error webhook is configured and each of its targets answers
    with success: the only requests are the deliveries of the message to the
    targets of the error webhook. *)
Lemma report_error_run
    (settings : Settings) (outside : Outside) (limit : nat)
    (answer : string -> Response) (m : string) (w : World) :
  (send_errors settings = "True" ->
   error_webhook settings <> ""
   /\ (forall t target, In target (Py.split "," (error_webhook settings)) ->
         net outside t (Execute (message_hook m [] target))
         = Responds (answer target))
   /\ (forall target, In target (Py.split "," (error_webhook settings)) ->
         ok (answer target) = true)) ->
  exists new,
    report_error settings outside (S limit) m w
    = Return tt (with_trace (new ++ trace w) w)
    /\ requests new = report_requests settings m
    /\ reported new = [[m]].
Proof.
  intros H. unfold report_error, report_requests, report_targets.
  destruct (String.eqb_spec (send_errors settings) "True") as [Hon | Hoff].
  - destruct (H Hon) as (Hne & Hnet & Hok).
    now apply (send_error_webhook_run settings outside limit answer).
  - rewrite (send_error_webhook_logged_only settings outside limit _ _ _ Hoff).
    eexists. split; [reflexivity|]. split; reflexivity.
Qed.


(** ** What a delivery requests *)

(** X1. When every target answers with success, [send_normal_webhook]
    makes one request per element of [webhook.split(",")], in order and
    nothing else: one more than the destination has commas, an empty element
    included. Each request carries the message and every file of the list,
    under the last component of its path and with its content on disk. No
    error is reported. *)
Theorem message_is_delivered_to_every_segment
    (settings : Settings) (outside : Outside) (limit : nat)
    (msg webhook : string) (files_ : option (list string))
    (answer : string -> Response) (w : World) :
  webhook <> "" ->
  Forall (fun file => readable (fs w) file = true) (default [] files_) ->
  (forall t target, In target (Py.split "," webhook) ->
     net outside t
       (Execute (message_hook msg (attachments (fs w) files_) target))
     = Responds (answer target)) ->
  (forall target, In target (Py.split "," webhook) ->
     ok (answer target) = true) ->
  exists new,
    send_normal_webhook settings outside limit msg webhook files_ w
    = Return tt (with_trace (new ++ trace w) w)
    /\ requests new
       = List.map
           (fun target =>
              Execute (message_hook msg (attachments (fs w) files_) target))
           (Py.split "," webhook)
    /\ List.length (requests new) = S (occurrences "," webhook)
    /\ reported new = [].
Proof.
  intros Hne Hfiles Hnet Hok.
  destruct (_send_webhook_reporting_answered outside
              (report_error settings outside limit) msg webhook files_ answer
              (fun _ => []) "send_normal_webhook()" w Hne)
    as (new & Hrun & Hreq & Hrep); [| exact Hfiles | exact Hnet |].
  - intros target Hin Hfail. rewrite (Hok target Hin) in Hfail.
    discriminate Hfail.
  - destruct (delivery_requests_all_succeed msg webhook files_ answer
                (fun _ => []) (fs w) (Py.split "," webhook) Hok)
      as (Hall & Hnone).
    rewrite Hall in Hreq. rewrite Hnone in Hrep.
    exists new. split; [exact Hrun|]. split; [exact Hreq|]. split.
    + now rewrite Hreq, List.length_map, split_length.
    + exact Hrep.
Qed.

Lemma message_is_delivered_to_every_segment_witness :
  exists new,
    send_normal_webhook default_settings (outside_with all_succeed 0) 0
      "hello" "A,B" (Some ["/data/a.png"])
      (world_with_file "/data/a.png" "bytes")
    = Return tt
        (with_trace (new ++ []) (world_with_file "/data/a.png" "bytes"))
    /\ requests new
       = [Execute (message_hook "hello" [("a.png", "bytes")] "A");
          Execute (message_hook "hello" [("a.png", "bytes")] "B")]
    /\ List.length (requests new) = 2%nat
    /\ reported new = [].
Proof.
  apply (message_is_delivered_to_every_segment default_settings
           (outside_with all_succeed 0) 0 "hello" "A,B"
           (Some ["/data/a.png"]) (fun _ => response_200 "data")
           (world_with_file "/data/a.png" "bytes")).
  - discriminate.
  - repeat constructor.
  - intros t target _. reflexivity.
  - intros target _. reflexivity.
Defined.

(** X2. If one file of the list is not on disk, [send_normal_webhook]
    raises [FileNotFoundError] before the first request: no target receives
    the message, whatever the place of the file in the list and however many
    targets there are. (The paths are in normal form: none ends with a
    slash, with [.] or with [..].) *)
Theorem missing_file_stops_every_delivery
    (settings : Settings) (outside : Outside) (limit : nat)
    (msg webhook : string) (files_ : list string) (w : World) :
  webhook <> "" ->
  Forall (fun file => names_directory file = false) files_ ->
  Exists (fun file => fs w !! file = None) files_ ->
  exists w',
    send_normal_webhook settings outside limit msg webhook (Some files_) w
    = Raise FileNotFoundError w'
    /\ requests (trace w') = requests (trace w)
    /\ disk w' = disk w.
Proof.
  intros Hne Hnames Hbad.
  unfold send_normal_webhook, _send_webhook, _send_webhook_reporting.
  unfold bind at 1 2, log, emit. rewrite (truthy_true _ Hne). cbn [negb].
  destruct (Py.split "," webhook) as [|target targets] eqn:Hsplit;
    [now apply split_nonempty in Hsplit|].
  cbn [for_each]. unfold bind at 1, _send_webhook_to.
  unfold bind at 1, log, emit. unfold bind at 1.
  destruct files_ as [|file more]; [now apply Exists_nil in Hbad|].
  match goal with
  | |- context [List.fold_left _ _ (ret ?h) ?w1] =>
      rewrite (read_files_missing (file :: more) w1 Hnames Hbad (ret h) h
                 eq_refl)
  end.
  eexists. split; [reflexivity|]. split; reflexivity.
Qed.

Lemma missing_file_stops_every_delivery_witness :
  exists w',
    send_normal_webhook default_settings (outside_with all_succeed 0) 0
      "hello" "A,B" (Some ["/data/a.png"; "/data/missing.png"])
      (world_with_file "/data/a.png" "bytes")
    = Raise FileNotFoundError w'
    /\ requests (trace w') = []
    /\ disk w' = disk (world_with_file "/data/a.png" "bytes").
Proof.
  apply (missing_file_stops_every_delivery default_settings
           (outside_with all_succeed 0) 0 "hello" "A,B"
           ["/data/a.png"; "/data/missing.png"]
           (world_with_file "/data/a.png" "bytes")).
  - discriminate.
  - repeat constructor.
  - apply Exists_cons_tl, Exists_cons_hd. reflexivity.
Defined.

(** X3. [send_normal_webhook] goes through the whole destination whatever
    the targets answer, as long as its error reports return (they are only
    logged, or delivered to an error webhook whose targets answer with
    success). Every element of the destination gets its request, in order.
    Each target that answers with a failure is reported once, before the next
    target is tried, and the report is delivered to each target of the error
    webhook. The report names the whole destination string, as configured,
    not the target that failed. *)
Theorem failed_deliveries_are_reported_by_destination
    (settings : Settings) (outside : Outside) (limit : nat)
    (msg webhook : string) (files_ : option (list string))
    (answer error_answer : string -> Response) (w : World) :
  webhook <> "" ->
  Forall (fun file => readable (fs w) file = true) (default [] files_) ->
  (forall t target, In target (Py.split "," webhook) ->
     net outside t
       (Execute (message_hook msg (attachments (fs w) files_) target))
     = Responds (answer target)) ->
  (send_errors settings = "True" ->
   error_webhook settings <> ""
   /\ (forall t failed target,
         In failed (Py.split "," webhook) ->
         In target (Py.split "," (error_webhook settings)) ->
         net outside t
           (Execute
              (message_hook (delivery_failed_msg webhook (answer failed)) []
                 target))
         = Responds (error_answer target))
   /\ (forall target, In target (Py.split "," (error_webhook settings)) ->
         ok (error_answer target) = true)) ->
  exists new,
    send_normal_webhook settings outside (S limit) msg webhook files_ w
    = Return tt (with_trace (new ++ trace w) w)
    /\ requests new
       = List.flat_map
           (fun target =>
              Execute (message_hook msg (attachments (fs w) files_) target)
              :: (if ok (answer target) then []
                  else List.map
                         (fun error_target =>
                            Execute
                              (message_hook
                                 ("Got " +:+ Py.str (status_code (answer target))
                                  +:+ " from " +:+ webhook +:+ ", response: "
                                  +:+ text (answer target))
                                 [] error_target))
                         (report_targets settings)))
           (Py.split "," webhook)
    /\ reported new
       = List.map
           (fun target =>
              ["Got " +:+ Py.str (status_code (answer target)) +:+ " from "
               +:+ webhook +:+ ", response: " +:+ text (answer target)])
           (List.filter (fun target => negb (ok (answer target)))
              (Py.split "," webhook)).
Proof.
  intros Hne Hfiles Hnet Hreports.
  apply (_send_webhook_reporting_answered outside
           (report_error settings outside (S limit)) msg webhook files_ answer
           (report_requests settings)
           "send_normal_webhook()" w Hne); [| exact Hfiles | exact Hnet].
  intros target Hin _ w1.
  apply (report_error_run settings outside limit error_answer).
  intros Hon. destruct (Hreports Hon) as (Hdest & Herr & Hok).
  split; [exact Hdest|]. split; [|exact Hok].
  intros t error_target. now apply Herr.
Qed.

Lemma failed_deliveries_are_reported_by_destination_witness :
  exists new,
    send_normal_webhook (reporting "E" "True")
      (outside_with bad_addresses_fail 0)
      1 "hello" "A,bad1,B,bad2" None initial_world
    = Return tt (with_trace (new ++ []) initial_world)
    /\ requests new
       = [Execute (message_hook "hello" [] "A");
          Execute (message_hook "hello" [] "bad1");
          Execute
            (message_hook
               "Got 500 from A,bad1,B,bad2, response: Internal Server Error"
               [] "E");
          Execute (message_hook "hello" [] "B");
          Execute (message_hook "hello" [] "bad2");
          Execute
            (message_hook
               "Got 500 from A,bad1,B,bad2, response: Internal Server Error"
               [] "E")]
    /\ reported new
       = [["Got 500 from A,bad1,B,bad2, response: Internal Server Error"];
          ["Got 500 from A,bad1,B,bad2, response: Internal Server Error"]].
Proof.
  apply (failed_deliveries_are_reported_by_destination (reporting "E" "True")
           (outside_with bad_addresses_fail 0) 0 "hello" "A,bad1,B,bad2" None
           (fun target =>
              if String.prefix "bad" target then response_500
              else response_200 "")
           (fun _ => response_200 "")
           initial_world).
  - discriminate.
  - constructor.
  - intros t target _.
    cbn [net outside_with bad_addresses_fail url message_hook].
    now destruct (String.prefix "bad" target).
  - intros _. split; [discriminate|]. split.
    + intros t failed target _ [<- | []]. reflexivity.
    + intros target _. reflexivity.
Defined.

(** ** Where error reports go *)

(** X4. An empty destination is an error report, not a delivery.
    [send_normal_webhook] and [send_embed_webhook] called with the webhook
    [""] send the tweet nowhere. When the error report returns (reports are
    only logged, or the error webhook is configured and each of its targets
    answers with success), each makes one error report, and the only
    requests are the deliveries of that report to the targets of the error
    webhook (none when reports are only logged). [send_embed_webhook] does
    not ask for a collage either, however many media links the tweet has. *)
Theorem empty_destination_is_reported_not_sent
    (settings : Settings) (outside : Outside) (limit : nat)
    (answer : string -> Response)
    (tweet_id : Z) (media_links : list string)
    (text_ card avatar display_name username msg : string)
    (files_ : option (list string)) (w : World) :
  let no_message := "No webhook URL found. Trying to send " +:+ msg in
  let no_embed :=
    "No webhook URL found. Tried to send tweet embed for "
    +:+ Py.str tweet_id in
  (send_errors settings = "True" ->
   error_webhook settings <> ""
   /\ (forall t target m,
         In target (Py.split "," (error_webhook settings)) ->
         net outside t (Execute (message_hook m [] target))
         = Responds (answer target))
   /\ (forall target, In target (Py.split "," (error_webhook settings)) ->
         ok (answer target) = true)) ->
  (exists new,
     send_normal_webhook settings outside (S limit) msg "" files_ w
     = Return tt (with_trace (new ++ trace w) w)
     /\ requests new
        = List.map (fun target => Execute (message_hook no_message [] target))
            (report_targets settings)
     /\ reported new = [[no_message]])
  /\ (exists new,
        send_embed_webhook settings outside (S limit) tweet_id media_links
          text_ card avatar display_name "" username w
        = Return tt (with_trace (new ++ trace w) w)
        /\ requests new
           = List.map (fun target => Execute (message_hook no_embed [] target))
               (report_targets settings)
        /\ reported new = [[no_embed]]).
Proof.
  intros no_message no_embed H. split.
  - unfold send_normal_webhook, _send_webhook, _send_webhook_reporting.
    unfold bind at 1 2, log, emit. cbn [Py.truthy String.eqb negb].
    match goal with
    | |- context [report_error _ _ _ ?m ?w1] =>
        destruct (report_error_run settings outside limit answer m w1)
          as (new & Hrun & Hreq & Hrep)
    end.
    { intros Hon. destruct (H Hon) as (Hne & Hnet & Hok). auto. }
    exists (new
            ++ [Log DEBUG "{} - Webhook URL: {}" ["send_normal_webhook()"; ""];
                Log DEBUG "{} - Message: {}" ["send_normal_webhook()"; msg]]).
    split; [|split].
    + rewrite Hrun. tidy_world. now rewrite <- app_assoc.
    + rewrite requests_app, Hreq. reflexivity.
    + rewrite reported_app, Hrep. reflexivity.
  - unfold send_embed_webhook. cbn [Py.truthy String.eqb negb].
    apply (report_error_run settings outside limit answer).
    intros Hon. destruct (H Hon) as (Hne & Hnet & Hok). auto.
Qed.

Lemma empty_destination_is_reported_not_sent_witness :
  (exists new,
     send_normal_webhook (reporting "E1,E2" "True")
       (outside_with all_succeed 0) 1 "hello" "" None initial_world
     = Return tt (with_trace (new ++ []) initial_world)
     /\ requests new
        = [Execute
             (message_hook "No webhook URL found. Trying to send hello" []
                "E1");
           Execute
             (message_hook "No webhook URL found. Trying to send hello" []
                "E2")]
     /\ reported new = [["No webhook URL found. Trying to send hello"]])
  /\ (exists new,
        send_embed_webhook (reporting "E1,E2" "True")
          (outside_with all_succeed 0) 1 42
          ["http://m/1.png"; "http://m/2.png"] "text" "" "http://a/i.png"
          "Alice" "" "alice" initial_world
        = Return tt (with_trace (new ++ []) initial_world)
        /\ requests new
           = [Execute
                (message_hook
                   "No webhook URL found. Tried to send tweet embed for 42"
                   [] "E1");
              Execute
                (message_hook
                   "No webhook URL found. Tried to send tweet embed for 42"
                   [] "E2")]
        /\ reported new
           = [["No webhook URL found. Tried to send tweet embed for 42"]]).
Proof.
  apply (empty_destination_is_reported_not_sent (reporting "E1,E2" "True")
           (outside_with all_succeed 0) 0 (fun _ => response_200 "data") 42
           ["http://m/1.png"; "http://m/2.png"] "text" "" "http://a/i.png"
           "Alice" "alice" "hello" None initial_world).
  intros _. split; [discriminate|]. split.
  - intros t target m _. reflexivity.
  - intros target _. reflexivity.
Defined.

(** X5. The destination given to [send_error_webhook] is used for the first
    delivery only. Reports being sent, let [x] be an explicit destination
    that is one target (not empty, no comma). When the delivery to [x]
    answers with a failure, the error webhook of the settings is configured
    and each of its targets answers the failure message with success, the
    failure is reported to the error webhook of the settings, not to [x]:
    the requests are the message to [x], then the failure message to each
    target of [settings.error_webhook], and the errors logged are the
    message, then the failure message. *)
Theorem failed_report_goes_to_the_configured_error_webhook
    (settings : Settings) (outside : Outside) (depth : nat)
    (answer : string -> Response) (msg x : string) (r : Response)
    (w : World) :
  let failure :=
    "Got " +:+ Py.str (status_code r) +:+ " from " +:+ x
    +:+ ", response: " +:+ text r in
  send_errors settings = "True" ->
  x <> "" -> occurs "," x = false ->
  error_webhook settings <> "" ->
  (forall t, net outside t (Execute (message_hook msg [] x)) = Responds r) ->
  ok r = false ->
  (forall t target, In target (Py.split "," (error_webhook settings)) ->
     net outside t (Execute (message_hook failure [] target))
     = Responds (answer target)) ->
  (forall target, In target (Py.split "," (error_webhook settings)) ->
     ok (answer target) = true) ->
  exists new,
    send_error_webhook settings outside (S (S depth)) msg x w
    = Return tt (with_trace (new ++ trace w) w)
    /\ requests new
       = Execute (message_hook msg [] x)
         :: List.map (fun target => Execute (message_hook failure [] target))
              (Py.split "," (error_webhook settings))
    /\ reported new = [[msg]; [failure]].
Proof.
  intros failure Hon Hx Hplain Hne Hfirst Hr Hnet Hok.
  rewrite (send_error_webhook_failed_delivery settings outside (S depth) msg
             x x [] w r Hon Hx (split_plain _ _ Hplain) Hfirst Hr).
  cbv zeta. unfold bind. fold failure.
  match goal with
  | |- context [send_error_webhook _ _ _ _ _ ?w1] =>
      destruct (send_error_webhook_run settings outside depth answer failure
                  (error_webhook settings) w1 Hon Hne Hnet Hok)
        as (new & Hrun & Hreq & Hrep)
  end.
  rewrite Hrun. cbn [for_each]. unfold ret. tidy_world.
  exists (new
          ++ [Net (Execute (DiscordWebhook x (Some msg)));
              Log DEBUG "Webhook URL: {}" [x];
              Log DEBUG "{} - Webhook URL: {}" ["send_error_webhook()"; x];
              Log DEBUG "{} - Message: {}" ["send_error_webhook()"; msg];
              Log ERROR "Got an error: {}" [msg]]).
  split; [|split].
  - now rewrite <- app_assoc.
  - rewrite requests_app, Hreq. reflexivity.
  - rewrite reported_app, Hrep. reflexivity.
Qed.

Lemma failed_report_goes_to_the_configured_error_webhook_witness :
  exists new,
    send_error_webhook (reporting "E" "True")
      (outside_with bad_addresses_fail 0) 2 "oops" "bad" initial_world
    = Return tt (with_trace (new ++ []) initial_world)
    /\ requests new
       = [Execute (message_hook "oops" [] "bad");
          Execute
            (message_hook
               "Got 500 from bad, response: Internal Server Error" [] "E")]
    /\ reported new
       = [["oops"]; ["Got 500 from bad, response: Internal Server Error"]].
Proof.
  apply (failed_report_goes_to_the_configured_error_webhook
           (reporting "E" "True") (outside_with bad_addresses_fail 0) 0
           (fun _ => response_200 "") "oops" "bad" response_500
           initial_world).
  - reflexivity.
  - discriminate.
  - reflexivity.
  - discriminate.
  - intros t. reflexivity.
  - reflexivity.
  - intros t target [<- | []]. reflexivity.
  - intros target _. reflexivity.
Defined.

(** ** The color, once more *)

(** X6. [set_color] changes nothing but the color of the embed, makes no
    request and touches no file. The only exception it raises is
    [ValueError]. It draws a random number exactly when no color is
    configured and the colors are randomized: a configured color, valid or
    not, wins over the randomization. *)
Theorem set_color_only_sets_the_color
    (settings : Settings) (outside : Outside) (embed : Embed) (w : World) :
  let run := set_color settings outside embed w in
  match run with
  | Return e _ => exists c, e = embed_set_color c embed
  | Raise x _ => x = ValueError
  end
  /\ requests (trace (world_of run)) = requests (trace w)
  /\ disk (world_of run) = disk w
  /\ rand_drawn (world_of run)
     = if Py.truthy (webhook_embed_color settings) then rand_drawn w
       else if webhook_randomize_embed_color settings then S (rand_drawn w)
       else rand_drawn w.
Proof.
  unfold set_color, bind.
  destruct (Py.truthy (webhook_embed_color settings)).
  - destruct ((String.length (webhook_embed_color settings) =? 7)%nat
              && match String.get 0 (webhook_embed_color settings) with
                 | Some c => Ascii.eqb c "#"
                 | None => false
                 end);
      cbn [log emit ret];
      match goal with
      | |- context [Py.int16 ?s] => destruct (Py.int16 s) as [c|]
      end; cbn; repeat split; now eexists.
  - destruct (webhook_randomize_embed_color settings);
      cbn [randint ret];
      match goal with
      | |- context [Py.int16 ?s] => destruct (Py.int16 s) as [c|]
      end; cbn; repeat split; now eexists.
Qed.

(** ** The embed, field by field *)

(** The embed that [build_embed] returns, written out. *)
Lemma build_embed_fields (settings : Settings) (outside : Outside)
    (limit : nat) (tweet_id : Z) (media_links : list string)
    (text_ card avatar display_name username : string) (w w' : World)
    (e : Embed) :
  build_embed settings outside limit tweet_id media_links text_ card avatar
    display_name username w = Return e w' ->
  exists embed_image w1 c,
    get_embed_image settings outside limit media_links tweet_id w
    = Return embed_image w1
    /\ e = {| description := text_;
              image :=
                nonempty
                  (Py.or (webhook_image settings) (Py.or embed_image card));
              thumbnail := nonempty (webhook_thumbnail settings);
              timestamp := webhook_show_timestamp settings;
              footer := configured_footer settings;
              title :=
                if use_title settings
                then Some (Py.or (webhook_author_name settings) display_name
                           +:+ " (@" +:+ username +:+ ")")
                else None;
              author :=
                if use_author settings
                then Some
                       {| author_name :=
                            Py.or (webhook_author_name settings) display_name
                            +:+ " (@" +:+ username +:+ ")";
                          author_url :=
                            Py.or (webhook_author_url settings)
                              ("https://twitter.com/" +:+ username
                               +:+ "/status/" +:+ Py.str tweet_id);
                          author_icon_url :=
                            Py.or (webhook_author_icon settings) avatar |}
                else None;
              color := Some c |}.
Proof.
  unfold build_embed, bind.
  destruct (get_embed_image settings outside limit media_links tweet_id w)
    as [u w1 | e1 w1]; [|discriminate].
  intros H. apply set_color_returns in H as (c & ->).
  exists u, w1, c. split; [reflexivity|].
  unfold customize_footer, configured_footer, nonempty, Py.or.
  destruct (Py.truthy (webhook_image settings)) eqn:E1; cbv iota;
    rewrite ?E1;
    (destruct (Py.truthy u) eqn:E2; cbv iota; rewrite ?E2);
    (destruct (Py.truthy card) eqn:E3; cbv iota; rewrite ?E3);
    destruct (Py.truthy (webhook_thumbnail settings)),
    (webhook_show_timestamp settings),
    (Py.truthy (webhook_footer_icon settings)),
    (Py.truthy (webhook_footer_text settings)),
    (use_title settings), (use_author settings); reflexivity.
Qed.

(** The embed is built whenever the post has at most one media link and no
    color is configured. *)
Lemma build_embed_returns (settings : Settings) (outside : Outside)
    (limit : nat) (tweet_id : Z) (media_links : list string)
    (text_ card avatar display_name username : string) (w : World) :
  (List.length media_links <= 1)%nat ->
  webhook_embed_color settings = "" ->
  webhook_randomize_embed_color settings = false ->
  exists e,
    build_embed settings outside limit tweet_id media_links text_ card avatar
      display_name username w = Return e w.
Proof.
  intros Hmedia Hfixed Hrandom.
  assert (Himage : exists u,
             get_embed_image settings outside limit media_links tweet_id w
             = Return u w).
  { destruct media_links as [|only [|second rest]].
    - now exists "".
    - now exists only.
    - cbn in Hmedia. lia. }
  destruct Himage as (u & Himage).
  unfold build_embed, bind. rewrite Himage.
  unfold set_color, bind. rewrite Hfixed, Hrandom.
  cbn [Py.truthy String.eqb Ascii.eqb Bool.eqb negb ret].
  change (Py.int16 (Py.slice_from 1 "#1DA1F2")) with (Some 1942002).
  eexists. reflexivity.
Qed.

(** X7. The image of the embed is chosen by precedence: the image of the
    settings if one is configured, else the image that [get_embed_image]
    returned for the media links (the only link, the collage or its
    fallback), else the image of the twitter card; without any of them the
    embed has no image. A post with at most one media link always gets its
    embed when no color is configured and the randomization of the color is
    off. *)
Theorem embed_image_precedence
    (settings : Settings) (outside : Outside) (limit : nat) (tweet_id : Z)
    (media_links : list string)
    (text_ card avatar display_name username : string) (w : World) :
  (forall e w',
     build_embed settings outside limit tweet_id media_links text_ card avatar
       display_name username w = Return e w' ->
     exists embed_image w1,
       get_embed_image settings outside limit media_links tweet_id w
       = Return embed_image w1
       /\ image e
          = if Py.truthy (webhook_image settings)
            then Some (webhook_image settings)
            else if Py.truthy embed_image then Some embed_image
            else if Py.truthy card then Some card
            else None)
  /\ ((List.length media_links <= 1)%nat ->
      webhook_embed_color settings = "" ->
      webhook_randomize_embed_color settings = false ->
      exists e,
        build_embed settings outside limit tweet_id media_links text_ card
          avatar display_name username w = Return e w
        /\ image e
           = if Py.truthy (webhook_image settings)
             then Some (webhook_image settings)
             else match media_links with
                  | only :: _ =>
                      if Py.truthy only then Some only
                      else if Py.truthy card then Some card else None
                  | [] => if Py.truthy card then Some card else None
                  end).
Proof.
  assert (Hall : forall e w',
            build_embed settings outside limit tweet_id media_links text_ card
              avatar display_name username w = Return e w' ->
            exists embed_image w1,
              get_embed_image settings outside limit media_links tweet_id w
              = Return embed_image w1
              /\ image e
                 = if Py.truthy (webhook_image settings)
                   then Some (webhook_image settings)
                   else if Py.truthy embed_image then Some embed_image
                   else if Py.truthy card then Some card
                   else None).
  { intros e w' Hrun.
    destruct (build_embed_fields _ _ _ _ _ _ _ _ _ _ _ _ _ Hrun)
      as (u & w1 & c & Himage & ->).
    exists u, w1. split; [exact Himage|]. cbn [image].
    unfold nonempty, Py.or.
    destruct (Py.truthy (webhook_image settings)) eqn:E1; [now rewrite E1|].
    destruct (Py.truthy u) eqn:E2; [now rewrite E2|].
    now destruct (Py.truthy card). }
  split; [exact Hall|].
  intros Hmedia Hfixed Hrandom.
  destruct (build_embed_returns settings outside limit tweet_id media_links
              text_ card avatar display_name username w Hmedia Hfixed Hrandom)
    as (e & Hrun).
  exists e. split; [exact Hrun|].
  destruct (Hall e w Hrun) as (u & w1 & Himage & ->).
  destruct media_links as [|only [|second rest]].
  - injection Himage as <- _. reflexivity.
  - injection Himage as <- _. reflexivity.
  - cbn in Hmedia. lia.
Qed.

Lemma embed_image_precedence_witness :
  (exists e,
     build_embed (pictured "" "") (outside_with all_succeed 0) 0 42
       ["http://m/1.png"] "text" "http://card/c.png" "http://a/i.png"
       "Alice" "alice" initial_world
     = Return e initial_world
     /\ image e = Some "http://m/1.png")
  /\ (exists e,
        build_embed (pictured "http://s/fixed.png" "")
          (outside_with all_succeed 0) 0 42
          ["http://m/1.png"] "text" "http://card/c.png" "http://a/i.png"
          "Alice" "alice" initial_world
        = Return e initial_world
        /\ image e = Some "http://s/fixed.png").
Proof.
  split.
  - destruct (embed_image_precedence (pictured "" "")
                (outside_with all_succeed 0) 0 42 ["http://m/1.png"] "text"
                "http://card/c.png" "http://a/i.png" "Alice" "alice"
                initial_world) as (_ & Hbuilt).
    apply Hbuilt; [cbn; lia | reflexivity | reflexivity].
  - destruct (embed_image_precedence (pictured "http://s/fixed.png" "")
                (outside_with all_succeed 0) 0 42 ["http://m/1.png"] "text"
                "http://card/c.png" "http://a/i.png" "Alice" "alice"
                initial_world) as (_ & Hbuilt).
    apply Hbuilt; [cbn; lia | reflexivity | reflexivity].
Defined.

(** X8. What the post gives to the embed and what the settings give: the
    description is the text of the post, unchanged. The thumbnail, the
    timestamp and the footer come from the settings alone: the footer has
    exactly the configured parts (icon, text, both), and there is no footer
    when neither is configured. *)
Theorem embed_fields_from_settings
    (settings : Settings) (outside : Outside) (limit : nat) (tweet_id : Z)
    (media_links : list string)
    (text_ card avatar display_name username : string) (w : World) :
  (forall e w',
     build_embed settings outside limit tweet_id media_links text_ card avatar
       display_name username w = Return e w' ->
     description e = text_
     /\ thumbnail e
        = (if Py.truthy (webhook_thumbnail settings)
           then Some (webhook_thumbnail settings) else None)
     /\ timestamp e = webhook_show_timestamp settings
     /\ option_map footer_icon_url (footer e)
        = (if Py.truthy (webhook_footer_icon settings)
           then Some (Some (webhook_footer_icon settings))
           else if Py.truthy (webhook_footer_text settings) then Some None
           else None)
     /\ option_map footer_text (footer e)
        = (if Py.truthy (webhook_footer_text settings)
           then Some (Some (webhook_footer_text settings))
           else if Py.truthy (webhook_footer_icon settings) then Some None
           else None))
  /\ ((List.length media_links <= 1)%nat ->
      webhook_embed_color settings = "" ->
      webhook_randomize_embed_color settings = false ->
      exists e,
        build_embed settings outside limit tweet_id media_links text_ card
          avatar display_name username w = Return e w).
Proof.
  split; [|apply build_embed_returns].
  intros e w' Hrun.
  destruct (build_embed_fields _ _ _ _ _ _ _ _ _ _ _ _ _ Hrun)
    as (u & w1 & c & _ & ->).
  cbn [description thumbnail timestamp footer].
  unfold nonempty, configured_footer.
  repeat split;
    destruct (Py.truthy (webhook_footer_icon settings)),
      (Py.truthy (webhook_footer_text settings)); reflexivity.
Qed.

Lemma embed_fields_from_settings_witness :
  exists e,
    build_embed (pictured "" "http://s/thumb.png")
      (outside_with all_succeed 0) 0 42 [] "text" "" "http://a/i.png" "Alice"
      "alice" initial_world
    = Return e initial_world
    /\ description e = "text"
    /\ thumbnail e = Some "http://s/thumb.png"
    /\ timestamp e = false
    /\ option_map footer_text (footer e) = None.
Proof.
  destruct (embed_fields_from_settings (pictured "" "http://s/thumb.png")
              (outside_with all_succeed 0) 0 42 [] "text" ""
              "http://a/i.png" "Alice" "alice" initial_world)
    as (Hfields & Hbuilt).
  destruct (Hbuilt ltac:(cbn; lia) eq_refl eq_refl) as (e & Hrun).
  destruct (Hfields e initial_world Hrun) as (Hd & Ht & Hs & _ & Hf).
  exists e. split; [exact Hrun|]. split; [exact Hd|]. split; [exact Ht|].
  split; [exact Hs | exact Hf].
Defined.

(** X9. The author block of the embed, when it is enabled: its link is the
    configured author URL or else the address of the tweet made of the
    username and the tweet id, its icon is the configured author icon or
    else the avatar of the post. When it is not enabled the embed has no
    author. *)
Theorem embed_author_link_and_icon
    (settings : Settings) (outside : Outside) (limit : nat) (tweet_id : Z)
    (media_links : list string)
    (text_ card avatar display_name username : string) (w : World) :
  (forall e w',
     build_embed settings outside limit tweet_id media_links text_ card avatar
       display_name username w = Return e w' ->
     if use_author settings then
       option_map author_url (author e)
       = Some (if Py.truthy (webhook_author_url settings)
               then webhook_author_url settings
               else "https://twitter.com/" +:+ username +:+ "/status/"
                    +:+ Py.str tweet_id)
       /\ option_map author_icon_url (author e)
          = Some (if Py.truthy (webhook_author_icon settings)
                  then webhook_author_icon settings else avatar)
     else author e = None)
  /\ ((List.length media_links <= 1)%nat ->
      webhook_embed_color settings = "" ->
      webhook_randomize_embed_color settings = false ->
      exists e,
        build_embed settings outside limit tweet_id media_links text_ card
          avatar display_name username w = Return e w).
Proof.
  split; [|apply build_embed_returns].
  intros e w' Hrun.
  destruct (build_embed_fields _ _ _ _ _ _ _ _ _ _ _ _ _ Hrun)
    as (u & w1 & c & _ & ->).
  cbn [author]. destruct (use_author settings); [|reflexivity].
  cbn [option_map author_url author_icon_url]. unfold Py.or.
  split; reflexivity.
Qed.

Lemma embed_author_link_and_icon_witness :
  exists e,
    build_embed (titled "") (outside_with all_succeed 0) 0 42 [] "text" ""
      "http://a/i.png" "Alice" "alice" initial_world
    = Return e initial_world
    /\ option_map author_url (author e)
       = Some "https://twitter.com/alice/status/42"
    /\ option_map author_icon_url (author e) = Some "http://a/i.png".
Proof.
  destruct (embed_author_link_and_icon (titled "")
              (outside_with all_succeed 0) 0 42 [] "text" ""
              "http://a/i.png" "Alice" "alice" initial_world)
    as (Hauthor & Hbuilt).
  destruct (Hbuilt ltac:(cbn; lia) eq_refl eq_refl) as (e & Hrun).
  exists e. split; [exact Hrun|]. exact (Hauthor e initial_world Hrun).
Defined.

(** ** Delivery of an embed *)

(** The loop of [send_embed_webhook] when every target answers and the
    report of a failure returns. *)
Lemma send_embed_webhook_loop_answered
    (settings : Settings) (outside : Outside) (limit : nat) (tweet_id : Z)
    (webhook : string) (e : Embed) (answer : string -> Response)
    (targets : list string) :
  (forall target, In target targets -> ok (answer target) = false ->
     forall w, exists new,
       report_error settings outside (S limit)
         (embed_failed_msg webhook (answer target)) w
       = Return tt (with_trace (new ++ trace w) w)
       /\ requests new
          = report_requests settings (embed_failed_msg webhook (answer target))
       /\ reported new = [[embed_failed_msg webhook (answer target)]]) ->
  (forall t target, In target targets ->
     net outside t (Execute (embed_hook e target))
     = Responds (answer target)) ->
  forall w, exists new,
    for_each targets
      (send_embed_webhook_to settings outside (S limit) tweet_id webhook
         (add_embed e (DiscordWebhook "" None))) w
    = Return tt (with_trace (new ++ trace w) w)
    /\ requests new
       = List.flat_map
           (embed_requests e webhook answer (report_requests settings))
           targets
    /\ reported new
       = List.map (fun target => [embed_failed_msg webhook (answer target)])
           (List.filter (fun target => negb (ok (answer target))) targets).
Proof.
  induction targets as [|target targets IH]; intros Hreport Hnet w.
  - exists []. now rewrite with_trace_nil.
  - cbn [for_each]. unfold bind at 1.
    rewrite (send_embed_webhook_to_answered settings outside limit tweet_id
               webhook _ target w (answer target))
      by (apply Hnet; now left).
    cbv zeta. cbn [List.filter List.map List.flat_map].
    unfold embed_requests at 1.
    assert (Hreport' : forall u, In u targets -> ok (answer u) = false ->
              forall w, exists new,
                report_error settings outside (S limit)
                  (embed_failed_msg webhook (answer u)) w
                = Return tt (with_trace (new ++ trace w) w)
                /\ requests new
                   = report_requests settings
                       (embed_failed_msg webhook (answer u))
                /\ reported new = [[embed_failed_msg webhook (answer u)]])
      by (intros u Hu; apply Hreport; now right).
    assert (Hnet' : forall t u, In u targets ->
              net outside t (Execute (embed_hook e u)) = Responds (answer u))
      by (intros t u Hu; apply Hnet; now right).
    destruct (ok (answer target)) eqn:Hok; cbn [negb].
    + match goal with
      | |- context [for_each _ _ ?w1] =>
          destruct (IH Hreport' Hnet' w1) as (new & Hrun & Hreq & Hrep)
      end.
      exists (new
              ++ [Log INFO
                    "Webhook posted for tweet https://twitter.com/i/status/{}"
                    [Py.str tweet_id];
                  Net (Execute (embed_hook e target));
                  Log DEBUG "Webhook URL: {}" [target]]).
      split; [|split].
      * rewrite Hrun. tidy_world. now rewrite <- app_assoc.
      * rewrite requests_app, Hreq. reflexivity.
      * rewrite reported_app, Hrep. reflexivity.
    + fold (embed_failed_msg webhook (answer target)).
      match goal with
      | |- context [report_error _ _ _ _ ?w0] =>
          destruct (Hreport target (or_introl eq_refl) Hok w0)
            as (new0 & Hrun0 & Hreq0 & Hrep0)
      end.
      rewrite Hrun0. tidy_world.
      match goal with
      | |- context [for_each _ _ ?w1] =>
          destruct (IH Hreport' Hnet' w1) as (new & Hrun & Hreq & Hrep)
      end.
      exists (new
              ++ new0
              ++ [Net (Execute (embed_hook e target));
                  Log DEBUG "Webhook URL: {}" [target]]).
      split; [|split].
      * rewrite Hrun. tidy_world. now rewrite <- !app_assoc.
      * rewrite !requests_app, Hreq, Hreq0. reflexivity.
      * rewrite !reported_app, Hrep, Hrep0. reflexivity.
Qed.

(** X10. Once the embed is built, [send_embed_webhook] sends the same embed
    to every element of [webhook.split(",")], in order, whatever the targets
    answer, as long as its error reports return (they are only logged, or
    delivered to an error webhook whose targets answer with success). The
    requests carry the embed and no text. Each target that answers with a
    failure is reported once, before the next target is tried; the report
    names the whole destination string, not the target that failed. *)
Theorem embed_is_delivered_to_every_segment
    (settings : Settings) (outside : Outside) (limit : nat) (tweet_id : Z)
    (media_links : list string)
    (text_ card avatar display_name webhook username : string)
    (answer error_answer : string -> Response) (w w1 : World) (e : Embed) :
  webhook <> "" ->
  build_embed settings outside (S limit) tweet_id media_links text_ card
    avatar display_name username w = Return e w1 ->
  (forall t target, In target (Py.split "," webhook) ->
     net outside t (Execute (embed_hook e target))
     = Responds (answer target)) ->
  (send_errors settings = "True" ->
   error_webhook settings <> ""
   /\ (forall t failed target,
         In failed (Py.split "," webhook) ->
         In target (Py.split "," (error_webhook settings)) ->
         net outside t
           (Execute
              (message_hook (embed_failed_msg webhook (answer failed)) []
                 target))
         = Responds (error_answer target))
   /\ (forall target, In target (Py.split "," (error_webhook settings)) ->
         ok (error_answer target) = true)) ->
  exists new,
    send_embed_webhook settings outside (S limit) tweet_id media_links text_
      card avatar display_name webhook username w
    = Return tt (with_trace (new ++ trace w1) w1)
    /\ requests new
       = List.flat_map
           (fun target =>
              Execute (embed_hook e target)
              :: (if ok (answer target) then []
                  else List.map
                         (fun error_target =>
                            Execute
                              (message_hook
                                 ("Got " +:+ Py.str (status_code (answer target))
                                  +:+ " from " +:+ webhook +:+ ". Response: "
                                  +:+ text (answer target))
                                 [] error_target))
                         (report_targets settings)))
           (Py.split "," webhook)
    /\ reported new
       = List.map
           (fun target =>
              ["Got " +:+ Py.str (status_code (answer target)) +:+ " from "
               +:+ webhook +:+ ". Response: " +:+ text (answer target)])
           (List.filter (fun target => negb (ok (answer target)))
              (Py.split "," webhook)).
Proof.
  intros Hne Hbuild Hnet Hreports.
  unfold send_embed_webhook. rewrite (truthy_true _ Hne). cbn [negb].
  unfold bind at 1. rewrite Hbuild.
  apply (send_embed_webhook_loop_answered settings outside limit tweet_id
           webhook e answer (Py.split "," webhook)); [|exact Hnet].
  intros target Hin _ w2.
  apply (report_error_run settings outside limit error_answer).
  intros Hon. destruct (Hreports Hon) as (Hdest & Herr & Hok).
  split; [exact Hdest|]. split; [|exact Hok].
  intros t error_target. now apply Herr.
Qed.

Lemma embed_is_delivered_to_every_segment_witness :
  exists e new,
    build_embed (reporting "E" "True") (outside_with bad_addresses_fail 0) 1
      42 ["http://m/1.png"] "text" "" "http://a/i.png" "Alice" "alice"
      initial_world
    = Return e initial_world
    /\ send_embed_webhook (reporting "E" "True")
         (outside_with bad_addresses_fail 0) 1 42 ["http://m/1.png"] "text"
         "" "http://a/i.png" "Alice" "A,bad,B" "alice" initial_world
       = Return tt (with_trace (new ++ []) initial_world)
    /\ requests new
       = [Execute (embed_hook e "A");
          Execute (embed_hook e "bad");
          Execute
            (message_hook
               "Got 500 from A,bad,B. Response: Internal Server Error" []
               "E");
          Execute (embed_hook e "B")]
    /\ reported new
       = [["Got 500 from A,bad,B. Response: Internal Server Error"]].
Proof.
  eexists.
  assert (Hbuild :
    build_embed (reporting "E" "True") (outside_with bad_addresses_fail 0) 1
      42 ["http://m/1.png"] "text" "" "http://a/i.png" "Alice" "alice"
      initial_world
    = Return (embed_set_color 1942002
                (set_image "http://m/1.png" (DiscordEmbed "text")))
        initial_world) by (vm_compute; reflexivity).
  destruct (embed_is_delivered_to_every_segment (reporting "E" "True")
              (outside_with bad_addresses_fail 0) 0 42 ["http://m/1.png"]
              "text" "" "http://a/i.png" "Alice" "A,bad,B" "alice"
              (fun target =>
                 if String.prefix "bad" target then response_500
                 else response_200 "")
              (fun _ => response_200 "")
              initial_world initial_world _ ltac:(discriminate) Hbuild)
    as (new & Hrun & Hreq & Hrep).
  - intros t target _.
    cbn [net outside_with bad_addresses_fail url embed_hook].
    now destruct (String.prefix "bad" target).
  - intros _. split; [discriminate|]. split.
    + intros t failed target _ [<- | []]. reflexivity.
    + intros target _. reflexivity.
  - exists new. split; [exact Hbuild|]. split; [exact Hrun|].
    split; [exact Hreq | exact Hrep].
Defined.

(** ** The collage, once more *)

(** X11. For a post with two media links or more, [get_embed_image] returns
    the first link or the collage, nothing else. Whenever it returns, the
    collage service has answered; the result is the first link unless the
    service answered with success and a JSON object whose member [url] is a
    text, and the check of that address was answered with success: then the
    result is that address. In that run [get_embed_image] has made two
    requests, the [GET] to the service with the tweet id and the [HEAD] of
    the collage, and no error report. *)
Theorem get_embed_image_returns_first_link_or_collage
    (settings : Settings) (outside : Outside) (limit : nat) (tweet_id : Z)
    (first second : string) (rest : list string) (w : World) :
  let run :=
    get_embed_image settings outside limit (first :: second :: rest)
      tweet_id w in
  (forall img w',
     run = Return img w' ->
     exists r,
       net outside (trace w) (collage_request settings tweet_id) = Responds r
       /\ if ok r then
            exists members u r',
              json_loads outside (text r) = Some (JObject members)
              /\ member "url" members = Some (JString u)
              /\ net outside (trace (asked settings tweet_id w)) (Head u)
                 = Responds r'
              /\ if ok r' then img = u /\ w' = checked settings tweet_id u w
                 else img = first
          else img = first)
  /\ (forall r members u r',
        net outside (trace w) (collage_request settings tweet_id)
        = Responds r ->
        ok r = true ->
        json_loads outside (text r) = Some (JObject members) ->
        member "url" members = Some (JString u) ->
        net outside (trace (asked settings tweet_id w)) (Head u)
        = Responds r' ->
        ok r' = true ->
        run = Return u (checked settings tweet_id u w)
        /\ requests (trace (checked settings tweet_id u w))
           = requests (trace w)
             ++ [Get (collage_maker_url settings)
                   [("tweet_id", Py.str tweet_id)] false;
                 Head u]
        /\ reported (trace (checked settings tweet_id u w))
           = reported (trace w)).
Proof.
  intros run. subst run. split.
  - intros img w'.
    unfold get_embed_image, bind at 1, perform.
    fold (collage_request settings tweet_id).
    destruct (net outside (trace w) (collage_request settings tweet_id))
      as [r | e]; [|discriminate].
    intros Hrun. exists r. split; [reflexivity|].
    fold (asked settings tweet_id w) in Hrun.
    destruct (ok r).
    + unfold bind at 1 in Hrun.
      destruct (json_loads outside (text r)) as [j|]; [|discriminate Hrun].
      unfold ret at 1 in Hrun. unfold bind at 1 in Hrun.
      destruct j as [| | | |items|members]; try discriminate Hrun.
      destruct (member "url" members) as [[| | |u| |]|] eqn:Hurl;
        try discriminate Hrun.
      unfold ret at 1 in Hrun. unfold bind at 1, perform in Hrun.
      destruct (net outside (trace (asked settings tweet_id w)) (Head u))
        as [r' | e'] eqn:Hhead; [|discriminate Hrun].
      exists members, u, r'. repeat split; try assumption.
      destruct (ok r'); cbn [negb] in Hrun.
      * unfold ret in Hrun. injection Hrun as <- <-. now split.
      * unfold bind, ret in Hrun.
        destruct (report_error settings outside limit _ _);
          [|discriminate Hrun].
        now injection Hrun as <- _.
    + unfold bind, ret in Hrun.
      destruct (report_error settings outside limit _ _);
        [|discriminate Hrun].
      now injection Hrun as <- _.
  - intros r members u r' Hnet Hr Hjson Hurl Hhead Hr'. split; [|split].
    + now apply (get_embed_image_collage_found settings outside limit
                   tweet_id first second rest w r r' members u).
    + unfold checked, collage_request.
      change (Net (Head u)
              :: Net (Get (collage_maker_url settings)
                        [("tweet_id", Py.str tweet_id)] false) :: trace w)
        with ([Net (Head u);
               Net (Get (collage_maker_url settings)
                      [("tweet_id", Py.str tweet_id)] false)] ++ trace w).
      tidy_world. now rewrite requests_app.
    + unfold checked, collage_request.
      change (Net (Head u)
              :: Net (Get (collage_maker_url settings)
                        [("tweet_id", Py.str tweet_id)] false) :: trace w)
        with ([Net (Head u);
               Net (Get (collage_maker_url settings)
                      [("tweet_id", Py.str tweet_id)] false)] ++ trace w).
      tidy_world. rewrite reported_app. apply app_nil_r.
Qed.

Lemma get_embed_image_returns_first_link_or_collage_witness :
  get_embed_image default_settings (collage_outside all_succeed) 0
    ["http://m/1.png"; "http://m/2.png"] 42 initial_world
  = Return "https://c/collage.png"
      (checked default_settings 42 "https://c/collage.png" initial_world)
  /\ requests
       (trace
          (checked default_settings 42 "https://c/collage.png" initial_world))
     = [Get "https://twitter.lovinator.space/add" [("tweet_id", "42")] false;
        Head "https://c/collage.png"]
  /\ reported
       (trace
          (checked default_settings 42 "https://c/collage.png" initial_world))
     = [].
Proof.
  destruct (get_embed_image_returns_first_link_or_collage default_settings
              (collage_outside all_succeed) 0 42 "http://m/1.png"
              "http://m/2.png" [] initial_world) as (_ & Hfound).
  apply (Hfound (response_200 "data")
           [("url", JString "https://c/collage.png")]
           "https://c/collage.png" (response_200 "data"));
    reflexivity.
Defined.

(** ** Downloads, once more *)

Lemma prefix_append (p s : string) : String.prefix p (p +:+ s) = true.
Proof.
  induction p as [|c p IH]; [now destruct s|].
  rewrite append_String. cbn [String.prefix].
  destruct (ascii_dec c c); [exact IH | congruence].
Qed.

(** A staged file is inside the temporary directory. *)
Lemma inside_staged_path (temp_dir media_link : string) :
  inside temp_dir (staged_path temp_dir media_link) = true.
Proof.
  unfold inside, staged_path.
  rewrite <- (append_assoc temp_dir "/" _). apply prefix_append.
Qed.

Lemma lookup_ignores_trace (path : string) (t : list event) (w : World) :
  fs (with_trace t w) !! path = fs w !! path.
Proof. reflexivity. Qed.

(** The loop of [download_images] leaves alone every file that is not in
    the temporary directory, however it ends. *)
Lemma download_each_elsewhere (outside : Outside) (temp_dir path : string)
    (media_links : list string) :
  inside temp_dir path = false ->
  forall images,
    preserves (fun w => fs w !! path)
      (download_each outside temp_dir media_links images).
Proof.
  intros Hout.
  assert (Hneq : forall u, staged_path temp_dir u <> path).
  { intros u Heq. rewrite <- Heq, inside_staged_path in Hout.
    discriminate Hout. }
  induction media_links as [|media_link rest IH]; intros images;
    cbn [download_each]; [apply preserves_ret|].
  apply preserves_bind;
    [apply preserves_perform, lookup_ignores_trace | intros res].
  apply preserves_bind; [|intros imgs; apply IH].
  destruct (ok res).
  - fold (staged_path temp_dir media_link). apply preserves_bind.
    + intros w. unfold open_wb. destruct (names_directory _); [reflexivity|].
      cbn [world_of fs with_fs]. apply lookup_insert_ne, Hneq.
    + intros _. apply preserves_bind; [|intros _; apply preserves_ret].
      apply preserves_for_each. intros chunk w. unfold write.
      cbn [world_of fs with_fs]. apply lookup_insert_ne, Hneq.
  - apply preserves_bind; [|intros _; apply preserves_ret].
    apply preserves_log, lookup_ignores_trace.
Qed.

Section Staging.

Variable outside : Outside.
Variable answer : string -> Response.
Variable temp_dir : string.

(** The loop of [download_images] when every download is answered: one
    request per link, in order; the links answered with success are staged
    and listed, the others are logged. *)
Lemma download_each_run (media_links : list string) :
  (forall t u, In u media_links ->
     net outside t (Get u [] true) = Responds (answer u)) ->
  (forall u, In u media_links -> ok (answer u) = true ->
     names_directory u = false) ->
  forall images w, exists new,
    download_each outside temp_dir media_links images w
    = Return (images
              ++ List.map (staged_path temp_dir)
                   (List.filter (fun u => ok (answer u)) media_links))
        (with_fs (List.fold_left (stage answer temp_dir) media_links (fs w))
           (with_trace (new ++ trace w) w))
    /\ requests new = List.map (fun u => Get u [] true) media_links
    /\ logged ERROR "Failed to download image: {}" new
       = List.map (fun u => [u])
           (List.filter (fun u => negb (ok (answer u))) media_links)
    /\ reported new = [].
Proof.
  induction media_links as [|u rest IH]; intros Hnet Hname images w.
  - exists []. cbn. rewrite app_nil_r. split; [|now repeat split].
    now destruct w.
  - cbn [download_each List.filter List.fold_left List.map].
    unfold bind at 1, perform. rewrite (Hnet _ u) by now left.
    unfold stage at 2.
    assert (Hnet' : forall t v, In v rest ->
              net outside t (Get v [] true) = Responds (answer v))
      by (intros t v Hv; apply Hnet; now right).
    assert (Hname' : forall v, In v rest -> ok (answer v) = true ->
              names_directory v = false)
      by (intros v Hv; apply Hname; now right).
    destruct (ok (answer u)) eqn:Hok; cbn [negb].
    + fold (staged_path temp_dir u).
      unfold bind at 1. unfold bind at 1. unfold bind at 1, open_wb.
      rewrite names_directory_staged, (Hname u) by (auto; now left).
      rewrite (for_each_write _ _ _ "") by apply lookup_insert_eq.
      unfold ret at 1. cbn [fs with_fs with_trace].
      rewrite append_empty_l, joined_iter_content, insert_insert_eq by lia.
      match goal with
      | |- context [download_each _ _ _ ?imgs ?w1] =>
          destruct (IH Hnet' Hname' imgs w1) as (new & Hrun & Hreq & Hlog & Hrep)
      end.
      exists (new ++ [Net (Get u [] true)]).
      split; [|split; [|split]].
      * rewrite Hrun. cbn [List.map fs with_fs with_trace trace tmpdirs
                            tmp_created rand_drawn].
        rewrite <- !app_assoc. reflexivity.
      * rewrite requests_app, Hreq. reflexivity.
      * rewrite logged_app, Hlog. reflexivity.
      * rewrite reported_app, Hrep. reflexivity.
    + unfold bind at 1. unfold bind at 1, log, emit, ret.
      match goal with
      | |- context [download_each _ _ _ ?imgs ?w1] =>
          destruct (IH Hnet' Hname' imgs w1) as (new & Hrun & Hreq & Hlog & Hrep)
      end.
      exists (new ++ [Log ERROR "Failed to download image: {}" [u];
                      Net (Get u [] true)]).
      split; [|split; [|split]].
      * rewrite Hrun. cbn [List.map fs with_fs with_trace trace tmpdirs
                            tmp_created rand_drawn].
        rewrite <- !app_assoc. reflexivity.
      * rewrite requests_app, Hreq. reflexivity.
      * rewrite logged_app, Hlog. reflexivity.
      * rewrite reported_app, Hrep. reflexivity.
Qed.

(** When the links answered with success have different names, each staged
    file holds the bytes of its own link. *)
Lemma fold_stage_unique (media_links : list string) :
  List.NoDup (List.map staged_name
           (List.filter (fun u => ok (answer u)) media_links)) ->
  forall files_ u,
    In u media_links -> ok (answer u) = true ->
    List.fold_left (stage answer temp_dir) media_links files_
      !! staged_path temp_dir u
    = Some (text (answer u)).
Proof.
  induction media_links as [|v rest IH]; intros Hnd files_ u Hin Hok;
    [destruct Hin|].
  cbn [List.fold_left]. cbn [List.filter] in Hnd.
  destruct Hin as [-> | Hin].
  - rewrite Hok in Hnd. cbn [List.map] in Hnd.
    apply List.NoDup_cons_iff in Hnd as (Hfresh & _).
    rewrite fold_stage_elsewhere.
    + unfold stage. rewrite Hok. apply lookup_insert_eq.
    + intros x Hx Hokx Heq. apply Hfresh.
      apply staged_path_eq in Heq. fold (staged_name x) (staged_name u) in Heq.
      rewrite <- Heq. apply List.in_map, List.filter_In. now split.
  - apply IH; [|exact Hin | exact Hok].
    destruct (ok (answer v)); [|exact Hnd].
    cbn [List.map] in Hnd. now apply List.NoDup_cons_iff in Hnd as (_ & Hnd).
Qed.

(** What is attached for the staged files: the name and the bytes of each
    link that was answered with success. *)
Lemma attachments_staged (media_links : list string)
    (files_ : gmap string string) :
  (forall u, In u media_links -> ok (answer u) = true ->
     names_directory u = false) ->
  List.NoDup (List.map staged_name
           (List.filter (fun u => ok (answer u)) media_links)) ->
  let disk_ := List.fold_left (stage answer temp_dir) media_links files_ in
  let images :=
    List.map (staged_path temp_dir)
      (List.filter (fun u => ok (answer u)) media_links) in
  attachments disk_ (Some images)
  = List.map (fun u => (staged_name u, text (answer u)))
      (List.filter (fun u => ok (answer u)) media_links)
  /\ Forall (fun file => readable disk_ file = true) images.
Proof.
  intros Hname Hnd disk_ images. subst disk_ images. split.
  - unfold attachments. cbn [default from_option]. unfold id.
    rewrite List.map_map. apply List.map_ext_in.
    intros u Hu. apply List.filter_In in Hu as (Hin & Hok).
    rewrite path_name_staged, (fold_stage_unique _ Hnd _ _ Hin Hok).
    reflexivity.
  - apply List.Forall_forall. intros file Hfile.
    apply List.in_map_iff in Hfile as (u & <- & Hu).
    apply List.filter_In in Hu as (Hin & Hok).
    unfold readable.
    rewrite names_directory_staged, (Hname u Hin Hok),
      (fold_stage_unique _ Hnd _ _ Hin Hok).
    reflexivity.
Qed.

(** A link whose name is not the name of a file stops the loop, once it is
    downloaded: [open] raises. Nothing has been sent, no directory has been
    removed. *)
Lemma download_each_unnameable (media_links : list string) :
  (forall t u, In u media_links ->
     net outside t (Get u [] true) = Responds (answer u)) ->
  Exists (fun u => ok (answer u) = true /\ names_directory u = true)
    media_links ->
  forall images w, exists w',
    download_each outside temp_dir media_links images w
    = Raise IsADirectoryError w'
    /\ executed (trace w') = executed (trace w)
    /\ tmpdirs w' = tmpdirs w.
Proof.
  induction media_links as [|u rest IH]; intros Hnet Hbad images w;
    [now apply Exists_nil in Hbad|].
  cbn [download_each]. unfold bind at 1, perform.
  rewrite (Hnet _ u) by now left.
  assert (Hnet' : forall t v, In v rest ->
            net outside t (Get v [] true) = Responds (answer v))
    by (intros t v Hv; apply Hnet; now right).
  destruct (ok (answer u)) eqn:Hok.
  - fold (staged_path temp_dir u).
    unfold bind at 1. unfold bind at 1. unfold bind at 1, open_wb.
    rewrite names_directory_staged.
    destruct (names_directory u) eqn:Hname.
    + eexists. split; [reflexivity|]. split; reflexivity.
    + apply Exists_cons in Hbad as [(_ & Hbad) | Hbad]; [congruence|].
      rewrite (for_each_write _ _ _ "") by apply lookup_insert_eq.
      unfold ret at 1.
      match goal with
      | |- context [download_each _ _ _ ?imgs ?w1] =>
          destruct (IH Hnet' Hbad imgs w1) as (w' & Hrun & Hexec & Hdirs)
      end.
      exists w'. split; [exact Hrun|]. split; [exact Hexec | exact Hdirs].
  - apply Exists_cons in Hbad as [(Hbad & _) | Hbad]; [congruence|].
    unfold bind at 1. unfold bind at 1, log, emit, ret.
    match goal with
    | |- context [download_each _ _ _ ?imgs ?w1] =>
        destruct (IH Hnet' Hbad imgs w1) as (w' & Hrun & Hexec & Hdirs)
    end.
    exists w'. split; [exact Hrun|]. split; [exact Hexec | exact Hdirs].
Qed.

End Staging.

(** [download_images] when every download is answered. *)
Lemma download_images_run (outside : Outside) (answer : string -> Response)
    (media_links : list string) (w : World) :
  let temp_dir := mkdtemp outside (tmp_created w) in
  (forall t u, In u media_links ->
     net outside t (Get u [] true) = Responds (answer u)) ->
  (forall u, In u media_links -> ok (answer u) = true ->
     names_directory u = false) ->
  exists new,
    download_images outside media_links w
    = Return (List.map (staged_path temp_dir)
                (List.filter (fun u => ok (answer u)) media_links), temp_dir)
        (with_fs (List.fold_left (stage answer temp_dir) media_links (fs w))
           (with_trace (new ++ trace w) (with_directory temp_dir w)))
    /\ requests new = List.map (fun u => Get u [] true) media_links
    /\ logged ERROR "Failed to download image: {}" new
       = List.map (fun u => [u])
           (List.filter (fun u => negb (ok (answer u))) media_links)
    /\ reported new = [].
Proof.
  intros temp_dir Hnet Hname.
  destruct (download_each_run outside answer temp_dir media_links Hnet Hname
              [] (with_directory temp_dir w))
    as (new & Hrun & Hreq & Hlog & Hrep).
  exists new. split; [|now repeat split].
  unfold download_images, bind, TemporaryDirectory. fold temp_dir.
  fold (with_directory temp_dir w). rewrite Hrun. reflexivity.
Qed.

Lemma fold_stage_keeps (answer : string -> Response) (temp_dir path : string)
    (media_links : list string) :
  forall files_,
    is_Some (files_ !! path) ->
    is_Some (List.fold_left (stage answer temp_dir) media_links files_
               !! path).
Proof.
  induction media_links as [|u rest IH]; intros files_ H; [exact H|].
  cbn [List.fold_left]. apply IH. unfold stage.
  destruct (ok (answer u)); [|exact H].
  apply lookup_insert_is_Some.
  destruct (decide (staged_path temp_dir u = path)); [now left | now right].
Qed.

(** Every link answered with success has its file on disk. *)
Lemma fold_stage_present (answer : string -> Response) (temp_dir : string)
    (media_links : list string) :
  forall files_ u,
    In u media_links -> ok (answer u) = true ->
    is_Some (List.fold_left (stage answer temp_dir) media_links files_
               !! staged_path temp_dir u).
Proof.
  induction media_links as [|v rest IH]; intros files_ u Hin Hok;
    [destruct Hin|].
  cbn [List.fold_left]. destruct Hin as [-> | Hin]; [|now apply IH].
  apply fold_stage_keeps. unfold stage. rewrite Hok.
  rewrite lookup_insert_eq. now eexists.
Qed.

(** X12. When every download is answered, [download_images] asks for each
    link once, in order, whatever the answers. The links answered with
    success are staged in the new temporary directory and listed, in order;
    the other links are logged and left out, and the loop goes on. Every
    listed path is a file on disk. *)
Theorem download_images_tries_every_link
    (outside : Outside) (answer : string -> Response)
    (media_links : list string) (w : World) :
  let temp_dir := mkdtemp outside (tmp_created w) in
  (forall t u, In u media_links ->
     net outside t (Get u [] true) = Responds (answer u)) ->
  (forall u, In u media_links -> ok (answer u) = true ->
     names_directory u = false) ->
  exists new w',
    download_images outside media_links w
    = Return (List.map (staged_path temp_dir)
                (List.filter (fun u => ok (answer u)) media_links), temp_dir)
        w'
    /\ trace w' = new ++ trace w
    /\ requests new = List.map (fun u => Get u [] true) media_links
    /\ logged ERROR "Failed to download image: {}" new
       = List.map (fun u => [u])
           (List.filter (fun u => negb (ok (answer u))) media_links)
    /\ tmpdirs w' = temp_dir :: tmpdirs w
    /\ Forall (fun path => is_Some (fs w' !! path))
         (List.map (staged_path temp_dir)
            (List.filter (fun u => ok (answer u)) media_links)).
Proof.
  intros temp_dir Hnet Hname.
  destruct (download_images_run outside answer media_links w Hnet Hname)
    as (new & Hrun & Hreq & Hlog & _).
  fold temp_dir in Hrun.
  exists new. eexists. split; [exact Hrun|].
  split; [reflexivity|]. split; [exact Hreq|]. split; [exact Hlog|].
  split; [reflexivity|].
  apply List.Forall_forall. intros path Hpath.
  apply List.in_map_iff in Hpath as (u & <- & Hu).
  apply List.filter_In in Hu as (Hin & Hok).
  cbn [fs with_fs]. now apply fold_stage_present.
Qed.

Lemma download_images_tries_every_link_witness :
  exists new w',
    download_images (outside_with gone_links_fail 0)
      ["http://m/a.png"; "http://gone/b.png"; "http://m/c.png"] initial_world
    = Return (["/tmp/tmp0/a.png"; "/tmp/tmp0/c.png"], "/tmp/tmp0") w'
    /\ trace w' = new ++ []
    /\ requests new
       = [Get "http://m/a.png" [] true; Get "http://gone/b.png" [] true;
          Get "http://m/c.png" [] true]
    /\ logged ERROR "Failed to download image: {}" new
       = [["http://gone/b.png"]]
    /\ tmpdirs w' = ["/tmp/tmp0"]
    /\ Forall (fun path => is_Some (fs w' !! path))
         ["/tmp/tmp0/a.png"; "/tmp/tmp0/c.png"].
Proof.
  apply (download_images_tries_every_link (outside_with gone_links_fail 0)
           (fun u =>
              if String.prefix "http://gone/" u then response_500
              else response_200 "data")
           ["http://m/a.png"; "http://gone/b.png"; "http://m/c.png"]
           initial_world).
  - intros t u _. cbn [net outside_with gone_links_fail].
    now destruct (String.prefix "http://gone/" u).
  - intros u [<- | [<- | [<- | []]]] _; reflexivity.
Defined.

(** ** The message and its images *)

(** The message that [send_hook_and_files] sends: the links are appended,
    each on a line of its own, when the option is set. *)
Lemma message_sent_with_links (settings : Settings)
    (media_links : list string) (msg : string) :
  message_sent settings media_links msg
  = if append_image_links settings then with_links msg media_links else msg.
Proof.
  unfold message_sent, with_links.
  destruct (append_image_links settings); [|reflexivity].
  revert msg. induction media_links as [|media_link rest IH]; intros msg.
  - cbn. now rewrite append_empty_r.
  - cbn [List.fold_left List.map joined List.fold_right].
    fold (joined (List.map (fun l => newline +:+ l) rest)).
    rewrite IH. apply append_assoc.
Qed.

Lemma filter_all {A} (keep : A -> bool) (l : list A) :
  (forall x, In x l -> keep x = true) -> List.filter keep l = l.
Proof.
  induction l as [|x l IH]; intros H; [reflexivity|].
  cbn [List.filter]. rewrite (H x) by now left.
  f_equal. apply IH. intros y Hy. apply H. now right.
Qed.

(** What [cleanup] leaves of the files: those outside the directory. *)
Lemma cleanup_lookup (dir path : string) (files_ : gmap string string) :
  filter (fun kv : string * string => inside dir kv.1 = false) files_ !! path
  = if inside dir path then None else files_ !! path.
Proof.
  destruct (inside dir path) eqn:Hin.
  - apply map_lookup_filter_None. right. intros data _ Hout.
    cbn [fst] in Hout. congruence.
  - destruct (files_ !! path) as [data|] eqn:Hdata.
    + apply map_lookup_filter_Some. now split.
    + apply map_lookup_filter_None. now left.
Qed.

(** X13. With [upload_images] set, when every download is answered, the
    links answered with success have different names and every target of the
    destination answers with success, [send_hook_and_files] first downloads
    every link, then delivers the message to every target with one file per
    link that was downloaded: the file has the last segment of the link as
    its name and the downloaded bytes as its content. When it returns, the
    temporary directory and the staged files are gone. *)
Theorem images_are_uploaded_under_their_names
    (settings : Settings) (outside : Outside) (limit : nat)
    (answer hook_answer : string -> Response)
    (media_links : list string) (msg webhook_url : string) (w : World) :
  let temp_dir := mkdtemp outside (tmp_created w) in
  let uploaded :=
    List.map (fun u => (staged_name u, text (answer u)))
      (List.filter (fun u => ok (answer u)) media_links) in
  let message :=
    if append_image_links settings then with_links msg media_links else msg in
  upload_images settings = true ->
  webhook_url <> "" ->
  (forall t u, In u media_links ->
     net outside t (Get u [] true) = Responds (answer u)) ->
  (forall u, In u media_links -> ok (answer u) = true ->
     names_directory u = false) ->
  List.NoDup (List.map staged_name
                (List.filter (fun u => ok (answer u)) media_links)) ->
  (forall t target, In target (Py.split "," webhook_url) ->
     net outside t (Execute (message_hook message uploaded target))
     = Responds (hook_answer target)) ->
  (forall target, In target (Py.split "," webhook_url) ->
     ok (hook_answer target) = true) ->
  exists new w',
    send_hook_and_files settings outside limit media_links msg webhook_url w
    = Return tt w'
    /\ trace w' = new ++ trace w
    /\ requests new
       = List.map (fun u => Get u [] true) media_links
         ++ List.map
              (fun target => Execute (message_hook message uploaded target))
              (Py.split "," webhook_url)
    /\ reported new = []
    /\ ~ In temp_dir (tmpdirs w')
    /\ forall path, inside temp_dir path = true -> fs w' !! path = None.
Proof.
  intros temp_dir uploaded message Hupload Hne Hnet Hname Hnd Hhook Hok.
  destruct (download_images_run outside answer media_links w Hnet Hname)
    as (new1 & Hdown & Hreq1 & _ & Hrep1).
  fold temp_dir in Hdown.
  destruct (attachments_staged answer temp_dir media_links (fs w) Hname Hnd)
    as (Hatt & Hreadable).
  cbv zeta in Hatt, Hreadable. fold uploaded in Hatt.
  set (images := List.map (staged_path temp_dir)
                   (List.filter (fun u => ok (answer u)) media_links)) in *.
  set (w1 := with_fs
               (List.fold_left (stage answer temp_dir) media_links (fs w))
               (with_trace (new1 ++ trace w) (with_directory temp_dir w)))
    in *.
  destruct (_send_webhook_reporting_answered outside
              (report_error settings outside limit) message webhook_url
              (Some images) hook_answer (fun _ => [])
              "send_normal_webhook()" w1 Hne)
    as (new2 & Hsend & Hreq2 & Hrep2).
  - intros target Hin Hfail. rewrite (Hok target Hin) in Hfail.
    discriminate Hfail.
  - exact Hreadable.
  - intros t target Hin. cbn [fs w1 with_fs]. rewrite Hatt. now apply Hhook.
  - destruct (delivery_requests_all_succeed message webhook_url (Some images)
                hook_answer (fun _ => []) (fs w1) (Py.split "," webhook_url)
                Hok) as (Hall & Hnone).
    rewrite Hall in Hreq2. rewrite Hnone in Hrep2.
    cbn [fs w1 with_fs] in Hreq2. rewrite Hatt in Hreq2.
    unfold send_hook_and_files. rewrite Hupload.
    unfold bind at 1. unfold bind at 1. rewrite Hdown.
    unfold ret at 1. cbn [fst snd]. unfold bind at 1.
    fold (message_sent settings media_links msg).
    rewrite message_sent_with_links. fold message.
    unfold send_normal_webhook, _send_webhook. rewrite Hsend.
    unfold cleanup. exists (new2 ++ new1). eexists.
    split; [reflexivity|]. cbn [trace fs tmpdirs with_trace].
    split; [now rewrite <- app_assoc|].
    split; [now rewrite requests_app, Hreq1, Hreq2|].
    split; [now rewrite reported_app, Hrep1, Hrep2|]. split.
    + intros Hin. apply List.filter_In in Hin as (_ & Hneq).
      now rewrite String.eqb_refl in Hneq.
    + intros path Hpath. now rewrite cleanup_lookup, Hpath.
Qed.

Lemma images_are_uploaded_under_their_names_witness :
  exists new w',
    send_hook_and_files uploading (outside_with gone_links_fail 0) 0
      ["http://m/a.png"; "http://gone/b.png"] "hello" "A,B" initial_world
    = Return tt w'
    /\ trace w' = new ++ []
    /\ requests new
       = [Get "http://m/a.png" [] true; Get "http://gone/b.png" [] true;
          Execute (message_hook "hello" [("a.png", "data")] "A");
          Execute (message_hook "hello" [("a.png", "data")] "B")]
    /\ reported new = []
    /\ ~ In "/tmp/tmp0" (tmpdirs w')
    /\ forall path, inside "/tmp/tmp0" path = true -> fs w' !! path = None.
Proof.
  apply (images_are_uploaded_under_their_names uploading
           (outside_with gone_links_fail 0) 0
           (fun u =>
              if String.prefix "http://gone/" u then response_500
              else response_200 "data")
           (fun _ => response_200 "data")
           ["http://m/a.png"; "http://gone/b.png"] "hello" "A,B"
           initial_world).
  - reflexivity.
  - discriminate.
  - intros t u _. cbn [net outside_with gone_links_fail].
    now destruct (String.prefix "http://gone/" u).
  - intros u [<- | [<- | []]] _; reflexivity.
  - repeat constructor. intros [].
  - intros t target _. reflexivity.
  - intros target _. reflexivity.
Defined.

(** X14. A media link whose last segment is not the name of a file (the
    link ends with a slash, or with [.] or [..]) stops the post: once its
    download has succeeded, [open] raises [IsADirectoryError] and
    [send_hook_and_files] raises with it. No message is sent to any target,
    and the temporary directory stays on disk. *)
Theorem unnameable_link_stops_the_post
    (settings : Settings) (outside : Outside) (limit : nat)
    (answer : string -> Response)
    (media_links : list string) (msg webhook_url : string) (w : World) :
  upload_images settings = true ->
  (forall t u, In u media_links ->
     net outside t (Get u [] true) = Responds (answer u)) ->
  Exists (fun u => ok (answer u) = true /\ names_directory u = true)
    media_links ->
  exists w',
    send_hook_and_files settings outside limit media_links msg webhook_url w
    = Raise IsADirectoryError w'
    /\ executed (trace w') = executed (trace w)
    /\ In (mkdtemp outside (tmp_created w)) (tmpdirs w').
Proof.
  intros Hupload Hnet Hbad.
  destruct (download_each_unnameable outside answer
              (mkdtemp outside (tmp_created w)) media_links Hnet Hbad []
              (with_directory (mkdtemp outside (tmp_created w)) w))
    as (w' & Hrun & Hexec & Hdirs).
  exists w'. split; [|split].
  - unfold send_hook_and_files. rewrite Hupload.
    unfold bind at 1. unfold bind at 1.
    unfold download_images, bind at 1, TemporaryDirectory.
    fold (with_directory (mkdtemp outside (tmp_created w)) w).
    unfold bind at 1. now rewrite Hrun.
  - exact Hexec.
  - rewrite Hdirs. now left.
Qed.

Lemma unnameable_link_stops_the_post_witness :
  exists w',
    send_hook_and_files uploading (outside_with all_succeed 0) 0
      ["http://m/a.png"; "http://m/album/"] "hello" "A" initial_world
    = Raise IsADirectoryError w'
    /\ executed (trace w') = []
    /\ In "/tmp/tmp0" (tmpdirs w').
Proof.
  apply (unnameable_link_stops_the_post uploading
           (outside_with all_succeed 0) 0 (fun _ => response_200 "data")
           ["http://m/a.png"; "http://m/album/"] "hello" "A" initial_world).
  - reflexivity.
  - intros t u _. reflexivity.
  - apply Exists_cons_tl, Exists_cons_hd. split; reflexivity.
Defined.

(** With [upload_images] set, the files outside the temporary directory
    are left alone. *)
Lemma send_hook_and_files_elsewhere
    (settings : Settings) (outside : Outside) (limit : nat)
    (media_links : list string) (msg webhook_url path : string) (w : World) :
  upload_images settings = true ->
  inside (mkdtemp outside (tmp_created w)) path = false ->
  fs (world_of
        (send_hook_and_files settings outside limit media_links msg
           webhook_url w)) !! path
  = fs w !! path.
Proof.
  intros Hupload Hout. unfold send_hook_and_files. rewrite Hupload.
  unfold bind at 1. unfold bind at 1.
  unfold download_images, bind at 1, TemporaryDirectory.
  set (dir := mkdtemp outside (tmp_created w)) in *.
  fold (with_directory dir w). unfold bind at 1.
  pose proof (download_each_elsewhere outside dir path media_links Hout []
                (with_directory dir w)) as Hdown.
  cbv beta in Hdown.
  destruct (download_each outside dir media_links [] (with_directory dir w))
    as [images w1 | e w1]; cbn [world_of] in Hdown; [|exact Hdown].
  unfold ret at 1. unfold ret at 1. cbn [fst snd]. unfold bind at 1.
  match goal with
  | |- context [send_normal_webhook _ _ _ ?m _ ?f w1] =>
      pose proof (preserves_send_normal_webhook (fun w => fs w !! path)
                    (lookup_ignores_trace path) settings outside limit m
                    webhook_url f w1) as Hsend;
      destruct (send_normal_webhook settings outside limit m webhook_url f
                  w1) as [[] w2 | e w2]
  end; cbv beta in Hsend; cbn [world_of] in Hsend.
  - unfold cleanup. cbn [world_of fs].
    now rewrite cleanup_lookup, Hout, Hsend, Hdown.
  - cbn [world_of]. now rewrite Hsend, Hdown.
Qed.

(** Without [upload_images], [send_hook_and_files] is the send. *)
Lemma send_hook_and_files_without_upload
    (settings : Settings) (outside : Outside) (limit : nat)
    (media_links : list string) (msg webhook_url : string) (w : World) :
  upload_images settings = false ->
  send_hook_and_files settings outside limit media_links msg webhook_url w
  = send_normal_webhook settings outside limit
      (message_sent settings media_links msg) webhook_url (Some []) w.
Proof.
  intros Hupload. unfold send_hook_and_files. rewrite Hupload.
  unfold bind at 1. unfold ret at 1. cbn [fst snd]. unfold bind.
  fold (message_sent settings media_links msg).
  destruct (send_normal_webhook settings outside limit
              (message_sent settings media_links msg) webhook_url (Some []) w)
    as [[] w2 | e w2]; reflexivity.
Qed.

(** X15. [send_hook_and_files] changes no file outside the temporary
    directory that it makes, however it ends (by return or by exception) and
    whatever the network answers. Without [upload_images] it changes nothing
    on disk at all and makes no directory. *)
Theorem send_hook_and_files_touches_only_its_directory
    (settings : Settings) (outside : Outside) (limit : nat)
    (media_links : list string) (msg webhook_url : string) (w : World) :
  let run :=
    send_hook_and_files settings outside limit media_links msg webhook_url w in
  (forall path,
     inside (mkdtemp outside (tmp_created w)) path = false ->
     fs (world_of run) !! path = fs w !! path)
  /\ (upload_images settings = false ->
      disk (world_of run) = disk w
      /\ tmp_created (world_of run) = tmp_created w).
Proof.
  intros run. subst run.
  assert (Hoff : upload_images settings = false ->
            disk (world_of
                    (send_hook_and_files settings outside limit media_links
                       msg webhook_url w)) = disk w
            /\ tmp_created
                 (world_of
                    (send_hook_and_files settings outside limit media_links
                       msg webhook_url w)) = tmp_created w).
  { intros Hupload. rewrite send_hook_and_files_without_upload by exact Hupload.
    split.
    - apply (preserves_send_normal_webhook disk disk_ignores_trace).
    - apply (preserves_send_normal_webhook tmp_created (fun _ _ => eq_refl)). }
  split; [|exact Hoff].
  intros path Hout. destruct (upload_images settings) eqn:Hupload.
  - now apply send_hook_and_files_elsewhere.
  - destruct (Hoff eq_refl) as (Hdisk & _). unfold disk in Hdisk.
    now injection Hdisk as -> _.
Qed.

(** The disk after [send_hook_and_files] has returned. *)
Lemma send_hook_and_files_returned
    (settings : Settings) (outside : Outside) (limit : nat)
    (media_links : list string) (msg webhook_url : string) (w w' : World) :
  let temp_dir := mkdtemp outside (tmp_created w) in
  send_hook_and_files settings outside limit media_links msg webhook_url w
  = Return tt w' ->
  if upload_images settings then
    (forall path,
       fs w' !! path = if inside temp_dir path then None else fs w !! path)
    /\ tmpdirs w'
       = List.filter (fun d => negb (d =? temp_dir)) (tmpdirs w)
  else disk w' = disk w.
Proof.
  intros temp_dir. unfold send_hook_and_files.
  destruct (upload_images settings).
  - unfold bind at 1. unfold bind at 1.
    unfold download_images, bind at 1, TemporaryDirectory.
    fold temp_dir. fold (with_directory temp_dir w). unfold bind at 1.
    pose proof (preserves_download_each outside temp_dir media_links []
                  (with_directory temp_dir w)) as Hdirs.
    assert (Hfs : forall path, inside temp_dir path = false ->
              fs (world_of (download_each outside temp_dir media_links []
                              (with_directory temp_dir w))) !! path
              = fs w !! path)
      by (intros path Hout;
          exact (download_each_elsewhere outside temp_dir path media_links
                   Hout [] (with_directory temp_dir w))).
    destruct (download_each outside temp_dir media_links []
                (with_directory temp_dir w)) as [images w1 | e w1];
      [|discriminate].
    cbn [world_of] in Hdirs, Hfs.
    unfold ret at 1. unfold ret at 1. cbn [fst snd]. unfold bind at 1.
    match goal with
    | |- context [send_normal_webhook _ _ _ ?m _ ?f w1] =>
        pose proof (preserves_send_normal_webhook disk disk_ignores_trace
                      settings outside limit m webhook_url f w1) as Hdisk;
        destruct (send_normal_webhook settings outside limit m webhook_url f
                    w1) as [[] w2 | e w2]
    end; [|discriminate].
    cbn [world_of] in Hdisk. unfold disk in Hdisk.
    injection Hdisk as Hfs2 Hdirs2.
    unfold cleanup. intros Hrun. injection Hrun as <-.
    cbn [fs tmpdirs]. split.
    + intros path. rewrite cleanup_lookup, Hfs2.
      destruct (inside temp_dir path) eqn:Hin; [reflexivity|].
      now apply Hfs.
    + rewrite Hdirs2, Hdirs. cbn [tmpdirs with_directory List.filter].
      now rewrite String.eqb_refl.
  - unfold bind at 1. unfold ret at 1. cbn [fst snd]. unfold bind.
    match goal with
    | |- context [send_normal_webhook _ _ _ ?m _ ?f w] =>
        pose proof (preserves_send_normal_webhook disk disk_ignores_trace
                      settings outside limit m webhook_url f w) as Hdisk;
        destruct (send_normal_webhook settings outside limit m webhook_url f
                    w) as [[] w2 | e w2]
    end; [|discriminate].
    cbn [world_of] in Hdisk. unfold ret. intros Hrun.
    now injection Hrun as <-.
Qed.

(** X16. When [send_hook_and_files] returns, it leaves the disk as it found
    it: the temporary directory is removed with all the staged files, and no
    other file or directory has changed. (The directory is new: before the
    call it is not on disk and no file is inside it.) *)
Theorem send_hook_and_files_restores_the_disk
    (settings : Settings) (outside : Outside) (limit : nat)
    (media_links : list string) (msg webhook_url : string) (w w' : World) :
  let temp_dir := mkdtemp outside (tmp_created w) in
  send_hook_and_files settings outside limit media_links msg webhook_url w
  = Return tt w' ->
  ~ In temp_dir (tmpdirs w) ->
  (forall path, inside temp_dir path = true -> fs w !! path = None) ->
  disk w' = disk w.
Proof.
  intros temp_dir Hrun Hnew Hempty.
  pose proof (send_hook_and_files_returned settings outside limit media_links
                msg webhook_url w w' Hrun) as H.
  cbv zeta in H. fold temp_dir in H.
  destruct (upload_images settings); [|exact H].
  destruct H as (Hfs & Hdirs). unfold disk. f_equal.
  - apply map_eq. intros path. rewrite Hfs.
    destruct (inside temp_dir path) eqn:Hin; [|reflexivity].
    symmetry. now apply Hempty.
  - rewrite Hdirs. apply filter_all. intros d Hd.
    destruct (String.eqb_spec d temp_dir) as [-> | _]; [contradiction|].
    reflexivity.
Qed.

Lemma send_hook_and_files_restores_the_disk_witness :
  exists w',
    send_hook_and_files uploading (outside_with all_succeed 0) 0
      ["http://m/a.png"] "hello" "A"
      (world_with_file "/data/keep.txt" "kept")
    = Return tt w'
    /\ disk w' = disk (world_with_file "/data/keep.txt" "kept").
Proof.
  eexists. split; [vm_compute; reflexivity|].
  apply (send_hook_and_files_restores_the_disk uploading
           (outside_with all_succeed 0) 0 ["http://m/a.png"] "hello" "A"
           (world_with_file "/data/keep.txt" "kept")).
  - vm_compute. reflexivity.
  - intros [].
  - intros path Hpath. apply lookup_singleton_None.
    intros <-. discriminate Hpath.
Defined.

(** X17. Without [upload_images], [send_hook_and_files] downloads nothing
    and attaches nothing: when every target answers with success, its only
    requests are the deliveries of the message, one per target. With
    [append_image_links] the message that is delivered is the given message
    followed by every media link, each on a line of its own, in order;
    without it the message is delivered as given. *)
Theorem links_are_appended_not_fetched
    (settings : Settings) (outside : Outside) (limit : nat)
    (answer : string -> Response)
    (media_links : list string) (msg webhook_url : string) (w : World) :
  let message :=
    if append_image_links settings
    then msg +:+ joined (List.map (fun media_link => newline +:+ media_link)
                           media_links)
    else msg in
  upload_images settings = false ->
  webhook_url <> "" ->
  (forall t target, In target (Py.split "," webhook_url) ->
     net outside t (Execute (message_hook message [] target))
     = Responds (answer target)) ->
  (forall target, In target (Py.split "," webhook_url) ->
     ok (answer target) = true) ->
  exists new,
    send_hook_and_files settings outside limit media_links msg webhook_url w
    = Return tt (with_trace (new ++ trace w) w)
    /\ requests new
       = List.map (fun target => Execute (message_hook message [] target))
           (Py.split "," webhook_url)
    /\ reported new = [].
Proof.
  intros message Hupload Hne Hnet Hok.
  rewrite send_hook_and_files_without_upload by exact Hupload.
  rewrite message_sent_with_links. fold (with_links msg media_links) in message.
  fold message.
  destruct (_send_webhook_reporting_answered outside
              (report_error settings outside limit) message webhook_url
              (Some []) answer (fun _ => []) "send_normal_webhook()" w Hne)
    as (new & Hrun & Hreq & Hrep).
  - intros target Hin Hfail. rewrite (Hok target Hin) in Hfail.
    discriminate Hfail.
  - constructor.
  - exact Hnet.
  - destruct (delivery_requests_all_succeed message webhook_url (Some [])
                answer (fun _ => []) (fs w) (Py.split "," webhook_url) Hok)
      as (Hall & Hnone).
    rewrite Hall in Hreq. rewrite Hnone in Hrep.
    exists new. split; [exact Hrun|]. split; [exact Hreq | exact Hrep].
Qed.

Lemma links_are_appended_not_fetched_witness :
  exists new,
    send_hook_and_files appending (outside_with all_succeed 0) 0
      ["http://m/a.png"; "http://m/b.png"] "hello" "A" initial_world
    = Return tt (with_trace (new ++ []) initial_world)
    /\ requests new
       = [Execute
            (message_hook
               ("hello" +:+ newline +:+ "http://m/a.png" +:+ newline
                +:+ "http://m/b.png")
               [] "A")]
    /\ reported new = [].
Proof.
  apply (links_are_appended_not_fetched appending
           (outside_with all_succeed 0) 0 (fun _ => response_200 "data")
           ["http://m/a.png"; "http://m/b.png"] "hello" "A" initial_world).
  - reflexivity.
  - discriminate.
  - intros t target _. reflexivity.
  - intros target _. reflexivity.
Defined.

(** ** Exceptions on the way *)

(** X18. A response that is a failure does not stop [send_normal_webhook],
    an exception does: when the request to one target raises (the
    connection fails, the address has no scheme), the exception leaves the
    function at once. The targets before it have had their request, the
    targets after it get nothing. *)
Theorem delivery_exception_stops_the_loop
    (settings : Settings) (outside : Outside) (limit : nat)
    (msg webhook : string) (files_ : option (list string))
    (before after : list string) (target : string)
    (answer : string -> Response) (e : exn) (w : World) :
  webhook <> "" ->
  Py.split "," webhook = before ++ target :: after ->
  Forall (fun file => readable (fs w) file = true) (default [] files_) ->
  (forall t u, In u before ->
     net outside t (Execute (message_hook msg (attachments (fs w) files_) u))
     = Responds (answer u)) ->
  (forall u, In u before -> ok (answer u) = true) ->
  (forall t,
     net outside t
       (Execute (message_hook msg (attachments (fs w) files_) target))
     = Fails e) ->
  exists new,
    send_normal_webhook settings outside limit msg webhook files_ w
    = Raise e (with_trace (new ++ trace w) w)
    /\ requests new
       = List.map
           (fun u =>
              Execute (message_hook msg (attachments (fs w) files_) u))
           (before ++ [target]).
Proof.
  intros Hne Hsplit Hfiles Hnet Hok Hraise.
  unfold send_normal_webhook, _send_webhook, _send_webhook_reporting.
  unfold bind at 1 2, log, emit. rewrite (truthy_true _ Hne), Hsplit.
  cbn [negb]. rewrite for_each_app. unfold bind at 1.
  match goal with
  | |- context [for_each before _ ?w1] =>
      destruct (_send_webhook_loop_answered outside
                  (report_error settings outside limit) msg webhook files_
                  answer (fun _ => []) before) with (w := w1)
        as (new & Hrun & Hreq & _)
  end.
  - intros u Hu Hfail. rewrite (Hok u Hu) in Hfail. discriminate Hfail.
  - exact Hfiles.
  - exact Hnet.
  - destruct (delivery_requests_all_succeed msg webhook files_ answer
                (fun _ => []) (fs w) before Hok) as (Hall & _).
    cbn [fs with_trace] in Hreq. rewrite Hall in Hreq.
    rewrite Hrun. cbn [for_each]. unfold bind at 1.
    rewrite (_send_webhook_to_raises outside _ msg webhook files_ target _ e)
      by (try exact Hfiles; apply Hraise).
    tidy_world. cbn [fs with_trace].
    exists ([Net (Execute
                    (message_hook msg (attachments (fs w) files_) target));
             Log DEBUG "Webhook URL: {}" [target]]
            ++ new
            ++ [Log DEBUG "{} - Webhook URL: {}"
                  ["send_normal_webhook()"; webhook];
                Log DEBUG "{} - Message: {}" ["send_normal_webhook()"; msg]]).
    split.
    + cbn [app]. now rewrite <- app_assoc.
    + rewrite !requests_app, Hreq, List.map_app. reflexivity.
Qed.

Lemma delivery_exception_stops_the_loop_witness :
  exists new,
    send_normal_webhook default_settings (outside_with only_B_breaks 0) 0
      "hello" "A,B,C" None initial_world
    = Raise ConnectionError (with_trace (new ++ []) initial_world)
    /\ requests new
       = [Execute (message_hook "hello" [] "A");
          Execute (message_hook "hello" [] "B")].
Proof.
  apply (delivery_exception_stops_the_loop default_settings
           (outside_with only_B_breaks 0) 0 "hello" "A,B,C" None
           ["A"] ["C"] "B" (fun _ => response_200 "") ConnectionError
           initial_world).
  - discriminate.
  - reflexivity.
  - constructor.
  - intros t u [<- | []]. reflexivity.
  - intros u _. reflexivity.
  - intros t. reflexivity.
Defined.

(** X19. A post with two media links or more is not sent when the request
    to the collage service raises (a timeout, a connection error):
    [send_embed_webhook] raises the exception after that one request, and no
    target receives the embed. *)
Theorem unreachable_collage_service_loses_the_post
    (settings : Settings) (outside : Outside) (limit : nat) (tweet_id : Z)
    (first second : string) (rest : list string)
    (text_ card avatar display_name webhook username : string) (e : exn)
    (w : World) :
  webhook <> "" ->
  net outside (trace w) (collage_request settings tweet_id) = Fails e ->
  send_embed_webhook settings outside limit tweet_id
    (first :: second :: rest) text_ card avatar display_name webhook username
    w
  = Raise e (asked settings tweet_id w)
  /\ requests (trace (asked settings tweet_id w))
     = requests (trace w)
       ++ [Get (collage_maker_url settings) [("tweet_id", Py.str tweet_id)]
             false].
Proof.
  intros Hne Hnet. split.
  - unfold send_embed_webhook. rewrite (truthy_true _ Hne). cbn [negb].
    unfold bind at 1, build_embed. unfold bind at 1.
    now rewrite (get_embed_image_collage_raises settings outside limit
                   tweet_id first second rest w e Hnet).
  - unfold asked, collage_request.
    change (Net (Get (collage_maker_url settings)
                   [("tweet_id", Py.str tweet_id)] false) :: trace w)
      with ([Net (Get (collage_maker_url settings)
                    [("tweet_id", Py.str tweet_id)] false)] ++ trace w).
    tidy_world. now rewrite requests_app.
Qed.

Lemma unreachable_collage_service_loses_the_post_witness :
  send_embed_webhook default_settings (outside_with collage_times_out 0) 0 42
    ["http://m/1.png"; "http://m/2.png"] "text" "" "http://a/i.png" "Alice"
    "A,B" "alice" initial_world
  = Raise Timeout (asked default_settings 42 initial_world)
  /\ requests (trace (asked default_settings 42 initial_world))
     = [Get "https://twitter.lovinator.space/add" [("tweet_id", "42")] false].
Proof.
  apply (unreachable_collage_service_loses_the_post default_settings
           (outside_with collage_times_out 0) 0 42 "http://m/1.png"
           "http://m/2.png" [] "text" "" "http://a/i.png" "Alice" "A,B"
           "alice" Timeout initial_world).
  - discriminate.
  - reflexivity.
Defined.

(** X20. A configured color of the right shape that [int(_, 16)] rejects
    loses every embed: for a post with at most one media link
    [send_embed_webhook] raises [ValueError] before anything is logged or
    requested, whatever the destination. *)
Theorem rejected_color_loses_every_embed
    (settings : Settings) (outside : Outside) (limit : nat) (tweet_id : Z)
    (media_links : list string) (digits : string)
    (text_ card avatar display_name webhook username : string) (w : World) :
  webhook <> "" ->
  (List.length media_links <= 1)%nat ->
  webhook_embed_color settings = String "#" digits ->
  String.length digits = 6%nat ->
  Py.int16 digits = None ->
  send_embed_webhook settings outside limit tweet_id media_links text_ card
    avatar display_name webhook username w
  = Raise ValueError w.
Proof.
  intros Hne Hmedia Hcolor Hlen Hint.
  unfold send_embed_webhook. rewrite (truthy_true _ Hne). cbn [negb].
  unfold bind at 1, build_embed. unfold bind at 1.
  assert (Himage : exists u,
             get_embed_image settings outside limit media_links tweet_id w
             = Return u w).
  { destruct media_links as [|only [|second rest]].
    - now exists "".
    - now exists only.
    - cbn in Hmedia. lia. }
  destruct Himage as (u & ->).
  now rewrite (set_color_fixed_not_a_number settings outside digits _ w
                 Hcolor Hlen Hint).
Qed.

Lemma rejected_color_loses_every_embed_witness :
  send_embed_webhook (colored "#1DA1FZ" false) (outside_with all_succeed 0) 0
    42 ["http://m/1.png"] "text" "" "http://a/i.png" "Alice" "A,B" "alice"
    initial_world
  = Raise ValueError initial_world.
Proof.
  apply (rejected_color_loses_every_embed (colored "#1DA1FZ" false)
           (outside_with all_succeed 0) 0 42 ["http://m/1.png"] "1DA1FZ").
  - discriminate.
  - cbn. lia.
  - reflexivity.
  - reflexivity.
  - reflexivity.
Defined.

(** The loop of [download_images] over two lists, one after the other. *)
Lemma download_each_app (outside : Outside) (temp_dir : string)
    (xs ys : list string) :
  forall images w,
    download_each outside temp_dir (xs ++ ys) images w
    = bind (download_each outside temp_dir xs images)
        (fun images' => download_each outside temp_dir ys images') w.
Proof.
  induction xs as [|x xs IH]; intros images w; [reflexivity|].
  cbn [app download_each]. unfold bind.
  destruct (perform outside (Get x [] true) w) as [res w1 | e w1];
    [|reflexivity].
  match goal with
  | |- context [match ?m w1 with _ => _ end] =>
      destruct (m w1) as [imgs w2 | e w2]; [|reflexivity]
  end.
  rewrite IH. reflexivity.
Qed.

(** X21. A download that raises (a timeout, a connection error) stops the
    post: [send_hook_and_files] raises the exception, the links after it are
    not asked for, no message is sent, and the temporary directory stays on
    disk with the files staged before the exception. *)
Theorem download_exception_stops_the_post
    (settings : Settings) (outside : Outside) (limit : nat)
    (answer : string -> Response)
    (before after : list string) (u msg webhook_url : string) (e : exn)
    (w : World) :
  let temp_dir := mkdtemp outside (tmp_created w) in
  upload_images settings = true ->
  (forall t v, In v before ->
     net outside t (Get v [] true) = Responds (answer v)) ->
  (forall v, In v before -> ok (answer v) = true ->
     names_directory v = false) ->
  (forall t, net outside t (Get u [] true) = Fails e) ->
  exists new w',
    send_hook_and_files settings outside limit (before ++ u :: after) msg
      webhook_url w
    = Raise e w'
    /\ trace w' = new ++ trace w
    /\ requests new = List.map (fun v => Get v [] true) (before ++ [u])
    /\ In temp_dir (tmpdirs w')
    /\ Forall (fun path => is_Some (fs w' !! path))
         (List.map (staged_path temp_dir)
            (List.filter (fun v => ok (answer v)) before)).
Proof.
  intros temp_dir Hupload Hnet Hname Hraise.
  destruct (download_each_run outside answer temp_dir before Hnet Hname []
              (with_directory temp_dir w))
    as (new & Hrun & Hreq & _).
  exists (Net (Get u [] true) :: new). eexists. split; [|split; [|split]].
  - unfold send_hook_and_files. rewrite Hupload.
    unfold bind at 1. unfold bind at 1.
    unfold download_images, bind at 1, TemporaryDirectory.
    fold temp_dir. fold (with_directory temp_dir w). unfold bind at 1.
    rewrite download_each_app. unfold bind at 1. rewrite Hrun.
    cbn [download_each]. unfold bind at 1, perform. rewrite Hraise.
    reflexivity.
  - reflexivity.
  - change (Net (Get u [] true) :: new) with ([Net (Get u [] true)] ++ new).
    rewrite requests_app, Hreq, List.map_app. reflexivity.
  - split; [now left|].
    apply List.Forall_forall. intros path Hpath.
    apply List.in_map_iff in Hpath as (v & <- & Hv).
    apply List.filter_In in Hv as (Hin & Hok).
    cbn [fs with_fs with_trace]. now apply fold_stage_present.
Qed.

Lemma download_exception_stops_the_post_witness :
  exists new w',
    send_hook_and_files uploading (outside_with slow_links_time_out 0)
      0 (["http://m/a.png"] ++ "http://slow/b.png" :: ["http://m/c.png"])
      "hello" "A" initial_world
    = Raise Timeout w'
    /\ trace w' = new ++ []
    /\ requests new
       = [Get "http://m/a.png" [] true; Get "http://slow/b.png" [] true]
    /\ In "/tmp/tmp0" (tmpdirs w')
    /\ Forall (fun path => is_Some (fs w' !! path)) ["/tmp/tmp0/a.png"].
Proof.
  apply (download_exception_stops_the_post uploading
           (outside_with slow_links_time_out 0) 0
           (fun _ => response_200 "data") ["http://m/a.png"]
           ["http://m/c.png"] "http://slow/b.png" "hello" "A" Timeout
           initial_world).
  - reflexivity.
  - intros t v [<- | []]. reflexivity.
  - intros v [<- | []] _. reflexivity.
  - intros t. reflexivity.
Defined.

(** ** The settings module *)

(** X22. How the import of the settings ends depends on four variables
    and on the root logger, looked at in this order. Without [WEBHOOK_URL] it
    raises [KeyError], whether or not the token and the rule are there. With
    it, an unset or empty [BEARER_TOKEN] stops the interpreter with the
    message of the token; then an unset or empty [RULE] stops it with the
    message of the rule. Then [logging.basicConfig] raises [ValueError] when
    the root logger has no handler yet and the level ([LOG_LEVEL], or
    ["INFO"] when it is not set) is not one of the names that [logging]
    knows: a level in lower case and an empty one are rejected. The names are
    bound exactly when [WEBHOOK_URL] is set (an empty text is enough), the
    token and the rule are set to texts that are not empty, and the level is
    known or the root logger has a handler already. *)
Theorem import_settings_ends_by_its_checks
    (load_dotenv : SettingsPy.Environ -> SettingsPy.Environ)
    (root_has_handlers : bool) (environ : SettingsPy.Environ) :
  let env := load_dotenv environ in
  let run := SettingsPy.import_settings load_dotenv root_has_handlers environ in
  let level := default "INFO" (env !! "LOG_LEVEL") in
  (run = SettingsPy.KeyError "WEBHOOK_URL" <-> env !! "WEBHOOK_URL" = None)
  /\ (run = SettingsPy.SystemExit "No bearer token found, exiting"
      <-> is_Some (env !! "WEBHOOK_URL")
          /\ SettingsPy.provided env "BEARER_TOKEN" = false)
  /\ (run = SettingsPy.SystemExit "No rule found, exiting"
      <-> is_Some (env !! "WEBHOOK_URL")
          /\ SettingsPy.provided env "BEARER_TOKEN" = true
          /\ SettingsPy.provided env "RULE" = false)
  /\ (run = SettingsPy.ValueError level
      <-> is_Some (env !! "WEBHOOK_URL")
          /\ SettingsPy.provided env "BEARER_TOKEN" = true
          /\ SettingsPy.provided env "RULE" = true
          /\ root_has_handlers = false
          /\ SettingsPy.known_level level = false)
  /\ ((exists ns, run = SettingsPy.Bound ns)
      <-> is_Some (env !! "WEBHOOK_URL")
          /\ SettingsPy.provided env "BEARER_TOKEN" = true
          /\ SettingsPy.provided env "RULE" = true
          /\ (root_has_handlers = true
              \/ SettingsPy.known_level level = true))
  /\ SettingsPy.known_level "INFO" = true
  /\ SettingsPy.known_level "info" = false
  /\ SettingsPy.known_level "" = false.
Proof.
  intros env run level. subst run.
  unfold SettingsPy.import_settings, SettingsPy.basicConfig.
  fold env. unfold SettingsPy.provided.
  change (SettingsPy.getenv env "LOG_LEVEL" "INFO") with level.
  unfold is_Some.
  destruct (env !! "WEBHOOK_URL") as [url_|];
    [destruct (Py.truthy (SettingsPy.getenv env "BEARER_TOKEN" "")),
       (Py.truthy (SettingsPy.getenv env "RULE" "")), root_has_handlers,
       (SettingsPy.known_level level); cbn [negb]|];
    repeat split; intros;
    repeat match goal with
           | H : _ /\ _ |- _ => destruct H
           | H : exists _, _ |- _ => destruct H
           | H : _ \/ _ |- _ => destruct H
           end;
    try discriminate; eauto.
Qed.

(** X23. Settings that are bound can be relied on: the bearer token and
    the first rule are not empty, every bound text is the value of its
    variable, the rules 2 to 5 are the empty text when their variable is not
    set, the webhooks 2 to 5 are [None] when theirs is not, and the log level
    and the address of the collage maker fall back on ["INFO"] and on
    [https://twitter.lovinator.space/add]. *)
Theorem bound_settings_are_complete
    (load_dotenv : SettingsPy.Environ -> SettingsPy.Environ)
    (root_has_handlers : bool) (environ : SettingsPy.Environ)
    (ns : SettingsPy.Namespace) :
  let env := load_dotenv environ in
  SettingsPy.import_settings load_dotenv root_has_handlers environ
  = SettingsPy.Bound ns ->
  SettingsPy.bearer_token ns <> ""
  /\ SettingsPy.rule ns <> ""
  /\ env !! "BEARER_TOKEN" = Some (SettingsPy.bearer_token ns)
  /\ env !! "RULE" = Some (SettingsPy.rule ns)
  /\ env !! "WEBHOOK_URL" = Some (SettingsPy.webhook_url ns)
  /\ [SettingsPy.webhook_url2 ns; SettingsPy.webhook_url3 ns;
      SettingsPy.webhook_url4 ns; SettingsPy.webhook_url5 ns]
     = [env !! "WEBHOOK_URL2"; env !! "WEBHOOK_URL3"; env !! "WEBHOOK_URL4";
        env !! "WEBHOOK_URL5"]
  /\ [SettingsPy.rule2 ns; SettingsPy.rule3 ns; SettingsPy.rule4 ns;
      SettingsPy.rule5 ns]
     = [default "" (env !! "RULE2"); default "" (env !! "RULE3");
        default "" (env !! "RULE4"); default "" (env !! "RULE5")]
  /\ SettingsPy.log_level ns = default "INFO" (env !! "LOG_LEVEL")
  /\ SettingsPy.collage_maker_url ns
     = default "https://twitter.lovinator.space/add"
         (env !! "TWITTER_IMAGE_COLLAGE_API").
Proof.
  intros env. unfold SettingsPy.import_settings. fold env.
  destruct (env !! "WEBHOOK_URL") as [url_|]; [|discriminate].
  unfold Py.truthy, SettingsPy.getenv. rewrite !negb_involutive.
  destruct (env !! "BEARER_TOKEN") as [token|]; cbn [default from_option];
    unfold id; [|discriminate].
  destruct (String.eqb_spec token ""); [discriminate|].
  destruct (env !! "RULE") as [first_rule|]; cbn [default from_option];
    unfold id; [|discriminate].
  destruct (String.eqb_spec first_rule ""); [discriminate|].
  destruct (SettingsPy.basicConfig root_has_handlers _); [discriminate|].
  intros H. injection H as <-. cbn. repeat split; assumption.
Qed.

Lemma bound_settings_are_complete_witness :
  exists ns,
    SettingsPy.import_settings (fun environ => environ) false minimal_environ
    = SettingsPy.Bound ns
    /\ SettingsPy.bearer_token ns <> ""
    /\ SettingsPy.rule ns = "from:alice"
    /\ SettingsPy.webhook_url2 ns = None
    /\ SettingsPy.rule2 ns = ""
    /\ SettingsPy.log_level ns = "INFO"
    /\ SettingsPy.collage_maker_url ns = "https://twitter.lovinator.space/add".
Proof.
  eexists. split; [vm_compute; reflexivity|].
  destruct (bound_settings_are_complete (fun environ => environ) false
              minimal_environ _ ltac:(vm_compute; reflexivity))
    as (Htoken & _).
  split; [exact Htoken|]. repeat split; reflexivity.
Defined.

(** A log level in lower case stops the import, unless [logging] was
    configured before. *)
Example lower_case_level_is_rejected :
  SettingsPy.import_settings (fun environ => environ) false
    lower_case_level_environ
  = SettingsPy.ValueError "debug"
  /\ exists ns,
       SettingsPy.import_settings (fun environ => environ) true
         lower_case_level_environ
       = SettingsPy.Bound ns
       /\ SettingsPy.log_level ns = "debug".
Proof.
  split; [vm_compute; reflexivity|].
  eexists. split; [vm_compute; reflexivity|]. reflexivity.
Qed.
